(** * DM2_FRONTEND: the report aggregation of the Reports page and the
      backup / restore engine of the Settings page

    A shallow embedding of the two pieces of client logic that carry
    invariants: the derived figures of [ReportsPage] (moving average,
    month-over-month change, top-N categories, anomalies) and the
    import / export handlers of [SettingsPage] ([handleFile], [runImport],
    [downloadJson]).

    How the source is read.

    - Numbers.  JavaScript numbers are IEEE doubles.  Where an outcome
      depends on how doubles round or overflow (the mean of the series, the
      moving average and its rounding to two decimals, the thresholds of the
      anomalies), numbers are the doubles themselves: [double], the binary64
      floats of [PrimFloat], with the arithmetic and the comparisons of
      IEEE 754, and a decimal literal is the double nearest to it, as in the
      source.  Where a definition only compares, selects or orders values,
      they are read as the exact rationals they denote ([Q], the same
      number when [Qeq], [==]), and what is proved of it is a fact of order
      or the expression the code evaluates.
    - Each [useMemo] of the Reports page is a function of the values in its
      dependency array.
    - A handler of the Settings page is a state transformer over the React
      state of the page, the state of the server and a log of what can be
      observed (requests with their responses, progress reports,
      downloads); it may end by throwing.
    - The server is any state machine over the requests.  A promise is
      settled when the request is sent, so the requests that the source
      sends together and awaits with [Promise.all] are answered in the order
      they were sent, and the rejection [Promise.all] reports is the first
      one in that order.
    - [runImport] is modelled on the documents of the declared type
      [BackupPayload]: each of [expenses], [budgets], [savings] an array or
      absent.  The entries of the arrays are arbitrary JSON values.

    Around these, the development covers the rest of the two pages and what
    they call: the window and the headline figures of the Reports page and
    its CSV exports; [clearData], [seedDemoData] and the CSV exports of the
    Settings page, with the progress bar of an import; [joinUrl] and
    [request] of the API client; and the Savings page, which shares a
    source file with the Reports page, with the [ProgressBar] component.

    - The Savings page is read at its declared types: a goal is a record of
      numbers and a name, and the server answers a request that changes a
      goal with a goal.
    - What only the engine decides ([trim], [toLowerCase], [localeCompare],
      the text of a number) is a parameter of the definitions that use it.
    - The texts of the CSV exports are judged by reading them back with a
      CSV reader ([Csv.read]). *)

From Stdlib Require Import PrimFloat.
From Stdlib Require SpecFloat FloatOps.
From Stdlib Require Import String Ascii.
From Stdlib Require Import List ZArith QArith Qround Qabs Bool Lia Lqa.
From Stdlib Require Import Permutation Sorted DecimalString.
Import ListNotations.

Set Warnings "-register-all,-inexact-float".

Open Scope Q_scope.

(** ** The fragment of the JavaScript library the two pages use *)

Module JS.

Abbreviation number := Q (only parsing).

(** [a < b] on numbers, as a boolean. *)
Definition ltb (a b : number) : bool := negb (Qle_bool b a).

(** [Number(v || 0)] for a [v] that is already a number: zero is falsy and is
    replaced by the literal [0], every other number is kept. *)
Definition number_or_zero (v : number) : number :=
  if Qeq_bool v 0 then 0 else v.

(** A relative index of [Array.prototype.slice]: a negative index counts from
    the end, and the result is clamped to [0 .. len]. *)
Definition relative_index (len : nat) (i : Z) : nat :=
  if (i <? 0)%Z then Z.to_nat (Z.max (Z.of_nat len + i) 0)
  else Nat.min (Z.to_nat i) len.

(** [l.slice(start, end)]; [end_ = None] is the one-argument call. *)
Definition slice {A : Type} (l : list A) (start : Z) (end_ : option Z) : list A :=
  let len := length l in
  let k := relative_index len start in
  let final := match end_ with
               | None => len
               | Some e => relative_index len e
               end in
  firstn (final - k) (skipn k l).

(** [l.map((x, i) => f(x, i))], the index counted from [i0]. *)
Fixpoint mapi_from {A B : Type} (f : A -> nat -> B) (i0 : nat) (l : list A) : list B :=
  match l with
  | [] => []
  | x :: l' => f x i0 :: mapi_from f (S i0) l'
  end.

Definition mapi {A B : Type} (f : A -> nat -> B) (l : list A) : list B :=
  mapi_from f 0 l.

(** [Array.prototype.sort(cmp)].  The sort is stable, and [a] is placed after
    [b] exactly when [cmp(a, b) > 0]; for a consistent comparator this fixes
    the result, which a stable insertion sort computes. *)
Fixpoint insert_by {A : Type} (cmp : A -> A -> number) (x : A) (l : list A) : list A :=
  match l with
  | [] => [x]
  | y :: l' => if ltb 0 (cmp x y) then y :: insert_by cmp x l' else x :: l
  end.

Definition sort {A : Type} (cmp : A -> A -> number) (l : list A) : list A :=
  fold_right (insert_by cmp) [] l.

(** [Math.max(a, b)] and [Math.min(a, b)]. *)
Definition Math_max2 (a b : number) : number := if ltb a b then b else a.

Definition Math_min2 (a b : number) : number := if ltb b a then b else a.

(** [Math.max(x, ...xs)] and [Math.min(x, ...xs)], for at least one
    argument. *)
Definition Math_max (x : number) (xs : list number) : number :=
  fold_left Math_max2 xs x.

Definition Math_min (x : number) (xs : list number) : number :=
  fold_left Math_min2 xs x.

(** [Math.round(x)]: the integer nearest to [x], a tie going up. *)
Definition Math_round (x : number) : number :=
  inject_Z (Qfloor (x + (1 # 2))).

(** [s.includes(part)] *)
Definition includes (s part : string) : bool :=
  match index 0 part s with
  | Some _ => true
  | None => false
  end.

(** [arr.indexOf(x)]; [None] is the [-1] of a value that is not there. *)
Fixpoint indexOf (arr : list number) (x : number) : option nat :=
  match arr with
  | [] => None
  | y :: arr' => if Qeq_bool y x then Some 0%nat else option_map S (indexOf arr' x)
  end.

(** *** Doubles *)

(** A number of the engine: a binary64 float.  [PrimFloat.add], [sub], [mul]
    and [div] round to nearest, ties to even; [PrimFloat.ltb], [leb] and
    [eqb] are the comparisons of IEEE 754, false on [NaN]. *)
Abbreviation double := PrimFloat.float (only parsing).

(** [!x] for a number: zero, of either sign, and [NaN] are falsy. *)
Definition falsy (x : double) : bool :=
  PrimFloat.is_zero x || PrimFloat.is_nan x.

(** [Number(v || 0)] and [v || 0] for a [v] that is already a number. *)
Definition double_or_zero (v : double) : double :=
  if falsy v then 0%float else v.

(** The double of an integer, such as a length: the nearest one. *)
Definition Number_of_integer (z : Z) : double :=
  FloatOps.SF2Prim (SpecFloat.binary_normalize FloatOps.prec FloatOps.emax z 0 false).

(** The rational a finite double stands for, [m * 2 ^ e]. *)
Definition exact (x : double) : Q :=
  match FloatOps.Prim2SF x with
  | SpecFloat.S754_finite s m e =>
      (if s then - inject_Z (Zpos m) else inject_Z (Zpos m)) * Qpower 2 e
  | _ => 0
  end.

(** [Number(text)] for the decimal text of [n] hundredths, [n >= 0]: the
    double nearest to [n / 100]. *)
Definition hundredths (n : Z) : double :=
  match n with
  | Zpos p =>
      FloatOps.SF2Prim
        (SpecFloat.SFdiv FloatOps.prec FloatOps.emax
           (SpecFloat.S754_finite false p 0) (SpecFloat.S754_finite false 100 0))
  | _ => 0%float
  end.

(** [Number(x.toFixed(2))].  [toFixed] writes [NaN] and the infinities by
    name and a number from [1e21] on as [String] does, so that [Number]
    gives [x] back.  Otherwise it writes, after the sign of a negative [x],
    the integer [n] for which [n / 100] is nearest to the exact value of
    [|x|], the larger one of two, with two decimals; [Number] reads that
    text as the nearest double. *)
Definition toFixed2 (x : double) : double :=
  if PrimFloat.is_nan x || PrimFloat.is_infinity x then x
  else if (1e21 <=? PrimFloat.abs x)%float then x
  else
    let n := Qfloor (Qabs (exact x) * 100 + (1 # 2)) in
    if (x <? 0)%float then (- hundredths n)%float else hundredths n.

End JS.

(** ** The Reports page *)

Module Reports.

Import JS.

(** An entry of [byCat]. *)
Record Category := { k : string; v : number }.

(** [MonthlyData], the summary the page loads. *)
Record MonthlyData := {
  monthly : list (string * number);
  byCat : list Category;
  forecast : option number
}.

(** A month with its value: the best one, the worst one. *)
Record Month := { label : string; value : number }.

(** [(data?.monthly || []).map(([m]) => String(m))] *)
Definition monthlyLabelsAll (data : option MonthlyData) : list string :=
  map fst (match data with Some d => monthly d | None => [] end).

(** [(data?.monthly || []).map(([, v]) => Number(v || 0))] *)
Definition monthlyValuesAll (data : option MonthlyData) : list number :=
  map (fun mv => number_or_zero (snd mv))
      (match data with Some d => monthly d | None => [] end).

Definition windowSize (monthsWindow : Z) (monthlyLabelsAll : list string) : Z :=
  if negb (monthsWindow =? 0)%Z && (0 <? monthsWindow)%Z
  then Z.min monthsWindow (Z.of_nat (length monthlyLabelsAll))
  else Z.of_nat (length monthlyLabelsAll).

(** [monthlyValuesAll.slice(-windowSize)] *)
Definition monthlyValues (monthlyValuesAll : list number) (windowSize : Z) : list number :=
  slice monthlyValuesAll (- windowSize) None.

(** [arr.reduce((s, x) => s + x, 0)] *)
Definition sum (arr : list number) : number :=
  fold_left Qplus arr 0.

(** The mean, the moving average and the anomalies depend on how sums and
    products round, and they are given the series as the doubles it holds.
    [sum] again, on the doubles themselves: every addition rounds, and the
    total can overflow to an infinity. *)
Definition sum_doubles (arr : list double) : double :=
  fold_left PrimFloat.add arr 0%float.

(** [arr.length ? sum(arr) / arr.length : 0] *)
Definition avg (arr : list double) : double :=
  match length arr with
  | O => 0%float
  | n => (sum_doubles arr / Number_of_integer (Z.of_nat n))%float
  end.

Definition avgMonthly (monthlyValuesAll : list double) : double :=
  avg monthlyValuesAll.


(** The moving average over the windowed series; an entry [None] is the
    [null] the chart skips. *)
Definition movingAvg (monthlyValues : list double) (maWindow : Z) : list (option double) :=
  if (maWindow =? 0)%Z || (maWindow <=? 1)%Z then []
  else
    mapi (fun _ i =>
            if (Z.of_nat i + 1 <? maWindow)%Z then None
            else
              let w := slice monthlyValues (Z.of_nat i - maWindow + 1)
                             (Some (Z.of_nat i + 1)%Z) in
              Some (toFixed2 (sum_doubles w / Number_of_integer maWindow)%float))
         monthlyValues.

(** [data?.byCat || []] *)
Definition categoriesRaw (data : option MonthlyData) : list Category :=
  match data with Some d => byCat d | None => [] end.

(** The comparator of the category sort:
    [Number(b.v || 0) - Number(a.v || 0)]. *)
Definition byAmountDesc (a b : Category) : number :=
  number_or_zero (v b) - number_or_zero (v a).

Definition categoriesSorted (categoriesRaw : list Category) : list Category :=
  sort byAmountDesc categoriesRaw.


(** The flagged months, each a pair of its label and its value. *)
Definition anomalies (monthlyLabelsAll : list string) (monthlyValuesAll : list double)
  (avgMonthly : double) : list (string * double) :=
  let a := double_or_zero avgMonthly in
  if falsy a then []
  else
    filter (fun m => (a * 1.3 <? snd m)%float || (snd m <? a * 0.7)%float)
           (mapi (fun x i => (nth i monthlyLabelsAll ""%string, x)) monthlyValuesAll).

(** [monthlyLabelsAll.slice(-windowSize)] *)
Definition monthlyLabels (monthlyLabelsAll : list string) (windowSize : Z) : list string :=
  slice monthlyLabelsAll (- windowSize) None.

(** The month of the highest value.  [indexOf] is given an entry of the
    array it searches, so that the index is always found (the last branch
    stands for the [undefined] fields an index of [-1] would read). *)
Definition best (monthlyLabelsAll : list string) (monthlyValuesAll : list number) : Month :=
  match monthlyValuesAll with
  | [] => {| label := "-"; value := 0 |}
  | x :: xs =>
      match indexOf monthlyValuesAll (Math_max x xs) with
      | Some i => {| label := nth i monthlyLabelsAll ""%string;
                     value := nth i monthlyValuesAll 0 |}
      | None => {| label := ""; value := 0 |}
      end
  end.

(** The month of the lowest value. *)
Definition worst (monthlyLabelsAll : list string) (monthlyValuesAll : list number) : Month :=
  match monthlyValuesAll with
  | [] => {| label := "-"; value := 0 |}
  | x :: xs =>
      match indexOf monthlyValuesAll (Math_min x xs) with
      | Some i => {| label := nth i monthlyLabelsAll ""%string;
                     value := nth i monthlyValuesAll 0 |}
      | None => {| label := ""; value := 0 |}
      end
  end.



(** *** The CSV exports of the page *)

Section Exporting.

(** The text of a number in a template literal, which the engine
    decides. *)
Variable String_of_number : number -> string.

(** The text [exportMonthlyCSV] downloads: the header, then one line per
    windowed label with the value at the same index ([undefined] when
    there is none), joined by line feeds. *)
Definition exportMonthlyCSV (monthlyLabels : list string) (monthlyValues : list number) :
  string :=
  String.concat (String (ascii_of_nat 10) EmptyString)
    ("month,amount"%string
     :: mapi (fun m i =>
                (m ++ ","
                 ++ match nth_error monthlyValues i with
                    | Some x => String_of_number x
                    | None => "undefined"
                    end)%string)
             monthlyLabels).

(** The text [exportCategoriesCSV] downloads: the header, then one line per
    category, in sorted order. *)
Definition exportCategoriesCSV (categoriesSorted : list Category) : string :=
  String.concat (String (ascii_of_nat 10) EmptyString)
    ("category,amount"%string
     :: map (fun c => (k c ++ "," ++ String_of_number (v c))%string) categoriesSorted).

End Exporting.

End Reports.

(** ** The Settings page: backup and restore *)

Module Settings.

Import JS.

(** *** JSON values and the operations the handlers apply to them *)

(** What [JSON.parse] and the API client return.  An object keeps its
    fields in document order; [JSON.parse] leaves one value per key. *)
Inductive json :=
| JNull
| JBool (b : bool)
| JNum (n : number)
| JStr (s : string)
| JArr (items : list json)
| JObj (fields : list (string * json)).

(** A JavaScript value of the handlers: a JSON value or [undefined]. *)
Abbreviation value := (option json) (only parsing).
Abbreviation undefined := (@None json) (only parsing).

(** The result of [Number(...)]: a number or [NaN]. *)
Inductive numeric :=
| Finite (q : number)
| NaN.

(** How an evaluation ends: with a value, or by throwing an [Error] of the
    given [message] (every value thrown in these handlers is an [Error]). *)
Inductive completion (A : Type) :=
| Normal (a : A)
| Throw (message : string).

Arguments Normal {A} a.
Arguments Throw {A} message.

(** The two [TypeError]s the handlers can raise. *)
Inductive TypeErrorKind :=
| PropertyOfNullish (key : string)
| NotAFunction (key : string).

(** What the JavaScript engine decides: the parser, the conversion of a
    string to a number, the string form of an array or object, the text of
    a [TypeError] and the reading of the clock. *)
Class Engine := {
  JSON_parse : string -> completion json;
  StringToNumber : string -> numeric;
  ToString : json -> string;
  TypeError_message : TypeErrorKind -> string;
  Date_toISOString : string
}.

(** The requests of the [api] object that the Settings page sends. *)
Inductive Call :=
| getExpenses
| getBudgets
| getSavings
| deleteExpense (id : value)
| deleteBudget (id : value)
| deleteSaving (id : value)
| createExpense (date category description : value) (amount : numeric)
| createBudget (category : value) (limit : numeric)
| createSaving (name : value) (target : numeric)
| updateSaving (id : value) (current : numeric).

(** How the promise of a request settles: [request] resolves with the body
    of the response or rejects with an [Error] of that message. *)
Inductive Response :=
| Resolve (body : json)
| Reject (message : string).

(** The server behind the API: any state machine over the requests. *)
Class Backend := {
  server_state : Type;
  respond : server_state -> Call -> Response * server_state
}.

Definition lookup (key : string) (fields : list (string * json)) : value :=
  option_map snd (find (fun kv => String.eqb (fst kv) key) fields).

(** [typeof x === "object"] *)
Definition typeof_object (x : json) : bool :=
  match x with
  | JNull | JArr _ | JObj _ => true
  | JBool _ | JNum _ | JStr _ => false
  end.

Definition Array_isArray (x : value) : bool :=
  match x with
  | Some (JArr _) => true
  | _ => false
  end.

(** Truthiness, as [||], [&&], [!] and [if] test it. *)
Definition truthy (x : value) : bool :=
  match x with
  | None | Some JNull => false
  | Some (JBool b) => b
  | Some (JNum n) => negb (Qeq_bool n 0)
  | Some (JStr s) => negb (String.eqb s "")
  | Some (JArr _) | Some (JObj _) => true
  end.

(** [n > 0] *)
Definition positive (n : numeric) : bool :=
  match n with
  | Finite q => ltb 0 q
  | NaN => false
  end.

Section WithEngine.

Context `{Engine}.

(** [x.key] for one of the keys the handlers read ([expenses], [budgets],
    [savings], [id], [date], [category], [description], [amount], [limit],
    [name], [target], [current]); none of them is a built-in property of a
    string, number, boolean or array. *)
Definition get (x : value) (key : string) : completion value :=
  match x with
  | None | Some JNull => Throw (TypeError_message (PropertyOfNullish key))
  | Some (JObj fields) => Normal (lookup key fields)
  | Some _ => Normal undefined
  end.

(** [x?.key] *)
Definition get_optional (x : value) (key : string) : value :=
  match x with
  | Some (JObj fields) => lookup key fields
  | _ => undefined
  end.

(** [Number(x)] *)
Definition ToNumber (x : value) : numeric :=
  match x with
  | None => NaN
  | Some JNull => Finite 0
  | Some (JBool b) => Finite (if b then 1 else 0)
  | Some (JNum n) => Finite n
  | Some (JStr s) => StringToNumber s
  | Some (JArr items) => StringToNumber (ToString (JArr items))
  | Some (JObj fields) => StringToNumber (ToString (JObj fields))
  end.

(** [Number(x || 0)] *)
Definition Number_or_zero (x : value) : numeric :=
  if truthy x then ToNumber x else Finite 0.

End WithEngine.

(** *** The state of the page and of the world around it *)

Record File := { file_name : string; file_text : string }.

(** The value of [importProgress]. *)
Record Progress := { step : string; current : nat; total : nat }.

(** What an observer of the page sees, in order: a request and how it
    settled, a progress report, a downloaded file. *)
Inductive Event :=
| Called (c : Call) (r : Response)
| Reported (p : Progress)
| Downloaded (filename : string) (content : json).

(** The React state the handlers read and write. *)
Record PageState := {
  info : string;
  busy : bool;
  currency : string;
  dateFmt : string;
  numFmt : string;
  firstDay : string;
  pendingImport : option (string * json);
  importing : bool;
  importProgress : option Progress
}.

(** The arrays of a backup document as [runImport] reads them: a field that
    is absent, [null] or otherwise falsy has length [0] under
    [?.length || 0] and is empty under [|| []]. *)
Record BackupPayload := {
  expenses : list json;
  budgets : list json;
  savings : list json
}.

Definition array_or_empty (x : value) : option (list json) :=
  match x with
  | Some (JArr items) => Some items
  | _ => if truthy x then None else Some []
  end.

(** The cast of a staged document to its declared type [BackupPayload]:
    defined when each of the three fields is an array or falsy.  A document
    with another kind of value in one of them is outside that type. *)
Definition asBackupPayload (doc : json) : option BackupPayload :=
  match doc with
  | JObj fields =>
      match array_or_empty (lookup "expenses" fields),
            array_or_empty (lookup "budgets" fields),
            array_or_empty (lookup "savings" fields) with
      | Some ex, Some bu, Some sa =>
          Some {| expenses := ex; budgets := bu; savings := sa |}
      | _, _, _ => None
      end
  | _ => None
  end.

Section WithBackend.

Context `{Engine} `{Backend}.

Record St := {
  page : PageState;
  server : server_state;
  events : list Event
}.

(** *** Handlers as state transformers that may throw *)

Definition M (A : Type) : Type := St -> completion A * St.

Definition ret {A : Type} (a : A) : M A := fun st => (Normal a, st).

Definition bind {A B : Type} (m : M A) (k : A -> M B) : M B :=
  fun st =>
    match m st with
    | (Normal a, st') => k a st'
    | (Throw e, st') => (Throw e, st')
    end.

Definition throw {A : Type} (message : string) : M A :=
  fun st => (Throw message, st).

Definition lift {A : Type} (c : completion A) : M A :=
  fun st => (c, st).

(** [try { m } catch (e) { handler(e.message) }] *)
Definition try_catch {A : Type} (m : M A) (handler : string -> M A) : M A :=
  fun st =>
    match m st with
    | (Normal a, st') => (Normal a, st')
    | (Throw e, st') => handler e st'
    end.

(** [try { m } finally { cleanup }], for a [cleanup] that does not throw. *)
Definition try_finally {A : Type} (m : M A) (cleanup : M unit) : M A :=
  fun st =>
    match m st with
    | (r, st') => (r, snd (cleanup st'))
    end.

Notation "x <- m ;; k" := (bind m (fun x => k))
  (at level 100, m at next level, right associativity).
Notation "m ;;; k" := (bind m (fun _ => k))
  (at level 100, right associativity).

(** The state setters of the page. *)
Definition update_page (f : PageState -> PageState) : M unit :=
  fun st => (Normal tt, {| page := f (page st); server := server st; events := events st |}).

Definition setInfo (x : string) : M unit :=
  update_page (fun p =>
    {| info := x; busy := busy p; currency := currency p; dateFmt := dateFmt p;
       numFmt := numFmt p; firstDay := firstDay p; pendingImport := pendingImport p;
       importing := importing p; importProgress := importProgress p |}).

Definition setBusy (x : bool) : M unit :=
  update_page (fun p =>
    {| info := info p; busy := x; currency := currency p; dateFmt := dateFmt p;
       numFmt := numFmt p; firstDay := firstDay p; pendingImport := pendingImport p;
       importing := importing p; importProgress := importProgress p |}).

Definition setPendingImport (x : option (string * json)) : M unit :=
  update_page (fun p =>
    {| info := info p; busy := busy p; currency := currency p; dateFmt := dateFmt p;
       numFmt := numFmt p; firstDay := firstDay p; pendingImport := x;
       importing := importing p; importProgress := importProgress p |}).

Definition setImporting (x : bool) : M unit :=
  update_page (fun p =>
    {| info := info p; busy := busy p; currency := currency p; dateFmt := dateFmt p;
       numFmt := numFmt p; firstDay := firstDay p; pendingImport := pendingImport p;
       importing := x; importProgress := importProgress p |}).

Definition log (e : Event) : M unit :=
  fun st => (Normal tt, {| page := page st; server := server st; events := events st ++ [e] |}).

(** [setImportProgress(x)]; a report that is not [null] is an observable
    event. *)
Definition setImportProgress (x : option Progress) : M unit :=
  update_page (fun p =>
    {| info := info p; busy := busy p; currency := currency p; dateFmt := dateFmt p;
       numFmt := numFmt p; firstDay := firstDay p; pendingImport := pendingImport p;
       importing := importing p; importProgress := x |}) ;;;
  match x with
  | Some p => log (Reported p)
  | None => ret tt
  end.

(** *** The API client

    Calling a method of [api] sends the request at once and returns a
    promise; the model settles the promise at that point, with the answer of
    the server, and hands it over when it is awaited.  Requests that the
    source sends together and awaits through [Promise.all] are therefore
    answered in the order they were sent. *)
Definition send (c : Call) : M Response :=
  fun st =>
    let (r, s') := respond (server st) c in
    (Normal r, {| page := page st; server := s'; events := events st ++ [Called c r] |}).

(** [await p] *)
Definition await (p : Response) : M json :=
  match p with
  | Resolve body => ret body
  | Reject message => throw message
  end.

Fixpoint mapM {A B : Type} (f : A -> M B) (l : list A) : M (list B) :=
  match l with
  | [] => ret []
  | x :: l' => y <- f x ;; ys <- mapM f l' ;; ret (y :: ys)
  end.

(** [await Promise.all(ps)]: the values of the promises, or the first
    rejection. *)
Definition Promise_all (ps : list Response) : M (list json) :=
  mapM await ps.

(** [await api.method(...)] *)
Definition call (c : Call) : M json :=
  p <- send c ;; await p.

(** [xs.map(f)] on a value that should be an array. *)
Definition Array_map {B : Type} (xs : value) (f : json -> M B) : M (list B) :=
  match xs with
  | Some (JArr items) => mapM f items
  | None | Some JNull => throw (TypeError_message (PropertyOfNullish "map"))
  | Some _ => throw (TypeError_message (NotAFunction "map"))
  end.

(** [await Promise.all([api.getExpenses(), api.getBudgets(), api.getSavings()])] *)
Definition fetchAll : M (list json) :=
  p1 <- send getExpenses ;;
  p2 <- send getBudgets ;;
  p3 <- send getSavings ;;
  Promise_all [p1; p2; p3].

(** *** [downloadJson] *)

Definition backup_document (expenses budgets savings : value) : M json :=
  p <- (fun st => (Normal (page st), st)) ;;
  let field (k : string) (x : value) :=
    match x with Some j => [(k, j)] | None => [] end in
  ret (JObj (field "expenses"%string expenses ++ field "budgets"%string budgets
             ++ field "savings"%string savings
             ++ [("meta"%string,
                  JObj [("exportedAt"%string, JStr Date_toISOString);
                        ("currency"%string, JStr (currency p));
                        ("dateFmt"%string, JStr (dateFmt p));
                        ("numFmt"%string, JStr (numFmt p));
                        ("firstDay"%string, JStr (firstDay p));
                        ("app"%string, JStr "FinancePro")])])).

Definition downloadJson : M unit :=
  setInfo "" ;;;
  try_finally
    (try_catch
       (setBusy true ;;;
        all <- fetchAll ;;
        payload <- backup_document (nth_error all 0) (nth_error all 1) (nth_error all 2) ;;
        log (Downloaded "finance-backup.json" payload) ;;;
        setInfo "Backup downloaded.")
       (fun message => setInfo message))
    (setBusy false).

(** *** [handleFile]: staging an uploaded document *)

(** [file] is [e.target.files?.[0]].  The [finally] block of the source only
    empties the file input and has no counterpart here. *)
Definition handleFile (file : option File) : M unit :=
  match file with
  | None => ret tt
  | Some f =>
      try_catch
        (doc <- lift (JSON_parse (file_text f)) ;;
         valid <-
           (if typeof_object doc then
              ex <- lift (get (Some doc) "expenses") ;;
              if Array_isArray ex then ret true
              else
                bu <- lift (get (Some doc) "budgets") ;;
                if Array_isArray bu then ret true
                else
                  sa <- lift (get (Some doc) "savings") ;;
                  ret (Array_isArray sa)
            else ret false) ;;
         if negb valid then setInfo "Invalid backup file."
         else
           setPendingImport (Some (file_name f, doc)) ;;;
           setInfo ("Ready to import: " ++ file_name f))
        (fun message => setInfo message)
  end.

(** *** [runImport]: applying the staged document *)

(** The synchronous start of [refreshCounts()], which [runImport] calls
    without awaiting it: the page turns busy and the three reads are sent.
    What follows the reads (the counts, or an error message) happens after
    the caller has finished and is not part of this model. *)
Definition refreshCounts_start : M unit :=
  setBusy true ;;;
  _ <- send getExpenses ;;
  _ <- send getBudgets ;;
  _ <- send getSavings ;;
  ret tt.

(** [await Promise.all(xs.map((x) => del(x.id)))] *)
Definition deleteAll (xs : value) (del : value -> Call) : M unit :=
  ps <- Array_map xs (fun x => id <- lift (get (Some x) "id") ;; send (del id)) ;;
  _ <- Promise_all ps ;;
  ret tt.

Definition clearExisting : M unit :=
  all <- fetchAll ;;
  deleteAll (nth_error all 0) deleteExpense ;;;
  deleteAll (nth_error all 1) deleteBudget ;;;
  deleteAll (nth_error all 2) deleteSaving.

(** [bump(step)], with the value [done] has at that point. *)
Definition bump (total : nat) (step : string) (done : nat) : M unit :=
  setImportProgress (Some {| step := step; current := done; total := total |}).

(** The body of the loop over the expenses. *)
Definition importExpense (e : json) : M unit :=
  date <- lift (get (Some e) "date") ;;
  category <- lift (get (Some e) "category") ;;
  description <- lift (get (Some e) "description") ;;
  amount <- lift (get (Some e) "amount") ;;
  _ <- call (createExpense date category description (Number_or_zero amount)) ;;
  ret tt.

(** The body of the loop over the budgets. *)
Definition importBudget (b : json) : M unit :=
  category <- lift (get (Some b) "category") ;;
  limit <- lift (get (Some b) "limit") ;;
  _ <- call (createBudget category (Number_or_zero limit)) ;;
  ret tt.

(** The body of the loop over the savings: the saving is created from its
    name and target, and its current amount is set by a second request. *)
Definition importSaving (s : json) : M unit :=
  name <- lift (get (Some s) "name") ;;
  target <- lift (get (Some s) "target") ;;
  created <- call (createSaving name (Number_or_zero target)) ;;
  cur <- lift (get (Some s) "current") ;;
  let current := Number_or_zero cur in
  if positive current && truthy (get_optional (Some created) "id") then
    id <- lift (get (Some created) "id") ;;
    _ <- call (updateSaving id current) ;;
    ret tt
  else ret tt.

(** [for (const x of items) { await body(x); done++; bump(step); }],
    returning the final [done]. *)
Fixpoint restoreEach (total : nat) (step : string) (body : json -> M unit)
  (items : list json) (done : nat) : M nat :=
  match items with
  | [] => ret done
  | x :: rest =>
      body x ;;;
      bump total step (S done) ;;;
      restoreEach total step body rest (S done)
  end.

Definition restore (payload : BackupPayload) : M unit :=
  let total := (length (expenses payload) + length (budgets payload)
                + length (savings payload))%nat in
  let done := 0%nat in
  bump total "Importing expenses" done ;;;
  done <- restoreEach total "Importing expenses" importExpense (expenses payload) done ;;
  bump total "Importing budgets" done ;;;
  done <- restoreEach total "Importing budgets" importBudget (budgets payload) done ;;
  bump total "Importing savings" done ;;;
  _ <- restoreEach total "Importing savings" importSaving (savings payload) done ;;
  ret tt.

(** The [try] block of [runImport]. *)
Definition replaceAll (payload : BackupPayload) : M unit :=
  clearExisting ;;;
  restore payload ;;;
  setPendingImport None ;;;
  setInfo "Import completed." ;;;
  refreshCounts_start.

(** [runImport()], given the answer [confirmed] of the user to the
    confirmation dialog.  The result is [None] when the staged document is
    outside its declared type (see [asBackupPayload]). *)
Definition runImport (confirmed : bool) (st : St) : option St :=
  match pendingImport (page st) with
  | None => Some st
  | Some (_, doc) =>
      if negb confirmed then Some st
      else
        match asBackupPayload doc with
        | None => None
        | Some payload =>
            Some (snd ((setImporting true ;;;
                        setImportProgress
                          (Some {| step := "Clearing existing"; current := 0; total := 1 |}) ;;;
                        setInfo "" ;;;
                        try_finally
                          (try_catch (replaceAll payload)
                                     (fun message => setInfo message))
                          (setImporting false ;;; setImportProgress None)) st))
        end
  end.

(** *** [clearData] *)

(** [clearData()], given the answer [confirmed] of the user to the
    confirmation dialog.  The reads and the three batches of deletions are
    those of [runImport]. *)
Definition clearData (confirmed : bool) : M unit :=
  if negb confirmed then ret tt
  else
    setInfo "" ;;;
    try_finally
      (try_catch
         (setBusy true ;;;
          clearExisting ;;;
          setInfo "All data cleared." ;;;
          refreshCounts_start)
         (fun message => setInfo message))
      (setBusy false).

(** *** The CSV exports *)

Definition double_quote : ascii := ascii_of_nat 34.

Definition line_feed : ascii := ascii_of_nat 10.

(** The replacement [s.replace(/q/g, qq)], where [q] is the double quote
    and [qq] two of them: every double quote of [s] is written twice. *)
Fixpoint double_quotes (s : string) : string :=
  match s with
  | EmptyString => EmptyString
  | String c s' =>
      if Ascii.eqb c double_quote
      then String double_quote (String double_quote (double_quotes s'))
      else String c (double_quotes s')
  end.

(** A quoted field: the text of [x], or the empty string for a falsy [x],
    with its double quotes doubled, between two double quotes.  A truthy [x]
    that is not a string has no method [replace]. *)
Definition quoted (x : value) : completion string :=
  if truthy x then
    match x with
    | Some (JStr s) =>
        Normal (String double_quote (double_quotes s ++ String double_quote EmptyString))
    | _ => Throw (TypeError_message (NotAFunction "replace"))
    end
  else Normal (String double_quote (String double_quote EmptyString)).

(** The text [Array.prototype.join] writes for an element: nothing for
    [undefined] and [null], the string itself, and the string form of any
    other value. *)
Definition element_text (x : value) : string :=
  match x with
  | None | Some JNull => EmptyString
  | Some (JStr s) => s
  | Some j => ToString j
  end.

(** [x ?? 0] *)
Definition or_zero (x : value) : value :=
  match x with
  | None | Some JNull => Some (JNum 0)
  | Some _ => x
  end.

(** The row of an expense: [r.date], the quoted [r.category], the quoted
    [r.description] and [r.amount], joined by commas. *)
Definition expenseRow (r : json) : M string :=
  date <- lift (get (Some r) "date") ;;
  category <- lift (get (Some r) "category") ;;
  category <- lift (quoted category) ;;
  description <- lift (get (Some r) "description") ;;
  description <- lift (quoted description) ;;
  amount <- lift (get (Some r) "amount") ;;
  ret (String.concat "," [element_text date; category; description; element_text amount]).

(** The row of a budget: the quoted [b.category] and [b.limit ?? 0], joined
    by a comma. *)
Definition budgetRow (b : json) : M string :=
  category <- lift (get (Some b) "category") ;;
  category <- lift (quoted category) ;;
  limit <- lift (get (Some b) "limit") ;;
  ret (String.concat "," [category; element_text (or_zero limit)]).

(** The row of a saving: the quoted [s.name], [s.target ?? 0] and
    [s.current ?? 0], joined by commas. *)
Definition savingRow (s : json) : M string :=
  name <- lift (get (Some s) "name") ;;
  name <- lift (quoted name) ;;
  target <- lift (get (Some s) "target") ;;
  current <- lift (get (Some s) "current") ;;
  ret (String.concat "," [name; element_text (or_zero target); element_text (or_zero current)]).

(** The [csv] of an export: the headers joined by commas, then one row per
    entry of [data], all joined by line feeds. *)
Definition csv_of (headers : list string) (row : json -> M string) (data : json) : M string :=
  rows <- Array_map (Some data) row ;;
  ret (String.concat (String line_feed EmptyString) (String.concat "," headers :: rows)).

Definition expensesCsv : json -> M string :=
  csv_of ["Date"; "Category"; "Description"; "Amount"]%string expenseRow.

Definition budgetsCsv : json -> M string :=
  csv_of ["Category"; "Limit"]%string budgetRow.

Definition savingsCsv : json -> M string :=
  csv_of ["Name"; "Target"; "Current"]%string savingRow.

(** The three handlers.  The text of the file that is downloaded is logged
    as a JSON string. *)
Definition downloadExpensesCsv : M unit :=
  setInfo "" ;;;
  try_finally
    (try_catch
       (setBusy true ;;;
        data <- call getExpenses ;;
        csv <- expensesCsv data ;;
        log (Downloaded "expenses.csv" (JStr csv)) ;;;
        setInfo "Expenses CSV exported.")
       (fun message => setInfo message))
    (setBusy false).

Definition downloadBudgetsCsv : M unit :=
  setInfo "" ;;;
  try_finally
    (try_catch
       (setBusy true ;;;
        data <- call getBudgets ;;
        csv <- budgetsCsv data ;;
        log (Downloaded "budgets.csv" (JStr csv)) ;;;
        setInfo "Budgets CSV exported.")
       (fun message => setInfo message))
    (setBusy false).

Definition downloadSavingsCsv : M unit :=
  setInfo "" ;;;
  try_finally
    (try_catch
       (setBusy true ;;;
        data <- call getSavings ;;
        csv <- savingsCsv data ;;
        log (Downloaded "savings.csv" (JStr csv)) ;;;
        setInfo "Savings CSV exported.")
       (fun message => setInfo message))
    (setBusy false).

(** *** [seedDemoData] *)

(** [if (s?.id) await api.updateSaving(s.id, { current })] *)
Definition setCurrent (s : json) (current : number) : M unit :=
  if truthy (get_optional (Some s) "id") then
    id <- lift (get (Some s) "id") ;;
    _ <- call (updateSaving id (Finite current)) ;;
    ret tt
  else ret tt.

(** The expenses of the demo data, each with its date, category,
    description and amount; [ym] is the current year and month. *)
Definition demoExpenses (ym : string) : list (string * string * string * number) :=
  [ (ym ++ "-02", "Food", "Groceries", 3200);
    (ym ++ "-05", "Transport", "Taxi", 1500);
    (ym ++ "-10", "Bills", "Internet", 4500);
    (ym ++ "-15", "Entertainment", "Movies", 1800);
    (ym ++ "-21", "Shopping", "Clothes", 5200) ]%string.

(** [seedDemoData()], given the answer [confirmed] of the user to the
    confirmation dialog. *)
Definition seedDemoData (confirmed : bool) : M unit :=
  if negb confirmed then ret tt
  else
    setBusy true ;;;
    setInfo "" ;;;
    try_finally
      (try_catch
         (let ym := substring 0 7 Date_toISOString in
          _ <- mapM (fun e : string * string * string * number =>
                       let '(date, category, description, amount) := e in
                       call (createExpense (Some (JStr date)) (Some (JStr category))
                               (Some (JStr description)) (Finite amount)))
                    (demoExpenses ym) ;;
          _ <- call (createBudget (Some (JStr "Food")) (Finite 20000)) ;;
          _ <- call (createBudget (Some (JStr "Transport")) (Finite 10000)) ;;
          s1 <- call (createSaving (Some (JStr "Emergency Fund")) (Finite 200000)) ;;
          setCurrent s1 25000 ;;;
          s2 <- call (createSaving (Some (JStr "New Phone")) (Finite 150000)) ;;
          setCurrent s2 60000 ;;;
          setInfo "Demo data added." ;;;
          refreshCounts_start)
         (fun message => setInfo message))
      (setBusy false).

End WithBackend.

(** The width of the progress bar of an import, in percent:
    [importProgress.total ? Math.round((current / total) * 100) : 0]. *)
Definition progressWidth (p : Progress) : number :=
  if (total p =? 0)%nat then 0
  else Math_round ((inject_Z (Z.of_nat (current p)) / inject_Z (Z.of_nat (total p))) * 100).

Notation "x <- m ;; k" := (bind m (fun x => k))
  (at level 100, m at next level, right associativity).
Notation "m ;;; k" := (bind m (fun _ => k))
  (at level 100, right associativity).

End Settings.

(** ** The API client *)

Module Api.

Import JS Settings.

(** The lower-case form of an ASCII letter; any other character is kept. *)
Definition lower (c : ascii) : ascii :=
  let n := nat_of_ascii c in
  if (65 <=? n)%nat && (n <=? 90)%nat then ascii_of_nat (n + 32) else c.

Fixpoint lowercase (s : string) : string :=
  match s with
  | EmptyString => EmptyString
  | String c s' => String (lower c) (lowercase s')
  end.

(** The test of the regular expression [^https?://] on [path], letters in
    either case. *)
Definition is_absolute (path : string) : bool :=
  prefix "http://" (lowercase path) || prefix "https://" (lowercase path).

(** [base] without the slashes it ends with: the replacement of the
    regular expression [/+$] by nothing. *)
Fixpoint strip_slashes (base : string) : string :=
  match base with
  | EmptyString => EmptyString
  | String c rest =>
      match strip_slashes rest with
      | EmptyString => if Ascii.eqb c "/" then EmptyString else String c EmptyString
      | kept => String c kept
      end
  end.

Definition joinUrl (base path : string) : string :=
  if is_absolute path then path
  else
    let b := strip_slashes base in
    let p := if prefix "/" path then path else ("/" ++ path)%string in
    (b ++ p)%string.

(** A response as [fetch] delivers it: the status line, the content type
    header when there is one, and the text of the body. *)
Record HttpResponse := {
  status : Z;
  statusText : string;
  content_type : option string;
  body_text : string
}.

(** [res.ok]: the status is in the range 200 to 299. *)
Definition ok (res : HttpResponse) : bool :=
  (200 <=? status res)%Z && (status res <=? 299)%Z.

Section WithEngine.

Context `{Engine}.

(** [String.prototype.trim], which the engine decides. *)
Variable trim : string -> string.

(** [res.headers.get("content-type") || ""] holds [application/json]. *)
Definition is_json (res : HttpResponse) : bool :=
  includes (match content_type res with Some ct => ct | None => EmptyString end)
           "application/json".

(** The [body] that [request] reads: the parsed document of a JSON
    response, [null] when it does not parse, and the text of any other
    response. *)
Definition read_body (res : HttpResponse) : json :=
  if is_json res then
    match JSON_parse (body_text res) with
    | Normal document => document
    | Throw _ => JNull
    end
  else JStr (body_text res).

(** The message of [new Error(x)]. *)
Definition message_of (x : json) : string :=
  match x with
  | JStr s => s
  | _ => ToString x
  end.

(** [request(path, options)], given what [fetch] came back with: [None]
    when it failed, the response otherwise. *)
Definition request (fetched : option HttpResponse) : Response :=
  match fetched with
  | None => Reject "Network error. Is the API running on 4000?"
  | Some res =>
      if (status res =? 204)%Z then Resolve JNull
      else
        let body := read_body res in
        if negb (ok res) then
          Reject
            match body with
            | JStr text =>
                if prefix "<" (trim text)
                then ("HTTP " ++ NilZero.string_of_int (Z.to_int (status res))
                      ++ " " ++ statusText res)%string
                else text
            | _ =>
                let message := get_optional (Some body) "message" in
                match message with
                | Some m => if truthy message then message_of m else statusText res
                | None => statusText res
                end
            end
        else
          match body with
          | JStr text =>
              if negb (is_json res) then
                match JSON_parse text with
                | Normal document => Resolve document
                | Throw _ => Resolve (JStr text)
                end
              else Resolve body
          | _ => Resolve body
          end
  end.

End WithEngine.

End Api.

(** ** The progress bar component and the Savings page *)

Module Components.

Import JS.

(** The width of a [ProgressBar], in percent:
    [Math.max(0, Math.min(100, pct))]. *)
Definition safe (pct : number) : number :=
  Math_max2 0 (Math_min2 100 pct).

End Components.

Module Savings.

Import JS.

(** A savings goal, as the page holds it. *)
Record Saving := { id : number; name : string; target : number; current : number }.

(** The figures of the card of a goal: the percentage reached,
    [Math.min(100, Math.round(((g.current || 0) / Math.max(1, g.target || 0)) * 100))],
    which the summary and the export compute in the same way; the amount
    that remains, [Math.max(0, (g.target || 0) - (g.current || 0))]; and
    whether the card is drawn as completed, [pct >= 100]. *)
Definition pct (g : Saving) : number :=
  Math_min2 100
    (Math_round ((number_or_zero (current g) / Math_max2 1 (number_or_zero (target g))) * 100)).

Definition remaining (g : Saving) : number :=
  Math_max2 0 (number_or_zero (target g) - number_or_zero (current g)).

Definition complete (g : Saving) : bool :=
  Qle_bool 100 (pct g).

(** [(g.current || 0) >= (g.target || 0)], the test of the summary and of
    the status filter. *)
Definition done (g : Saving) : bool :=
  Qle_bool (number_or_zero (target g)) (number_or_zero (current g)).

Record Summary := {
  totalCurrent : number;
  totalTarget : number;
  overallPct : number;
  completed : nat;
  avgProgress : number;
  largest : option Saving
}.

Definition summary (goals : list Saving) : Summary :=
  let totalCurrent := fold_left (fun s g => s + number_or_zero (current g)) goals 0 in
  let totalTarget := fold_left (fun s g => s + number_or_zero (target g)) goals 0 in
  {| totalCurrent := totalCurrent;
     totalTarget := totalTarget;
     overallPct :=
       if Qeq_bool totalTarget 0 then 0
       else Math_round ((totalCurrent / totalTarget) * 100);
     completed := length (filter done goals);
     avgProgress :=
       if (0 <? length goals)%nat
       then Math_round (fold_left (fun s g => s + pct g) goals 0
                        / inject_Z (Z.of_nat (length goals)))
       else 0;
     largest :=
       match goals with
       | [] => None
       | first :: _ =>
           Some (fold_left
                   (fun max g =>
                      if ltb (number_or_zero (target max)) (number_or_zero (target g))
                      then g else max)
                   goals first)
       end |}.

Inductive Status := All | Active | Completed.

Section WithEngine.

(** [String.prototype.trim] and [String.prototype.toLowerCase], which the
    engine decides. *)
Variables trim toLowerCase : string -> string.

Definition filtered (goals : list Saving) (q : string) (status : Status) : list Saving :=
  let ql := toLowerCase (trim q) in
  filter (fun g =>
            let okQ := String.eqb ql "" || includes (toLowerCase (name g)) ql in
            let okStatus := match status with
                            | All => true
                            | Completed => done g
                            | Active => negb (done g)
                            end in
            okQ && okStatus)
         goals.

End WithEngine.

(** *** The order of the cards *)




Section Sorting.

(** [String.prototype.toLowerCase] and [String.prototype.localeCompare],
    which the engine decides. *)
Variable toLowerCase : string -> string.
Variable localeCompare : string -> string -> number.



End Sorting.

(** *** The CSV export of the page *)

Section Exporting.

(** The text of a number as an element of a joined array, which the engine
    decides. *)
Variable String_of_number : number -> string.

(** The line of a goal: its identifier, its name between double quotes
    with its double quotes doubled, its current amount, its target, the
    amount that remains and the percentage reached, joined by commas. *)
Definition export_line (g : Saving) : string :=
  String.concat ","
    [ String_of_number (id g);
      String Settings.double_quote
        (Settings.double_quotes (name g) ++ String Settings.double_quote EmptyString);
      String_of_number (number_or_zero (current g));
      String_of_number (number_or_zero (target g));
      String_of_number (remaining g);
      String_of_number (pct g) ].


End Exporting.

(** *** The handlers that change a goal *)

(** The [data] of a request: the fields it sets. *)
Record Patch := {
  new_name : option string;
  new_target : option number;
  new_current : option number
}.

(** The requests the two handlers send: [api.updateSaving(id, data)], and
    [api.createSaving(data)], which is called with the object [data] as
    its one argument. *)
Inductive Request :=
| updateSaving (id : number) (data : Patch)
| createSaving (data : Patch).

(** How a request settles: it resolves with the saved goal, or it is
    rejected with an [Error] of that message. *)
Inductive Answer :=
| Saved (g : Saving)
| Rejected (message : string).

(** The server behind the API: any state machine over the requests. *)
Class Server := {
  server_state : Type;
  respond : server_state -> Request -> Answer * server_state
}.

(** The form: a [Partial<Saving>]. *)
Record Form := {
  form_name : option string;
  form_target : option number;
  form_current : option number
}.

(** The React state the handlers read and write. *)
Record Page := {
  goals : list Saving;
  err : option string;
  form : Form;
  editId : option number;
  entry : number * number
}.

Section WithServer.

Context `{Server}.

Variable trim : string -> string.

(** The page, the server, and the requests sent so far with their
    answers. *)
Record State := {
  page : Page;
  server : server_state;
  sent : list (Request * Answer)
}.

Definition setErr (x : option string) (p : Page) : Page :=
  {| goals := goals p; err := x; form := form p; editId := editId p; entry := entry p |}.

Definition setGoals (f : list Saving -> list Saving) (p : Page) : Page :=
  {| goals := f (goals p); err := err p; form := form p; editId := editId p;
     entry := entry p |}.

Definition setEntry (x : number * number) (p : Page) : Page :=
  {| goals := goals p; err := err p; form := form p; editId := editId p; entry := x |}.

Definition resetForm (p : Page) : Page :=
  {| goals := goals p; err := err p;
     form := {| form_name := Some EmptyString; form_target := Some 0;
                form_current := Some 0 |};
     editId := None; entry := entry p |}.

(** [await api.method(...)], followed by [on_saved] when it resolves and by
    [setErr(e.message)] when it is rejected. *)
Definition save (request : Request) (on_saved : Saving -> Page -> Page)
  (st : State) : State :=
  let (answer, s') := respond (server st) request in
  {| page := match answer with
             | Saved g => on_saved g (page st)
             | Rejected message => setErr (Some message) (page st)
             end;
     server := s';
     sent := sent st ++ [(request, answer)] |}.

(** [prev.map((x) => (x.id === id ? updated : x))] *)
Definition replace (id0 : number) (updated : Saving) (prev : list Saving) : list Saving :=
  map (fun x => if Qeq_bool (id x) id0 then updated else x) prev.

(** [contribute(id, amount)].  The amount asked for is
    [Math.min(g.target, (g.current || 0) + amount)]; the sum is the exact
    one here, where the sum of two doubles rounds, so that only what holds
    of both is stated of it: that it is at most the target and, for a
    positive [amount], at least the present amount. *)
Definition contribute (id0 amount : number) (st : State) : State :=
  if Qle_bool amount 0 then st
  else
    match find (fun x => Qeq_bool (id x) id0) (goals (page st)) with
    | None => st
    | Some g =>
        let updatedVal := Math_min2 (target g) (number_or_zero (current g) + amount) in
        save (updateSaving id0 {| new_name := None; new_target := None;
                                  new_current := Some updatedVal |})
             (fun updated p => setEntry (0, 0) (setGoals (replace id0 updated) p))
             st
    end.

(** The fields of the form as [submitGoal] reads them: the name, or the
    empty string in its place, trimmed; [Number(form.target || 0)]; and
    [Number(form.current || 0)]. *)
Definition entered_name (f : Form) : string :=
  trim (match form_name f with Some n => n | None => EmptyString end).

Definition entered_target (f : Form) : number :=
  match form_target f with Some t => number_or_zero t | None => 0 end.

Definition entered_current (f : Form) : number :=
  match form_current f with Some c => number_or_zero c | None => 0 end.

Definition submitGoal (st : State) : State :=
  let st := {| page := setErr None (page st); server := server st; sent := sent st |} in
  let name := entered_name (form (page st)) in
  let target := entered_target (form (page st)) in
  let current := entered_current (form (page st)) in
  let refuse (message : string) :=
    {| page := setErr (Some message) (page st); server := server st; sent := sent st |} in
  if String.eqb name "" then refuse "Please enter a goal name"%string
  else if Qle_bool target 0 then refuse "Target must be greater than 0"%string
  else if ltb current 0 then refuse "Current cannot be negative"%string
  else if ltb target current then refuse "Current cannot exceed target"%string
  else
    let data := {| new_name := Some name; new_target := Some target;
                   new_current := Some current |} in
    match editId (page st) with
    | Some edited =>
        save (updateSaving edited data)
             (fun updated p => resetForm (setGoals (replace edited updated) p)) st
    | None =>
        save (createSaving data)
             (fun created p => resetForm (setGoals (cons created) p)) st
    end.

End WithServer.

End Savings.

(** ** A browser and a server to run the handlers on *)

Module Samples.

Import JS Settings.

Definition quote : string := String (ascii_of_nat 34) EmptyString.

(** The text of a backup that holds an empty list of expenses and nothing
    else. *)
Definition empty_backup_text : string :=
  "{" ++ quote ++ "expenses" ++ quote ++ ":[]}".

Definition empty_backup : json := JObj [("expenses"%string, JArr [])].

(** An engine that parses two texts and reports a syntax error on any
    other. *)
Definition sample_engine : Engine := {|
  JSON_parse := fun text =>
    if String.eqb text empty_backup_text then Normal empty_backup
    else if String.eqb text "null" then Normal JNull
    else Throw "Unexpected token in JSON";
  StringToNumber := fun _ => NaN;
  ToString := fun _ => "[object Object]"%string;
  TypeError_message := fun kind =>
    match kind with
    | PropertyOfNullish key =>
        ("Cannot read properties of null (reading '" ++ key ++ "')")%string
    | NotAFunction key => (key ++ " is not a function")%string
    end;
  Date_toISOString := "2025-01-09T00:00:00.000Z"
|}.

(** A server that keeps the records in memory, each under the identifier it
    was given at creation. *)
Record Store := {
  next_id : Z;
  expense_rows : list (Z * list (string * json));
  budget_rows : list (Z * list (string * json));
  saving_rows : list (Z * list (string * json))
}.

Definition row_json (row : Z * list (string * json)) : json :=
  JObj (("id"%string, JNum (inject_Z (fst row))) :: snd row).

Definition has_id (id : option json) (row : Z * list (string * json)) : bool :=
  match id with
  | Some (JNum n) => Qeq_bool n (inject_Z (fst row))
  | _ => false
  end.

Definition without (id : option json) (rows : list (Z * list (string * json))) :=
  filter (fun row => negb (has_id id row)) rows.

Definition field_of (key : string) (x : option json) : list (string * json) :=
  match x with
  | Some j => [(key, j)]
  | None => []
  end.

Definition number_json (n : numeric) : json :=
  match n with
  | Finite q => JNum q
  | NaN => JNull
  end.

Definition sample_respond (s : Store) (c : Call) : Response * Store :=
  match c with
  | getExpenses => (Resolve (JArr (map row_json (expense_rows s))), s)
  | getBudgets => (Resolve (JArr (map row_json (budget_rows s))), s)
  | getSavings => (Resolve (JArr (map row_json (saving_rows s))), s)
  | deleteExpense id =>
      (Resolve JNull,
       {| next_id := next_id s; expense_rows := without id (expense_rows s);
          budget_rows := budget_rows s; saving_rows := saving_rows s |})
  | deleteBudget id =>
      (Resolve JNull,
       {| next_id := next_id s; expense_rows := expense_rows s;
          budget_rows := without id (budget_rows s); saving_rows := saving_rows s |})
  | deleteSaving id =>
      (Resolve JNull,
       {| next_id := next_id s; expense_rows := expense_rows s;
          budget_rows := budget_rows s; saving_rows := without id (saving_rows s) |})
  | createExpense date category description amount =>
      let row := (next_id s,
                  field_of "date" date ++ field_of "category" category
                  ++ field_of "description" description
                  ++ [("amount"%string, number_json amount)]) in
      (Resolve (row_json row),
       {| next_id := next_id s + 1; expense_rows := expense_rows s ++ [row];
          budget_rows := budget_rows s; saving_rows := saving_rows s |})
  | createBudget category limit =>
      let row := (next_id s,
                  field_of "category" category
                  ++ [("limit"%string, number_json limit); ("spent"%string, JNum 0)]) in
      (Resolve (row_json row),
       {| next_id := next_id s + 1; expense_rows := expense_rows s;
          budget_rows := budget_rows s ++ [row]; saving_rows := saving_rows s |})
  | createSaving name target =>
      let row := (next_id s,
                  field_of "name" name
                  ++ [("target"%string, number_json target); ("current"%string, JNum 0)]) in
      (Resolve (row_json row),
       {| next_id := next_id s + 1; expense_rows := expense_rows s;
          budget_rows := budget_rows s; saving_rows := saving_rows s ++ [row] |})
  | updateSaving id current =>
      (Resolve JNull,
       {| next_id := next_id s; expense_rows := expense_rows s;
          budget_rows := budget_rows s;
          saving_rows :=
            map (fun row =>
                   if has_id id row
                   then (fst row,
                         filter (fun kv => negb (String.eqb (fst kv) "current")) (snd row)
                         ++ [("current"%string, number_json current)])
                   else row)
                (saving_rows s) |})
  end.

Definition sample_backend : Backend := {|
  server_state := Store;
  respond := sample_respond
|}.

(** A server that rejects every request. *)
Definition offline_backend : Backend := {|
  server_state := unit;
  respond := fun s _ => (Reject "Network error. Is the API running on 4000?", s)
|}.

Definition sample_store : Store := {|
  next_id := 3;
  expense_rows := [(1%Z, [("date"%string, JStr "2025-01-09"); ("category"%string, JStr "Food");
                          ("description"%string, JStr "Lunch"); ("amount"%string, JNum 12)])];
  budget_rows := [];
  saving_rows := [(2%Z, [("name"%string, JStr "Bike"); ("target"%string, JNum 900);
                         ("current"%string, JNum 100)])]
|}.

Definition sample_page (pending : option (string * json)) : PageState := {|
  info := "";
  busy := false;
  currency := "Rs.";
  dateFmt := "YYYY-MM-DD";
  numFmt := "1,234.56";
  firstDay := "Mon";
  pendingImport := pending;
  importing := false;
  importProgress := None
|}.

(** A backup with one expense and two savings, the second without a
    current amount. *)
Definition sample_backup : json :=
  JObj [("expenses"%string,
         JArr [JObj [("date"%string, JStr "2025-02-01"); ("category"%string, JStr "Rent");
                     ("description"%string, JStr "February"); ("amount"%string, JNum 500)]]);
        ("savings"%string,
         JArr [JObj [("name"%string, JStr "Trip"); ("target"%string, JNum 1000);
                     ("current"%string, JNum 250)];
               JObj [("name"%string, JStr "Laptop"); ("target"%string, JNum 2000)]])].

(** The arrays of the two sample documents. *)
Definition sample_payload : BackupPayload := {|
  expenses := [JObj [("date"%string, JStr "2025-02-01"); ("category"%string, JStr "Rent");
                     ("description"%string, JStr "February"); ("amount"%string, JNum 500)]];
  budgets := [];
  savings := [JObj [("name"%string, JStr "Trip"); ("target"%string, JNum 1000);
                    ("current"%string, JNum 250)];
              JObj [("name"%string, JStr "Laptop"); ("target"%string, JNum 2000)]]
|}.

Definition empty_payload : BackupPayload :=
  {| expenses := []; budgets := []; savings := [] |}.

(** The page with a document staged, in front of the sample server. *)
Definition staged (doc : json) : @St sample_backend := {|
  page := sample_page (Some ("backup.json"%string, doc));
  server := (sample_store : @server_state sample_backend);
  events := []
|}.

Definition idle : @St sample_backend := {|
  page := sample_page None;
  server := (sample_store : @server_state sample_backend);
  events := []
|}.

Definition idle_offline : @St offline_backend := {|
  page := sample_page None;
  server := (tt : @server_state offline_backend);
  events := []
|}.

(** An engine like the first one that also prints whole numbers, in
    decimal (the records of the samples hold no other number). *)
Definition printing_engine : Engine := {|
  JSON_parse := @JSON_parse sample_engine;
  StringToNumber := @StringToNumber sample_engine;
  ToString := fun j =>
    match j with
    | JNum q =>
        if Qeq_bool q (inject_Z (Qfloor q))
        then NilZero.string_of_int (Z.to_int (Qfloor q))
        else @ToString sample_engine j
    | _ => @ToString sample_engine j
    end;
  TypeError_message := @TypeError_message sample_engine;
  Date_toISOString := @Date_toISOString sample_engine
|}.

(** The document of the backup that [downloadJson] produces on the sample
    server. *)
Definition sample_download : json :=
  Eval vm_compute in
    match last (events (snd (@downloadJson sample_engine sample_backend idle)))
               (Reported {| step := ""; current := 0; total := 0 |}) with
    | Downloaded _ doc => doc
    | _ => JNull
    end.

(** An engine like the first one that also parses the text of that backup,
    which stands here under the name of its file. *)
Definition reading_engine : Engine := {|
  JSON_parse := fun text =>
    if String.eqb text "finance-backup" then Normal sample_download
    else @JSON_parse sample_engine text;
  StringToNumber := @StringToNumber sample_engine;
  ToString := @ToString sample_engine;
  TypeError_message := @TypeError_message sample_engine;
  Date_toISOString := @Date_toISOString sample_engine
|}.

(** Records to export: texts with a comma, with double quotes and with a
    line feed, an absent description, an absent limit. *)
Definition exported_expenses : list json :=
  [ JObj [("id"%string, JNum 1); ("date"%string, JStr "2025-01-09");
          ("category"%string, JStr "Food, drink");
          ("description"%string, JStr ("He said " ++ quote ++ "hi" ++ quote));
          ("amount"%string, JNum 12)];
    JObj [("id"%string, JNum 2); ("date"%string, JStr "2025-01-10");
          ("category"%string, JStr "Rent"); ("amount"%string, JNum 500)] ].

Definition exported_budgets : list json :=
  [ JObj [("id"%string, JNum 1); ("category"%string, JStr "Food, drink");
          ("limit"%string, JNum 20000)];
    JObj [("id"%string, JNum 2); ("category"%string, JStr "Rent")] ].

Definition exported_savings : list json :=
  [ JObj [("id"%string, JNum 1);
          ("name"%string, JStr ("Trip" ++ String (ascii_of_nat 10) "2026"));
          ("target"%string, JNum 1000); ("current"%string, JNum 250)];
    JObj [("id"%string, JNum 2); ("name"%string, JStr "Laptop");
          ("target"%string, JNum 2000)] ].

(** A response of status 200 that holds a JSON text and is labelled as
    plain text. *)
Definition text_response : Api.HttpResponse := {|
  Api.status := 200;
  Api.statusText := "OK";
  Api.content_type := Some "text/plain"%string;
  Api.body_text := "null"
|}.

(** The decimal text of a whole number. *)
Definition print_whole (q : number) : string :=
  NilZero.string_of_int (Z.to_int (Qfloor q)).


End Samples.

(** * The properties, stated

    The definitions the theorems below are stated with. *)

Module ReportsSpec.

Import JS Reports.

(** An entry [r] that holds the arithmetic mean of the window [w] of
    [maWindow] values: the exact mean of the values, or the mean as doubles
    compute it, the sum taken from the left and divided by the count. *)
Definition mean_of (w : list double) (maWindow : Z) (r : double) : Prop :=
  exact r == sum (map exact w) / inject_Z maWindow \/
  r = (sum_doubles w / Number_of_integer maWindow)%float.

(** The moving average as the specification words it: always as long as the
    series, [maWindow - 1] empty entries, then the mean of the [maWindow]
    values that end at each index. *)
Definition movingAvg_as_specified (monthlyValues : list double) (maWindow : Z) : Prop :=
  let out := movingAvg monthlyValues maWindow in
  length out = length monthlyValues /\
  (forall i, (i < length monthlyValues)%nat -> (Z.of_nat i < maWindow - 1)%Z ->
     nth_error out i = Some None) /\
  (forall i, (i < length monthlyValues)%nat -> (maWindow - 1 <= Z.of_nat i)%Z ->
     exists r, nth_error out i = Some (Some r) /\
       mean_of (firstn (Z.to_nat maWindow)
                  (skipn (i + 1 - Z.to_nat maWindow) monthlyValues)) maWindow r).

(** The amount a category is sorted and summed by: [Number(c.v || 0)]. *)
Definition amount (c : Category) : number := number_or_zero (v c).


(** The months of a summary, each with its label and its value. *)
Definition months (data : option MonthlyData) : list Month :=
  map (fun mv => {| label := fst mv; value := number_or_zero (snd mv) |})
      (match data with Some d => monthly d | None => [] end).

(** The months of a series of doubles, each a pair of its label and its
    value. *)
Definition labelled (monthly : list (string * double)) : list (string * double) :=
  map (fun mv => (fst mv, double_or_zero (snd mv))) monthly.

(** The test that flags a month against the mean [a]: its value is above
    [a * 1.3] or below [a * 0.7], the products rounded as doubles. *)
Definition off_mean (a : double) (m : string * double) : Prop :=
  (a * 1.3 <? snd m)%float = true \/ (snd m <? a * 0.7)%float = true.

(** The mean of the numbers that finite doubles stand for. *)
Definition exact_mean (values : list double) : Q :=
  match values with
  | [] => 0
  | _ => sum (map exact values) / inject_Z (Z.of_nat (length values))
  end.

(** The anomalies as the specification words them, of the numbers the
    values stand for: the months whose value is above 1.3 times the mean of
    the series or below 0.7 times that mean, and none when the mean is
    zero. *)
Definition anomalies_as_specified (monthly : list (string * double)) : Prop :=
  let labels := map fst monthly in
  let values := map (fun mv => double_or_zero (snd mv)) monthly in
  let mean := exact_mean values in
  forall m,
    In m (anomalies labels values (avgMonthly values)) <->
    In m (labelled monthly) /\ ~ mean == 0 /\
    (mean * (13 # 10) < exact (snd m) \/ exact (snd m) < mean * (7 # 10)).

End ReportsSpec.

Module SettingsSpec.

Import JS Settings.

Section WithBackend.

Context `{Engine} `{Backend}.

(** ** What the recreation phase is expected to show *)

(** The three categories, in the order they are restored. *)
Inductive Kind := Expense | Budget | Saving.

Definition step_of (k : Kind) : string :=
  match k with
  | Expense => "Importing expenses"
  | Budget => "Importing budgets"
  | Saving => "Importing savings"
  end.

Definition body_of (k : Kind) : json -> M unit :=
  match k with
  | Expense => importExpense
  | Budget => importBudget
  | Saving => importSaving
  end.

(** The creation request of a document entry: only the recognised fields
    are read, a missing one is [undefined]. *)
Definition creation_of (k : Kind) (x : json) : Call :=
  let field := get_optional (Some x) in
  match k with
  | Expense => createExpense (field "date"%string) (field "category"%string)
                 (field "description"%string) (Number_or_zero (field "amount"%string))
  | Budget => createBudget (field "category"%string) (Number_or_zero (field "limit"%string))
  | Saving => createSaving (field "name"%string) (Number_or_zero (field "target"%string))
  end.

(** The request that depends on a creation, if any: for a saving whose
    [current] is a number above zero, created with a truthy [id], the update
    that sets that amount. *)
Definition follow_up (k : Kind) (x created : json) : option Call :=
  match k with
  | Saving =>
      let current := Number_or_zero (get_optional (Some x) "current") in
      if positive current && truthy (get_optional (Some created) "id")
      then Some (updateSaving (get_optional (Some created) "id") current)
      else None
  | _ => None
  end.

(** The first field read of an entry, which fails on [null]. *)
Definition first_key (k : Kind) : string :=
  match k with
  | Expense => "date"
  | Budget => "category"
  | Saving => "name"
  end.

(** The events of restoring one entry, and how the attempt ends. *)
Inductive item_events (k : Kind) (x : json) : list Event -> completion unit -> Prop :=
| item_unreadable :
    x = JNull ->
    item_events k x [] (Throw (TypeError_message (PropertyOfNullish (first_key k))))
| item_rejected message :
    x <> JNull ->
    item_events k x [Called (creation_of k x) (Reject message)] (Throw message)
| item_created created :
    x <> JNull -> follow_up k x created = None ->
    item_events k x [Called (creation_of k x) (Resolve created)] (Normal tt)
| item_updated created u body :
    x <> JNull -> follow_up k x created = Some u ->
    item_events k x [Called (creation_of k x) (Resolve created); Called u (Resolve body)]
                (Normal tt)
| item_update_rejected created u message :
    x <> JNull -> follow_up k x created = Some u ->
    item_events k x [Called (creation_of k x) (Resolve created); Called u (Reject message)]
                (Throw message).

(** The recreation phase as a fixed list of steps. *)
Inductive PlanStep :=
| Announce (k : Kind)
| Restore (k : Kind) (x : json).

Definition plan (payload : BackupPayload) : list PlanStep :=
  Announce Expense :: map (Restore Expense) (expenses payload)
  ++ Announce Budget :: map (Restore Budget) (budgets payload)
  ++ Announce Saving :: map (Restore Saving) (savings payload).

Definition report (total : nat) (k : Kind) (done : nat) : Event :=
  Reported {| step := step_of k; current := done; total := total |}.

(** The events of running a list of steps one after the other from the
    count [done]: a step starts when the one before it has ended, a restored
    entry is followed by a report of the new count, and the first failure
    ends the run. *)
Inductive plan_events (total : nat) :
  list PlanStep -> nat -> list Event -> completion unit -> Prop :=
| plan_end done :
    plan_events total [] done [] (Normal tt)
| plan_announce k rest done evs r :
    plan_events total rest done evs r ->
    plan_events total (Announce k :: rest) done (report total k done :: evs) r
| plan_stop k x rest done evs message :
    item_events k x evs (Throw message) ->
    plan_events total (Restore k x :: rest) done evs (Throw message)
| plan_restore k x rest done evs evs' r :
    item_events k x evs (Normal tt) ->
    plan_events total rest (S done) evs' r ->
    plan_events total (Restore k x :: rest) done
                (evs ++ report total k (S done) :: evs') r.

(** ** What the clearing phase is expected to show *)

(** Everything of the page but [importProgress]. *)
Definition core (p : PageState) :=
  (info p, busy p, currency p, dateFmt p, numFmt p, firstDay p, pendingImport p, importing p).

Definition clearing_call (c : Call) : bool :=
  match c with
  | getExpenses | getBudgets | getSavings
  | deleteExpense _ | deleteBudget _ | deleteSaving _ => true
  | _ => false
  end.

Definition read_call (c : Call) : bool :=
  match c with
  | getExpenses | getBudgets | getSavings => true
  | _ => false
  end.

Definition clearing_event (e : Event) : bool :=
  match e with
  | Called c _ => clearing_call c
  | _ => false
  end.

Definition rejected (e : Event) : bool :=
  match e with
  | Called _ (Reject _) => true
  | _ => false
  end.

(** The response of a request is the answer of the server in some state. *)
Definition answered (e : Event) : Prop :=
  match e with
  | Called c r => exists s, r = fst (respond s c)
  | _ => True
  end.

Definition rejected_with (evs : list Event) (message : string) : Prop :=
  exists c, In (Called c (Reject message)) evs.

Definition type_error (message : string) : Prop :=
  exists kind, message = TypeError_message kind.

(** A response body the clearing phase can work through: an array without
    [null] entries. *)
Definition record_list (body : json) : Prop :=
  exists items, body = JArr items /\ Forall (fun x => x <> JNull) items.

Fixpoint first_rejection (ps : list Response) : option string :=
  match ps with
  | [] => None
  | Resolve _ :: ps' => first_rejection ps'
  | Reject message :: _ => Some message
  end.

Definition bodies (ps : list Response) : list json :=
  flat_map (fun p => match p with Resolve body => [body] | Reject _ => [] end) ps.

(** The delete requests of one category, sent one per record, with the
    promise each returned. *)
Inductive batch_events (del : value -> Call) :
  list json -> list Event -> list Response -> Prop :=
| batch_nil : batch_events del [] [] []
| batch_cons x xs r evs ps :
    x <> JNull -> batch_events del xs evs ps ->
    batch_events del (x :: xs) (Called (del (get_optional (Some x) "id")) r :: evs) (r :: ps).

Definition deleted (del : value -> Call) (x : json) (e : Event) : Prop :=
  exists body, e = Called (del (get_optional (Some x) "id")) (Resolve body).

Definition reads (r1 r2 r3 : Response) : list Event :=
  [Called getExpenses r1; Called getBudgets r2; Called getSavings r3].

(** The events of a clearing phase that completed: the three reads resolved
    with arrays, and one resolved delete request followed for every record
    of them. *)
Definition cleared (evs : list Event) : Prop :=
  exists ex bu sa dE dB dS,
    evs = reads (Resolve (JArr ex)) (Resolve (JArr bu)) (Resolve (JArr sa))
          ++ dE ++ dB ++ dS /\
    Forall2 (deleted deleteExpense) ex dE /\
    Forall2 (deleted deleteBudget) bu dB /\
    Forall2 (deleted deleteSaving) sa dS.

(** Why a clearing phase failed with [message]: a request of it was
    rejected with that message, or a read resolved with something that is
    not a list of records and the engine raised a [TypeError]. *)
Definition clearing_failure (evs : list Event) (message : string) : Prop :=
  rejected_with evs message \/
  (type_error message /\
   exists c body, read_call c = true /\ In (Called c (Resolve body)) evs /\
                  ~ record_list body).

(** A request of the batch that [del] builds. *)
Definition sent_by (del : value -> Call) (e : Event) : Prop :=
  exists id r, e = Called (del id) r.

(** The responses of the requests among some events, in order. *)
Definition responses (evs : list Event) : list Response :=
  flat_map (fun e => match e with Called _ r => [r] | _ => [] end) evs.

(** The [TypeError] the engine raises when the deletions over the response
    [body] of a read are built, if it does: [body] is not an array, so that
    it has no [map] to call, or one of its entries is [null], so that its
    [id] cannot be read. *)
Definition unreadable (body : json) : option TypeErrorKind :=
  match body with
  | JArr items =>
      if existsb (fun x => match x with JNull => true | _ => false end) items
      then Some (PropertyOfNullish "id")
      else None
  | JNull => Some (PropertyOfNullish "map")
  | _ => Some (NotAFunction "map")
  end.

(** The events of a deletion batch over the response [body] of a read,
    failed with [message]: requests of that batch only; the message is that
    of the first of them that was rejected, unless [body] was not a list of
    records, when it is that of the [TypeError] this raised. *)
Definition batch_failed (del : value -> Call) (body : json) (evs : list Event)
  (message : string) : Prop :=
  Forall (sent_by del) evs /\
  match unreadable body with
  | Some kind => message = TypeError_message kind
  | None => first_rejection (responses evs) = Some message
  end.

(** The events of a clearing phase that failed with [message]: the batches
    before the failing one, completed, and then the failing batch, which is
    the last thing sent. *)
Inductive clearing_failed : list Event -> string -> Prop :=
| failed_reading r1 r2 r3 message :
    first_rejection [r1; r2; r3] = Some message ->
    clearing_failed (reads r1 r2 r3) message
| failed_deleting_expenses b1 b2 b3 dE message :
    batch_failed deleteExpense b1 dE message ->
    clearing_failed (reads (Resolve b1) (Resolve b2) (Resolve b3) ++ dE) message
| failed_deleting_budgets ex b2 b3 dE dB message :
    Forall2 (deleted deleteExpense) ex dE ->
    batch_failed deleteBudget b2 dB message ->
    clearing_failed (reads (Resolve (JArr ex)) (Resolve b2) (Resolve b3) ++ dE ++ dB)
                    message
| failed_deleting_savings ex bu b3 dE dB dS message :
    Forall2 (deleted deleteExpense) ex dE ->
    Forall2 (deleted deleteBudget) bu dB ->
    batch_failed deleteSaving b3 dS message ->
    clearing_failed
      (reads (Resolve (JArr ex)) (Resolve (JArr bu)) (Resolve b3) ++ dE ++ dB ++ dS)
      message.

(** ** What a whole run is expected to show *)

(** The report [runImport] starts with, before the clearing phase. *)
Definition placeholder : Event :=
  Reported {| step := "Clearing existing"; current := 0; total := 1 |}.

Definition total_of (payload : BackupPayload) : nat :=
  (length (expenses payload) + length (budgets payload) + length (savings payload))%nat.

(** The three ways a confirmed run from [st] with the staged [payload] ends
    in [st']: the clearing phase failed; the clearing phase completed and
    the recreation failed; everything completed. *)
Inductive run_of (st : St) (payload : BackupPayload) (st' : St) : Prop :=
| run_failed_clearing clearing message :
    events st' = events st ++ placeholder :: clearing ->
    Forall (fun e => clearing_event e = true) clearing ->
    Forall answered clearing ->
    clearing_failed clearing message ->
    pendingImport (page st') = pendingImport (page st) ->
    info (page st') = message ->
    run_of st payload st'
| run_failed_restoring clearing recreation message :
    events st' = events st ++ placeholder :: clearing ++ recreation ->
    Forall answered clearing ->
    cleared clearing ->
    plan_events (total_of payload) (plan payload) 0 recreation (Throw message) ->
    pendingImport (page st') = pendingImport (page st) ->
    info (page st') = message ->
    run_of st payload st'
| run_completed clearing recreation r1 r2 r3 :
    events st' = events st ++ placeholder :: clearing ++ recreation ++ reads r1 r2 r3 ->
    Forall answered clearing ->
    cleared clearing ->
    plan_events (total_of payload) (plan payload) 0 recreation (Normal tt) ->
    pendingImport (page st') = None ->
    info (page st') = "Import completed."%string ->
    run_of st payload st'.

Definition creating_call (c : Call) : bool :=
  match c with
  | createExpense _ _ _ _ | createBudget _ _ | createSaving _ _ => true
  | _ => false
  end.

(** The creation requests among some events, in order. *)
Definition created (evs : list Event) : list Call :=
  flat_map (fun e => match e with
                     | Called c _ => if creating_call c then [c] else []
                     | _ => []
                     end) evs.

(** The progress reports among some events, in order. *)
Definition reports (evs : list Event) : list Progress :=
  flat_map (fun e => match e with Reported p => [p] | _ => [] end) evs.

(** The creation requests a plan asks for. *)
Definition creations (steps : list PlanStep) : list Call :=
  flat_map (fun s => match s with
                     | Restore k x => [creation_of k x]
                     | Announce _ => []
                     end) steps.

(** The progress reports a plan asks for, from the count [done]. *)
Fixpoint planned_reports (total : nat) (steps : list PlanStep) (done : nat) : list Progress :=
  match steps with
  | [] => []
  | Announce k :: rest =>
      {| step := step_of k; current := done; total := total |}
      :: planned_reports total rest done
  | Restore k _ :: rest =>
      {| step := step_of k; current := S done; total := total |}
      :: planned_reports total rest (S done)
  end.

(** The creation requests of a document: its expenses, then its budgets,
    then its savings. *)
Definition all_creations (payload : BackupPayload) : list Call :=
  map (creation_of Expense) (expenses payload)
  ++ map (creation_of Budget) (budgets payload)
  ++ map (creation_of Saving) (savings payload).

(** The progress reports of a complete recreation: in each phase the count
    it starts from, then one more per entry, always out of the same total. *)
Definition all_reports (payload : BackupPayload) : list Progress :=
  let nE := length (expenses payload) in
  let nB := length (budgets payload) in
  let nS := length (savings payload) in
  let mk k i := {| step := step_of k; current := i; total := total_of payload |} in
  map (mk Expense) (seq 0 (S nE))
  ++ map (mk Budget) (seq nE (S nB))
  ++ map (mk Saving) (seq (nE + nB) (S nS)).

(** Every update request in [evs] comes right after a resolved creation of
    a saving and carries the [id] of its response; [prev] is the event
    before [evs]. *)
Fixpoint updates_follow_creations (prev : option Event) (evs : list Event) : Prop :=
  match evs with
  | [] => True
  | e :: rest =>
      match e with
      | Called (updateSaving id _) _ =>
          match prev with
          | Some (Called (createSaving _ _) (Resolve created)) =>
              id = get_optional (Some created) "id"
          | _ => False
          end
      | _ => True
      end /\ updates_follow_creations (Some e) rest
  end.

Definition ends_with_rejection (evs : list Event) (message : string) : Prop :=
  exists l c, evs = l ++ [Called c (Reject message)].

(** The entries of one category of a document. *)
Definition entries (k : Kind) (payload : BackupPayload) : list json :=
  match k with
  | Expense => expenses payload
  | Budget => budgets payload
  | Saving => savings payload
  end.

(** A document none of whose entries is [null]. *)
Definition no_null_entry (payload : BackupPayload) : Prop :=
  forall k, ~ In JNull (entries k payload).

(** Every read among [evs] that resolved did so with a list of records. *)
Definition well_read (evs : list Event) : Prop :=
  forall c body,
    read_call c = true -> In (Called c (Resolve body)) evs -> record_list body.

(** The recreation failed on the entry it had reached: its request, the
    last event, was rejected with [message], or the entry is [null] and
    [message] is that of the [TypeError] of reading its first field. *)
Definition recreation_failure (payload : BackupPayload) (evs : list Event)
  (message : string) : Prop :=
  ends_with_rejection evs message \/
  exists k, In JNull (entries k payload) /\
            message = TypeError_message (PropertyOfNullish (first_key k)).

(** ** Staging *)

(** A document as the specification accepts it: a JSON object in which at
    least one of [expenses], [budgets], [savings] is an array. *)
Definition acceptable (doc : json) : bool :=
  match doc with
  | JObj fields =>
      Array_isArray (lookup "expenses" fields)
      || Array_isArray (lookup "budgets" fields)
      || Array_isArray (lookup "savings" fields)
  | _ => false
  end.

(** The message a parsed document is refused with. *)
Definition refusal (doc : json) : string :=
  match doc with
  | JNull => TypeError_message (PropertyOfNullish "expenses")
  | _ => "Invalid backup file."
  end.

(** A server on which the clearing phase cannot fail: it resolves every
    read with a list of records and every deletion. *)
Definition cooperative : Prop :=
  forall s c, clearing_call c = true ->
    match fst (respond s c) with
    | Resolve body => read_call c = true -> record_list body
    | Reject _ => False
    end.

End WithBackend.

End SettingsSpec.

(** ** The other handlers of the Settings page *)

Module SettingsPageSpec.

Import JS Settings SettingsSpec.

Section WithBackend.

Context `{Engine} `{Backend}.

(** A computation that neither reads nor writes the state. *)
Definition stateless {A : Type} (m : M A) : Prop :=
  exists r, forall st, m st = (r, st).

(** What a CSV export handler that reads with [reading] and builds its text
    with [csv] leaves behind, from [st] to [st']: the one request, the file
    when the text could be built, and the notice. *)
Definition export_outcome (reading : Call) (csv : json -> M string)
  (filename notice : string) (st st' : St) : Prop :=
  exists r files,
    events st' = events st ++ Called reading r :: files /\
    r = fst (respond (server st) reading) /\
    busy (page st') = false /\
    pendingImport (page st') = pendingImport (page st) /\
    match r with
    | Reject message => files = [] /\ info (page st') = message
    | Resolve data =>
        match fst (csv data st) with
        | Normal text =>
            files = [Downloaded filename (JStr text)] /\ info (page st') = notice
        | Throw message => files = [] /\ info (page st') = message
        end
    end.

(** The creation requests of the demo data, in the order they are sent. *)
Definition demo_creations : list Call :=
  map (fun e : string * string * string * number =>
         let '(date, category, description, amount) := e in
         createExpense (Some (JStr date)) (Some (JStr category))
           (Some (JStr description)) (Finite amount))
      (demoExpenses (substring 0 7 Date_toISOString))
  ++ [ createBudget (Some (JStr "Food")) (Finite 20000);
       createBudget (Some (JStr "Transport")) (Finite 10000);
       createSaving (Some (JStr "Emergency Fund")) (Finite 200000);
       createSaving (Some (JStr "New Phone")) (Finite 150000) ].

End WithBackend.

End SettingsPageSpec.

(** ** The API client *)

Module ApiSpec.

(** A text made of slashes only. *)
Fixpoint only_slashes (s : string) : bool :=
  match s with
  | EmptyString => true
  | String c s' => Ascii.eqb c "/" && only_slashes s'
  end.

(** A text whose last character is a slash. *)
Fixpoint ends_with_slash (s : string) : bool :=
  match s with
  | EmptyString => false
  | String c EmptyString => Ascii.eqb c "/"
  | String _ s' => ends_with_slash s'
  end.

End ApiSpec.

(** ** Reading an exported CSV text back *)

Module Csv.

Import JS Settings.

Definition comma : ascii := ascii_of_nat 44.

(** Where the reader is inside a record: at the start of a field, inside a
    field written without quotes, inside a quoted field, or just after a
    double quote met inside a quoted field (which ends the field, unless a
    second double quote follows). *)
Inductive Mode := FieldStart | Bare | InQuotes | QuoteSeen.

(** A reader of CSV texts by the usual rules (RFC 4180, with a line feed
    between records): fields are separated by commas and records by line
    feeds; a field that starts with a double quote runs to the next single
    double quote, commas and line feeds included, and two double quotes in
    a row stand for one; a double quote elsewhere is an error, and so is a
    quoted field that is not closed.  [field], [row] and [rows] are what
    has been read so far. *)
Fixpoint read_from (mode : Mode) (field : string) (row : list string)
  (rows : list (list string)) (text : string) : option (list (list string)) :=
  match text with
  | EmptyString =>
      match mode with
      | InQuotes => None
      | _ => Some (rows ++ [row ++ [field]])
      end
  | String c rest =>
      match mode with
      | InQuotes =>
          if Ascii.eqb c double_quote then read_from QuoteSeen field row rows rest
          else read_from InQuotes (field ++ String c EmptyString) row rows rest
      | _ =>
          if Ascii.eqb c double_quote then
            match mode with
            | FieldStart => read_from InQuotes field row rows rest
            | QuoteSeen => read_from InQuotes (field ++ String c EmptyString) row rows rest
            | _ => None
            end
          else if Ascii.eqb c comma then
            read_from FieldStart EmptyString (row ++ [field]) rows rest
          else if Ascii.eqb c line_feed then
            read_from FieldStart EmptyString [] (rows ++ [row ++ [field]]) rest
          else
            match mode with
            | QuoteSeen => None
            | _ => read_from Bare (field ++ String c EmptyString) row rows rest
            end
      end
  end.

(** The records of a CSV text, each a list of fields. *)
Definition read (text : string) : option (list (list string)) :=
  read_from FieldStart EmptyString [] [] text.

(** A text that can be written as a field without quotes: it holds no
    double quote, comma or line feed. *)
Fixpoint bare (s : string) : bool :=
  match s with
  | EmptyString => true
  | String c s' =>
      negb (Ascii.eqb c double_quote) && negb (Ascii.eqb c comma)
      && negb (Ascii.eqb c line_feed) && bare s'
  end.

Section WithEngine.

Context `{Engine}.

(** The text a quoted field stands for: the string, or nothing for a falsy
    value. *)
Definition text_of (x : value) : string :=
  match x with
  | Some (JStr s) => s
  | _ => EmptyString
  end.

(** A value a quoted field can be made of: a string or a falsy value. *)
Definition textual (x : value) : Prop :=
  truthy x = false \/ exists s, x = Some (JStr s).

(** The fields of the row of an expense, a budget and a saving. *)
Definition expense_fields (r : json) : list string :=
  [ element_text (get_optional (Some r) "date");
    text_of (get_optional (Some r) "category");
    text_of (get_optional (Some r) "description");
    element_text (get_optional (Some r) "amount") ].

Definition budget_fields (b : json) : list string :=
  [ text_of (get_optional (Some b) "category");
    element_text (or_zero (get_optional (Some b) "limit")) ].

Definition saving_fields (s : json) : list string :=
  [ text_of (get_optional (Some s) "name");
    element_text (or_zero (get_optional (Some s) "target"));
    element_text (or_zero (get_optional (Some s) "current")) ].

(** The records an export can write so that they read back: the fields
    that are quoted are strings (or falsy), and the texts of the fields
    that are written as they are need no quotes. *)
Definition exportable_expense (r : json) : Prop :=
  r <> JNull /\
  textual (get_optional (Some r) "category") /\
  textual (get_optional (Some r) "description") /\
  bare (element_text (get_optional (Some r) "date")) = true /\
  bare (element_text (get_optional (Some r) "amount")) = true.

Definition exportable_budget (b : json) : Prop :=
  b <> JNull /\
  textual (get_optional (Some b) "category") /\
  bare (element_text (or_zero (get_optional (Some b) "limit"))) = true.

Definition exportable_saving (s : json) : Prop :=
  s <> JNull /\
  textual (get_optional (Some s) "name") /\
  bare (element_text (or_zero (get_optional (Some s) "target"))) = true /\
  bare (element_text (or_zero (get_optional (Some s) "current"))) = true.

End WithEngine.

(** A field as an export writes it: as it is, or quoted. *)
Inductive Cell :=
| Plain (s : string)
| Quote (s : string).

Definition cell_text (c : Cell) : string :=
  match c with
  | Plain s => s
  | Quote s => String double_quote (double_quotes s ++ String double_quote EmptyString)
  end.

Definition cell_value (c : Cell) : string :=
  match c with
  | Plain s | Quote s => s
  end.

Definition cell_ok (c : Cell) : Prop :=
  match c with
  | Plain s => bare s = true
  | Quote _ => True
  end.

Definition row_text (cells : list Cell) : string :=
  String.concat "," (map cell_text cells).

Definition table_text (table : list (list Cell)) : string :=
  String.concat (String line_feed EmptyString) (map row_text table).


Section WithEngine.

Context `{Engine}.

(** The rows of the three exports, field by field. *)
Definition expense_cells (r : json) : list Cell :=
  [ Plain (element_text (get_optional (Some r) "date"));
    Quote (text_of (get_optional (Some r) "category"));
    Quote (text_of (get_optional (Some r) "description"));
    Plain (element_text (get_optional (Some r) "amount")) ].

Definition budget_cells (b : json) : list Cell :=
  [ Quote (text_of (get_optional (Some b) "category"));
    Plain (element_text (or_zero (get_optional (Some b) "limit"))) ].

Definition saving_cells (s : json) : list Cell :=
  [ Quote (text_of (get_optional (Some s) "name"));
    Plain (element_text (or_zero (get_optional (Some s) "target")));
    Plain (element_text (or_zero (get_optional (Some s) "current"))) ].

End WithEngine.

(** The rest of a text after a field: nothing, or a separator and more. *)
Definition separated (rest : string) : Prop :=
  match rest with
  | EmptyString => True
  | String c _ => c = comma \/ c = line_feed
  end.

(** What the reader does at the end of a field of value [field]. *)
Definition after_field (field : string) (row : list string) (rows : list (list string))
  (rest : string) : option (list (list string)) :=
  match rest with
  | EmptyString => Some (rows ++ [row ++ [field]])
  | String c rest' =>
      if Ascii.eqb c comma then read_from FieldStart EmptyString (row ++ [field]) rows rest'
      else read_from FieldStart EmptyString [] (rows ++ [row ++ [field]]) rest'
  end.

End Csv.

(** * Facts about the library fragment *)

Module JSFacts.

Import JS.

Lemma ltb_lt (a b : number) : ltb a b = true <-> a < b.
Proof.
  unfold ltb. rewrite negb_true_iff, <- not_true_iff_false, Qle_bool_iff.
  split; [apply Qnot_le_lt | apply Qlt_not_le].
Qed.

Lemma ltb_ge (a b : number) : ltb a b = false <-> b <= a.
Proof.
  unfold ltb. rewrite negb_false_iff. apply Qle_bool_iff.
Qed.

Lemma number_or_zero_eq (x : number) : number_or_zero x == x.
Proof.
  unfold number_or_zero. destruct (Qeq_bool x 0) eqn:E; [|reflexivity].
  apply Qeq_bool_iff in E. symmetry. exact E.
Qed.

Lemma mapi_from_length {A B} (f : A -> nat -> B) l : forall i0,
  length (mapi_from f i0 l) = length l.
Proof. induction l as [|x l IH]; intros i0; simpl; [reflexivity | now rewrite IH]. Qed.

Lemma mapi_from_nth_error {A B} (f : A -> nat -> B) l : forall i0 i,
  nth_error (mapi_from f i0 l) i = option_map (fun x => f x (i0 + i)%nat) (nth_error l i).
Proof.
  induction l as [|x l IH]; intros i0 [|i]; simpl; try reflexivity.
  - now rewrite Nat.add_0_r.
  - rewrite IH. now rewrite Nat.add_succ_comm.
Qed.

Lemma mapi_from_combine {A B} (f : A -> nat -> B) l : forall i0,
  mapi_from f i0 l = map (fun p => f (fst p) (snd p)) (combine l (seq i0 (length l))).
Proof. induction l as [|x l IH]; intros i0; simpl; [reflexivity | now rewrite IH]. Qed.

(** [slice] between two indices inside the array. *)
Lemma slice_inside {A} (l : list A) (s e : nat) :
  (s <= e <= length l)%nat ->
  slice l (Z.of_nat s) (Some (Z.of_nat e)) = firstn (e - s) (skipn s l).
Proof.
  intros H. unfold slice, relative_index.
  destruct (Z.ltb_spec (Z.of_nat s) 0); [lia|].
  destruct (Z.ltb_spec (Z.of_nat e) 0); [lia|].
  rewrite !Nat2Z.id. now rewrite !Nat.min_l by lia.
Qed.



Lemma Qmake_100 (n : Z) : n # 100 == inject_Z n * (1 # 100).
Proof. unfold Qeq, inject_Z, Qmult. simpl. lia. Qed.

Lemma floor_half_near (y : Q) :
  - (1 # 2) <= inject_Z (Qfloor (y + (1 # 2))) - y <= 1 # 2.
Proof.
  pose proof (Qfloor_le (y + (1 # 2))) as H.
  pose proof (Qlt_floor (y + (1 # 2))) as L.
  rewrite inject_Z_plus in L. change (inject_Z 1) with 1 in L.
  generalize dependent (inject_Z (Qfloor (y + (1 # 2)))).
  intros q H L. split; lra.
Qed.

(** [toFixed2] of a finite double below [1e21] is read from the text of a
    count [n] of hundredths, and [n / 100] is within half a hundredth of the
    exact value of [|x|]. *)
Lemma toFixed2_rounds (x : double) :
  PrimFloat.is_finite x = true -> (1e21 <=? PrimFloat.abs x)%float = false ->
  exists n : Z,
    (0 <= n)%Z /\
    toFixed2 x = (if (x <? 0)%float then - hundredths n else hundredths n)%float /\
    Qabs ((n # 100) - Qabs (exact x)) <= 1 # 200.
Proof.
  intros F B. unfold PrimFloat.is_finite in F. apply negb_true_iff in F.
  exists (Qfloor (Qabs (exact x) * 100 + (1 # 2))).
  pose proof (Qabs_nonneg (exact x)) as P.
  split; [|split].
  - change 0%Z with (Qfloor 0). apply Qfloor_resp_le.
    generalize dependent (Qabs (exact x)). intros q P. lra.
  - unfold toFixed2. now rewrite F, B.
  - pose proof (floor_half_near (Qabs (exact x) * 100)) as H.
    rewrite Qmake_100. apply Qabs_Qle_condition.
    generalize dependent (inject_Z (Qfloor (Qabs (exact x) * 100 + (1 # 2)))).
    generalize dependent (Qabs (exact x)).
    intros q _ z H. split; lra.
Qed.

Section Sorting.

Context {A : Type} (key : A -> number).

(** The comparator of a descending sort on [key]. *)
Let cmp (a b : A) : number := key b - key a.








End Sorting.

End JSFacts.

(** * The Reports page: the derived figures *)

Module ReportsFacts.

Import JS JSFacts Reports ReportsSpec.

(** C4, refuted as stated: a window of one month yields no sequence at all
    (the series [100, 200] gives the empty list, not a list of two), and an
    entry is rounded to two decimals (the series [1, 1, 2] with a window of
    three gives 1.33, which is neither the exact mean 4/3 nor the mean as
    doubles compute it, 1.3333333333333333). *)
Lemma movingAvg_not_as_specified :
  ~ movingAvg_as_specified [100; 200]%float 1 /\
  ~ movingAvg_as_specified [1; 1; 2]%float 3.
Proof.
  split.
  - intros [H _]. discriminate H.
  - intros (_ & _ & H). destruct (H 2%nat) as (r & E & [R|R]); [simpl; lia | lia | |].
    + vm_compute in E. injection E as <-. vm_compute in R. discriminate R.
    + vm_compute in E. injection E as <-.
      apply (f_equal (fun y => (y <? 1.3333)%float)) in R. vm_compute in R. discriminate R.
Qed.

(** C4, as the code has it: a window of at most one month produces the empty
    sequence; for a window of [maWindow >= 2] months the output is as long
    as the windowed series, an entry before index [maWindow - 1] is the
    "no value" marker, and the entry at an index [i >= maWindow - 1] is the
    mean of the [maWindow] values ending at [i] as doubles compute it (their
    sum, taken from the left, over the count), rounded to two decimals by
    [toFixed(2)].  The rounding is that of the exact value of the double it
    is given: for a finite one below [1e21] in size the result is read from
    the text of a count of hundredths within 0.005 of that value.  For
    [100, 200, 300, 400] and a window of 3 the output is
    [none, none, 200, 300]; for [10, 10.01] and a window of 2 the mean is
    the double 10.004999999999999 and the entry is 10. *)
Theorem movingAvg_spec (monthlyValues : list double) (maWindow : Z) :
  ((maWindow <= 1)%Z -> movingAvg monthlyValues maWindow = []) /\
  ((2 <= maWindow)%Z ->
     length (movingAvg monthlyValues maWindow) = length monthlyValues /\
     forall i, (i < length monthlyValues)%nat ->
       nth_error (movingAvg monthlyValues maWindow) i =
       Some (if (Z.of_nat i <? maWindow - 1)%Z then None
             else Some (toFixed2
                          (sum_doubles (firstn (Z.to_nat maWindow)
                                          (skipn (i + 1 - Z.to_nat maWindow) monthlyValues))
                           / Number_of_integer maWindow)%float))) /\
  (forall x, PrimFloat.is_finite x = true -> (1e21 <=? PrimFloat.abs x)%float = false ->
     exists n : Z,
       (0 <= n)%Z /\
       toFixed2 x = (if (x <? 0)%float then - hundredths n else hundredths n)%float /\
       Qabs ((n # 100) - Qabs (exact x)) <= 1 # 200) /\
  movingAvg [100; 200; 300; 400]%float 3 = [None; None; Some 200%float; Some 300%float] /\
  movingAvg [10; 10.01]%float 2 = [None; Some 10%float].
Proof.
  split; [|split; [|split; [|split]]].
  - intros H. unfold movingAvg.
    destruct (Z.leb_spec maWindow 1); [|lia]. now rewrite orb_true_r.
  - intros H. unfold movingAvg.
    destruct (Z.eqb_spec maWindow 0); [lia|].
    destruct (Z.leb_spec maWindow 1); [lia|]. simpl orb. cbv iota.
    split; [apply mapi_from_length|].
    intros i Hi. unfold mapi. rewrite mapi_from_nth_error.
    destruct (nth_error monthlyValues i) as [x|] eqn:E;
      [|apply nth_error_None in E; lia].
    simpl. f_equal.
    destruct (Z.ltb_spec (Z.of_nat i + 1) maWindow), (Z.ltb_spec (Z.of_nat i) (maWindow - 1));
      try lia; [reflexivity|].
    do 4 f_equal.
    replace (Z.of_nat i - maWindow + 1)%Z with (Z.of_nat (i + 1 - Z.to_nat maWindow)) by lia.
    replace (Z.of_nat i + 1)%Z with (Z.of_nat (i + 1)) by lia.
    rewrite slice_inside by lia. do 2 f_equal. lia.
  - apply toFixed2_rounds.
  - reflexivity.
  - reflexivity.
Qed.





Lemma labelled_values_from (pre l : list (string * double)) :
  mapi_from (fun x i => (nth i (map fst (pre ++ l)) ""%string, x))
            (length pre) (map (fun mv => double_or_zero (snd mv)) l) =
  labelled l.
Proof.
  revert pre. induction l as [|a l IH]; intros pre; [reflexivity|].
  simpl. f_equal.
  - f_equal. rewrite map_app, app_nth2; rewrite length_map; [|lia].
    now rewrite Nat.sub_diag.
  - specialize (IH (pre ++ [a])). rewrite <- app_assoc, length_app in IH.
    simpl in IH. rewrite Nat.add_1_r in IH. exact IH.
Qed.

Lemma labelled_values (monthly : list (string * double)) :
  mapi (fun x i => (nth i (map fst monthly) ""%string, x))
       (map (fun mv => double_or_zero (snd mv)) monthly) = labelled monthly.
Proof. apply (labelled_values_from []). Qed.

Lemma falsy_or_zero (x : double) : falsy (double_or_zero x) = falsy x.
Proof. unfold double_or_zero. destruct (falsy x) eqn:E; [reflexivity | exact E]. Qed.

(** C9, refuted as stated: the mean is a sum of doubles over a count, and
    the sum can overflow.  Two months of 1e308 have the mean 1e308, which
    neither of them is off; the sum of the two is [Infinity], so is the
    mean the page works with, and both months, being below 0.7 times that,
    are flagged. *)
Lemma anomalies_not_as_specified :
  ~ anomalies_as_specified [("Jan", 1e308); ("Feb", 1e308)]%float%string.
Proof.
  intros H. destruct (H ("Jan"%string, 1e308%float)) as [F _].
  destruct F as (_ & _ & [L|L]).
  - vm_compute. left. reflexivity.
  - vm_compute in L. discriminate L.
  - vm_compute in L. discriminate L.
Qed.

(** C9, as the code has it: over the full series [data.monthly], with
    [mean] its mean as doubles compute it (the sum of the values, taken
    from the left, over their count), the anomalies are exactly the months
    whose value is above [mean * 1.3] or below [mean * 0.7], in series
    order, the products and the comparisons being those of doubles; and
    there is none when the mean is zero (or [NaN]).  In [100, 100, 100, 1000], of mean 325, the month
    of value 1000 is flagged, being above 422.5 (and so are the months of
    value 100, which are below 0.7 times the mean); in an all-zero series
    no month is. *)
Theorem anomalies_spec (monthly : list (string * double)) :
  let labels := map fst monthly in
  let values := map (fun mv => double_or_zero (snd mv)) monthly in
  let mean := avgMonthly values in
  (values <> [] ->
   mean = (sum_doubles values / Number_of_integer (Z.of_nat (length values)))%float) /\
  (falsy mean = true -> anomalies labels values mean = []) /\
  (falsy mean = false ->
     anomalies labels values mean =
     filter (fun m => (mean * 1.3 <? snd m)%float || (snd m <? mean * 0.7)%float)
            (labelled monthly)) /\
  (forall m, In m (anomalies labels values mean) <->
             In m (labelled monthly) /\ falsy mean = false /\ off_mean mean m) /\
  (let series := [("Jan", 100); ("Feb", 100); ("Mar", 100); ("Apr", 1000)]%float%string in
   let amounts := map (fun mv => double_or_zero (snd mv)) series in
   avgMonthly amounts = 325%float /\
   (avgMonthly amounts * 1.3)%float = 422.5%float /\
   anomalies (map fst series) amounts (avgMonthly amounts) = series) /\
  (let zeros := [("Jan", 0); ("Feb", 0); ("Mar", 0)]%float%string in
   let amounts := map (fun mv => double_or_zero (snd mv)) zeros in
   anomalies (map fst zeros) amounts (avgMonthly amounts) = []).
Proof.
  intros labels values mean.
  assert (Hzero : falsy mean = true -> anomalies labels values mean = []).
  { intros H. unfold anomalies. now rewrite falsy_or_zero, H. }
  assert (Hflag : falsy mean = false ->
            anomalies labels values mean =
            filter (fun m => (mean * 1.3 <? snd m)%float || (snd m <? mean * 0.7)%float)
                   (labelled monthly)).
  { intros H. unfold anomalies. rewrite falsy_or_zero, H.
    unfold double_or_zero. rewrite H. unfold labels, values.
    now rewrite labelled_values. }
  split; [|split; [exact Hzero | split; [exact Hflag | split; [|split]]]].
  - intros H. unfold mean, avgMonthly, avg.
    destruct values; [contradiction | reflexivity].
  - intros m. destruct (falsy mean) eqn:Z.
    + rewrite (Hzero eq_refl). simpl. split; [tauto|]. intros (_ & D & _). discriminate D.
    + rewrite (Hflag eq_refl), filter_In, orb_true_iff. unfold off_mean. tauto.
  - repeat split.
  - reflexivity.
Qed.

(** ** The figures, computed *)

Example movingAvg_rounds :
  movingAvg [1; 1; 2]%float 3 = [None; None; Some 1.33%float].
Proof. reflexivity. Qed.

Example movingAvg_short_series : movingAvg [100; 200]%float 3 = [None; None].
Proof. reflexivity. Qed.

(** The rounding acts on the double it is given, not on the exact mean: the
    mean of 0.01 and 0.02 is the double just below 0.015, which rounds
    down. *)
Example movingAvg_rounds_the_double :
  (sum_doubles [0.01; 0.02] / Number_of_integer 2 <? 0.015)%float = false /\
  exact (sum_doubles [0.01; 0.02] / Number_of_integer 2)%float < 15 # 1000 /\
  movingAvg [0.01; 0.02]%float 2 = [None; Some 0.01%float].
Proof. repeat split. Qed.

(** A tie goes away from zero; a negative number that rounds to zero keeps
    its sign; [NaN], the infinities and the numbers from [1e21] on come back
    unchanged. *)
Example toFixed2_ties :
  toFixed2 0.125 = 0.13%float /\ toFixed2 (-0.125) = (-0.13)%float /\
  toFixed2 (-0.001) = (-0)%float /\
  toFixed2 PrimFloat.nan = PrimFloat.nan /\
  toFixed2 PrimFloat.infinity = PrimFloat.infinity /\
  toFixed2 1e21 = 1e21%float.
Proof. repeat split. Qed.

(** Doubles overflow: two months of 1e308 have the mean [Infinity], below
    which both fall. *)
Example anomalies_of_an_overflowing_sum :
  avgMonthly [1e308; 1e308]%float = PrimFloat.infinity /\
  anomalies ["Jan"; "Feb"]%string [1e308; 1e308]%float (avgMonthly [1e308; 1e308]%float)
  = [("Jan"%string, 1e308%float); ("Feb"%string, 1e308%float)].
Proof. split; reflexivity. Qed.

(** The sum of doubles rounds: the mean of three months of 0.1 is above
    0.1. *)
Example avg_rounds :
  avg [0.1; 0.1; 0.1]%float = 0.10000000000000002%float /\
  (0.1 <? avg [0.1; 0.1; 0.1])%float = true.
Proof. split; reflexivity. Qed.

Example catTop_ties_keep_input_order :
  categoriesSorted
    [ {| k := "E"%string; v := 5 |}; {| k := "B"%string; v := 30 |};
      {| k := "D"%string; v := 5 |}; {| k := "A"%string; v := 50 |} ] =
    [ {| k := "A"%string; v := 50 |}; {| k := "B"%string; v := 30 |};
      {| k := "E"%string; v := 5 |}; {| k := "D"%string; v := 5 |} ].
Proof. reflexivity. Qed.

End ReportsFacts.

(** * The Settings page: staging, applying and exporting a backup *)

Module SettingsFacts.

Import JS JSFacts Settings SettingsSpec.

Section WithBackend.

Context `{Engine} `{Backend}.

(** ** Single steps *)

Lemma get_not_null (x : json) (key : string) :
  x <> JNull -> get (Some x) key = Normal (get_optional (Some x) key).
Proof. destruct x; intros N; try reflexivity. contradiction. Qed.

Lemma call_run (c : Call) (st : St) :
  exists r st',
    send c st = (Normal r, st') /\
    call c st = (match r with Resolve body => Normal body | Reject m => Throw m end, st') /\
    events st' = events st ++ [Called c r] /\ page st' = page st.
Proof.
  unfold call, bind, send. destruct (respond (server st) c) as [r s'].
  exists r. eexists. split; [reflexivity|]. split; [|split; reflexivity].
  destruct r; reflexivity.
Qed.

Lemma item_run (k : Kind) (x : json) (st : St) :
  exists evs r st',
    body_of k x st = (r, st') /\
    events st' = events st ++ evs /\ page st' = page st /\ item_events k x evs r.
Proof.
  destruct (match x with JNull => true | _ => false end) eqn:N.
  - destruct x; try discriminate N.
    exists [], (Throw (TypeError_message (PropertyOfNullish (first_key k)))), st.
    split; [destruct k; reflexivity|].
    split; [now rewrite app_nil_r|]. split; [reflexivity|]. now constructor.
  - assert (NN : x <> JNull) by (intros ->; discriminate N).
    destruct (call_run (creation_of k x) st) as (r & st1 & _ & Hc & He & Hp).
    assert (Hbody : forall (rest : json -> M unit),
              (created <- call (creation_of k x) ;; rest created) st =
              match r with
              | Resolve created => rest created st1
              | Reject m => (Throw m, st1)
              end).
    { intros rest. unfold bind at 1. rewrite Hc. destruct r; reflexivity. }
    destruct k.
    + exists [Called (creation_of Expense x) r],
        (match r with Resolve _ => Normal tt | Reject m => Throw m end), st1.
      split; [|split; [exact He | split; [exact Hp|]]].
      * unfold body_of, importExpense.
        unfold bind at 1, lift. rewrite (get_not_null x "date" NN).
        unfold bind at 1. rewrite (get_not_null x "category" NN).
        unfold bind at 1. rewrite (get_not_null x "description" NN).
        unfold bind at 1. rewrite (get_not_null x "amount" NN).
        change (createExpense _ _ _ _) with (creation_of Expense x).
        rewrite Hbody. destruct r; reflexivity.
      * destruct r; now constructor.
    + exists [Called (creation_of Budget x) r],
        (match r with Resolve _ => Normal tt | Reject m => Throw m end), st1.
      split; [|split; [exact He | split; [exact Hp|]]].
      * unfold body_of, importBudget.
        unfold bind at 1, lift. rewrite (get_not_null x "category" NN).
        unfold bind at 1. rewrite (get_not_null x "limit" NN).
        change (createBudget _ _) with (creation_of Budget x).
        rewrite Hbody. destruct r; reflexivity.
      * destruct r; now constructor.
    + assert (Hrun : importSaving x st =
                match r with
                | Resolve created =>
                    match follow_up Saving x created with
                    | Some u => (_ <- call u ;; ret tt) st1
                    | None => (Normal tt, st1)
                    end
                | Reject m => (Throw m, st1)
                end).
      { unfold importSaving.
        unfold bind at 1, lift. rewrite (get_not_null x "name" NN).
        unfold bind at 1. rewrite (get_not_null x "target" NN).
        change (createSaving _ _) with (creation_of Saving x).
        rewrite Hbody. destruct r as [created|m]; [|reflexivity].
        unfold bind at 1. rewrite (get_not_null x "current" NN).
        unfold follow_up.
        destruct (positive _ && truthy (get_optional (Some created) "id")) eqn:C;
          [|reflexivity].
        apply andb_prop in C as [_ T].
        assert (CN : created <> JNull) by (intros ->; discriminate T).
        unfold bind at 1. rewrite (get_not_null created "id" CN). reflexivity. }
      destruct r as [created|m].
      * destruct (follow_up Saving x created) as [u|] eqn:F.
        -- destruct (call_run u st1) as (r2 & st2 & _ & Hc2 & He2 & Hp2).
           exists [Called (creation_of Saving x) (Resolve created); Called u r2],
             (match r2 with Resolve _ => Normal tt | Reject m => Throw m end), st2.
           split; [|split; [|split]].
           ++ unfold body_of. rewrite Hrun. unfold bind. rewrite Hc2.
              destruct r2; reflexivity.
           ++ rewrite He2, He, <- app_assoc. reflexivity.
           ++ now rewrite Hp2.
           ++ destruct r2; [now apply item_updated | now apply item_update_rejected].
        -- exists [Called (creation_of Saving x) (Resolve created)], (Normal tt), st1.
           split; [exact Hrun | split; [exact He | split; [exact Hp|]]].
           now constructor.
      * exists [Called (creation_of Saving x) (Reject m)], (Throw m), st1.
        split; [exact Hrun | split; [exact He | split; [exact Hp|]]].
        now constructor.
Qed.

Lemma bump_run (total : nat) (k : Kind) (done : nat) (st : St) :
  exists st',
    bump total (step_of k) done st = (Normal tt, st') /\
    events st' = events st ++ [report total k done] /\
    core (page st') = core (page st).
Proof. eexists. repeat split. Qed.

(** The loop over the entries of one category runs its part of the plan. *)
Lemma restoreEach_run (total : nat) (k : Kind) (items : list json) :
  forall (done : nat) (st : St),
  exists evs r st',
    restoreEach total (step_of k) (body_of k) items done st = (r, st') /\
    events st' = events st ++ evs /\ core (page st') = core (page st) /\
    match r with
    | Normal d =>
        d = (done + length items)%nat /\
        forall rest evs' r',
          plan_events total rest d evs' r' ->
          plan_events total (map (Restore k) items ++ rest) done (evs ++ evs') r'
    | Throw m =>
        forall rest, plan_events total (map (Restore k) items ++ rest) done evs (Throw m)
    end.
Proof.
  induction items as [|x items IH]; intros done st.
  - exists [], (Normal done), st. split; [reflexivity|].
    split; [now rewrite app_nil_r|]. split; [reflexivity|].
    split; [simpl; lia | intros rest evs' r' P; exact P].
  - destruct (item_run k x st) as (evs1 & r1 & st1 & Hb & He1 & Hp1 & Hi).
    simpl restoreEach. unfold bind at 1. rewrite Hb.
    destruct r1 as [[]|m].
    + destruct (bump_run total k (S done) st1) as (st2 & Hbump & He2 & Hp2).
      unfold bind at 1. rewrite Hbump.
      destruct (IH (S done) st2) as (evs3 & r3 & st3 & Hl & He3 & Hp3 & Hr).
      exists (evs1 ++ report total k (S done) :: evs3), r3, st3.
      split; [exact Hl|].
      split; [rewrite He3, He2, He1, <- !app_assoc; reflexivity|].
      split; [now rewrite Hp3, Hp2, Hp1|].
      destruct r3 as [d|m].
      * destruct Hr as [-> Hr]. split; [simpl; lia|].
        intros rest evs' r' P. simpl map. rewrite <- app_assoc. simpl.
        apply plan_restore; [exact Hi | now apply Hr].
      * intros rest. simpl. apply plan_restore; [exact Hi | apply Hr].
    + exists evs1, (Throw m), st1. split; [reflexivity|].
      split; [exact He1|]. split; [now rewrite Hp1|].
      intros rest. simpl. now apply plan_stop.
Qed.

(** The recreation phase runs the plan of the payload from a count of zero,
    with the total fixed at its start. *)
Lemma restore_run (payload : BackupPayload) (st : St) :
  let total := (length (expenses payload) + length (budgets payload)
                + length (savings payload))%nat in
  exists evs r st',
    restore payload st = (r, st') /\
    events st' = events st ++ evs /\ core (page st') = core (page st) /\
    plan_events total (plan payload) 0 evs r.
Proof.
  intros total. unfold restore. fold total.
  destruct (bump_run total Expense 0 st) as (s1 & B1 & E1 & P1).
  unfold bind at 1. change "Importing expenses"%string with (step_of Expense).
  change importExpense with (body_of Expense). rewrite B1.
  destruct (restoreEach_run total Expense (expenses payload) 0 s1)
    as (ev2 & r2 & s2 & L2 & E2 & P2 & R2).
  unfold bind at 1. rewrite L2. unfold plan.
  destruct r2 as [d2|m].
  2:{ exists (report total Expense 0 :: ev2), (Throw m), s2.
      split; [reflexivity|]. split; [rewrite E2, E1, <- app_assoc; reflexivity|].
      split; [now rewrite P2, P1|]. apply plan_announce, R2. }
  destruct R2 as [-> R2].
  destruct (bump_run total Budget (0 + length (expenses payload)) s2) as (s3 & B3 & E3 & P3).
  unfold bind at 1. change "Importing budgets"%string with (step_of Budget).
  change importBudget with (body_of Budget). rewrite B3.
  destruct (restoreEach_run total Budget (budgets payload) (0 + length (expenses payload)) s3)
    as (ev4 & r4 & s4 & L4 & E4 & P4 & R4).
  unfold bind at 1. rewrite L4.
  destruct r4 as [d4|m].
  2:{ exists (report total Expense 0
              :: ev2 ++ report total Budget (0 + length (expenses payload)) :: ev4),
        (Throw m), s4.
      split; [reflexivity|].
      split; [rewrite E4, E3, E2, E1, <- !app_assoc; reflexivity|].
      split; [now rewrite P4, P3, P2, P1|].
      apply plan_announce, R2, plan_announce, R4. }
  destruct R4 as [-> R4].
  set (n2 := (0 + length (expenses payload) + length (budgets payload))%nat) in *.
  destruct (bump_run total Saving n2 s4) as (s5 & B5 & E5 & P5).
  unfold bind at 1. change "Importing savings"%string with (step_of Saving).
  change importSaving with (body_of Saving). rewrite B5.
  destruct (restoreEach_run total Saving (savings payload) n2 s5)
    as (ev6 & r6 & s6 & L6 & E6 & P6 & R6).
  unfold bind at 1. rewrite L6.
  exists (report total Expense 0
          :: ev2 ++ report total Budget (0 + length (expenses payload))
          :: ev4 ++ report total Saving n2 :: ev6),
    (match r6 with Normal _ => Normal tt | Throw m => Throw m end), s6.
  split; [destruct r6; reflexivity|].
  split; [rewrite E6, E5, E4, E3, E2, E1, <- !app_assoc; reflexivity|].
  split; [now rewrite P6, P5, P4, P3, P2, P1|].
  apply plan_announce, R2, plan_announce, R4, plan_announce.
  destruct r6 as [d6|m].
  - destruct R6 as [_ R6]. specialize (R6 [] [] (Normal tt) (plan_end total _)).
    now rewrite !app_nil_r in R6.
  - specialize (R6 []). now rewrite app_nil_r in R6.
Qed.

(** ** The clearing phase *)

Lemma Promise_all_run (ps : list Response) (st : St) :
  Promise_all ps st =
  (match first_rejection ps with
   | Some message => Throw message
   | None => Normal (bodies ps)
   end, st).
Proof.
  unfold Promise_all. induction ps as [|[body|m] ps IH]; try reflexivity.
  simpl. unfold bind at 1. simpl. unfold bind at 1. rewrite IH.
  destruct (first_rejection ps); reflexivity.
Qed.

Lemma send_run (c : Call) (st : St) :
  exists r st',
    send c st = (Normal r, st') /\
    events st' = events st ++ [Called c r] /\ page st' = page st /\
    r = fst (respond (server st) c).
Proof.
  unfold send. destruct (respond (server st) c) as [r s'].
  exists r. eexists. repeat split.
Qed.

Lemma batch_responses del items evs ps :
  batch_events del items evs ps ->
  responses evs = ps /\ unreadable (JArr items) = None.
Proof.
  induction 1 as [|x xs r evs ps N B [IH1 IH2]]; [now split|].
  simpl in *. rewrite IH1. split; [reflexivity|].
  destruct x; try contradiction; exact IH2.
Qed.

Lemma first_rejection_in evs message :
  first_rejection (responses evs) = Some message -> rejected_with evs message.
Proof.
  induction evs as [|[c [body|m]|q|f j] evs IH]; simpl; try discriminate;
    try (intros F; destruct (IH F) as [c' I]; exists c'; now right).
  intros [= ->]. exists c. now left.
Qed.

Lemma unreadable_malformed body kind :
  unreadable body = Some kind -> ~ record_list body.
Proof.
  intros U (items & -> & F). simpl in U.
  destruct (existsb _ items) eqn:E; [|discriminate U].
  apply existsb_exists in E as (x & I & N). rewrite Forall_forall in F.
  destruct x; try discriminate N. now apply (F JNull I).
Qed.

Lemma batch_resolved del items evs ps :
  batch_events del items evs ps -> first_rejection ps = None ->
  Forall2 (deleted del) items evs.
Proof.
  induction 1 as [|x xs r evs ps N B IH]; [constructor|].
  destruct r as [body|m]; simpl; [|discriminate].
  intros F. constructor; [now exists body | now apply IH].
Qed.

Section Deleting.

Variable del : value -> Call.
Hypothesis del_clearing : forall id, clearing_call (del id) = true.

Let delete_one (x : json) : M Response :=
  id <- lift (get (Some x) "id") ;; send (del id).

Lemma delete_each_run (items : list json) :
  forall st,
  exists evs r st',
    mapM delete_one items st = (r, st') /\
    events st' = events st ++ evs /\ page st' = page st /\
    Forall (fun e => clearing_event e = true) evs /\ Forall answered evs /\
    Forall (sent_by del) evs /\
    match r with
    | Normal ps => batch_events del items evs ps
    | Throw m =>
        m = TypeError_message (PropertyOfNullish "id") /\
        unreadable (JArr items) = Some (PropertyOfNullish "id")
    end.
Proof.
  induction items as [|x items IH]; intros st.
  - exists [], (Normal []), st. split; [reflexivity|].
    split; [now rewrite app_nil_r|]. repeat split; constructor.
  - assert (Hsent : forall r, sent_by del (Called (del (get_optional (Some x) "id")) r))
      by (intros r; now eexists _, r).
    simpl mapM. unfold bind at 1, delete_one at 1, bind at 1, lift.
    destruct (match x with JNull => true | _ => false end) eqn:N.
    + destruct x; try discriminate N. simpl.
      exists [], (Throw (TypeError_message (PropertyOfNullish "id"))), st.
      split; [reflexivity|]. split; [now rewrite app_nil_r|].
      repeat split; constructor.
    + assert (NN : x <> JNull) by (intros ->; discriminate N).
      rewrite (get_not_null x "id" NN).
      destruct (send_run (del (get_optional (Some x) "id")) st)
        as (r & st1 & Hs & He & Hp & Hr).
      rewrite Hs.
      destruct (IH st1) as (evs & r2 & st2 & Hm & He2 & Hp2 & Hc & Ha & Hs' & Hres).
      unfold bind at 1. rewrite Hm.
      exists (Called (del (get_optional (Some x) "id")) r :: evs).
      destruct r2 as [ps|m].
      * exists (Normal (r :: ps)), st2. split; [reflexivity|].
        split; [rewrite He2, He, <- app_assoc; reflexivity|].
        split; [now rewrite Hp2|].
        split; [constructor; [apply del_clearing | exact Hc]|].
        split; [constructor; [now exists (server st) | exact Ha]|].
        split; [constructor; [apply Hsent | exact Hs']|].
        now constructor.
      * exists (Throw m), st2. split; [reflexivity|].
        split; [rewrite He2, He, <- app_assoc; reflexivity|].
        split; [now rewrite Hp2|].
        split; [constructor; [apply del_clearing | exact Hc]|].
        split; [constructor; [now exists (server st) | exact Ha]|].
        split; [constructor; [apply Hsent | exact Hs']|].
        destruct Hres as [T U]. split; [exact T|].
        simpl in *. now rewrite N.
Qed.

(** The deletion of one category: a request per record, all sent before
    any is awaited; it completes when every one of them resolved, and fails
    with the message of the first that was rejected, or with that of the
    [TypeError] of a response that is not a list of records. *)
Lemma deleteAll_run (body : json) (st : St) :
  exists evs r st',
    deleteAll (Some body) del st = (r, st') /\
    events st' = events st ++ evs /\ page st' = page st /\
    Forall (fun e => clearing_event e = true) evs /\ Forall answered evs /\
    match r with
    | Normal _ => exists items, body = JArr items /\ Forall2 (deleted del) items evs
    | Throw m => batch_failed del body evs m
    end.
Proof.
  unfold deleteAll, Array_map.
  assert (Hbad : forall kind, unreadable body = Some kind ->
            exists evs r st',
              (_ <- (ps <- throw (TypeError_message kind) ;; Promise_all ps) ;; ret tt) st
              = (r, st') /\
              events st' = events st ++ evs /\ page st' = page st /\
              Forall (fun e => clearing_event e = true) evs /\ Forall answered evs /\
              match r with
              | Normal _ => exists items, body = JArr items /\ Forall2 (deleted del) items evs
              | Throw m => batch_failed del body evs m
              end).
  { intros kind Hx. exists [], (Throw (TypeError_message kind)), st.
    split; [reflexivity|]. split; [now rewrite app_nil_r|].
    split; [reflexivity|]. split; [constructor|]. split; [constructor|].
    split; [constructor|]. now rewrite Hx. }
  destruct body as [| | | |items|]; try (now apply Hbad).
  fold delete_one.
  destruct (delete_each_run items st)
    as (evs & r & st1 & Hm & He & Hp & Hc & Ha & Hs & Hres).
  exists evs. unfold bind at 1, bind at 1. rewrite Hm.
  destruct r as [ps|m].
  - destruct (batch_responses _ _ _ _ Hres) as [Rs U].
    rewrite Promise_all_run. destruct (first_rejection ps) as [m|] eqn:F.
    + exists (Throw m), st1. repeat split; try assumption.
      rewrite U, Rs. exact F.
    + exists (Normal tt), st1. repeat split; try assumption.
      exists items. split; [reflexivity|]. eapply batch_resolved; eassumption.
  - exists (Throw m), st1. repeat split; try assumption.
    destruct Hres as [T U]. now rewrite U.
Qed.

End Deleting.

Lemma fetchAll_run (st : St) :
  exists r1 r2 r3 st',
    fetchAll st =
    (match first_rejection [r1; r2; r3] with
     | Some message => Throw message
     | None => Normal (bodies [r1; r2; r3])
     end, st') /\
    events st' = events st ++ reads r1 r2 r3 /\ page st' = page st /\
    Forall answered (reads r1 r2 r3).
Proof.
  unfold fetchAll.
  destruct (send_run getExpenses st) as (r1 & s1 & H1 & E1 & P1 & A1).
  destruct (send_run getBudgets s1) as (r2 & s2 & H2 & E2 & P2 & A2).
  destruct (send_run getSavings s2) as (r3 & s3 & H3 & E3 & P3 & A3).
  exists r1, r2, r3, s3.
  unfold bind at 1. rewrite H1. unfold bind at 1. rewrite H2.
  unfold bind at 1. rewrite H3. rewrite Promise_all_run.
  split; [reflexivity|].
  split; [rewrite E3, E2, E1, <- !app_assoc; reflexivity|].
  split; [now rewrite P3, P2, P1|].
  repeat constructor; eexists; eassumption.
Qed.

Lemma first_rejection_rejected r1 r2 r3 message :
  first_rejection [r1; r2; r3] = Some message ->
  rejected_with (reads r1 r2 r3) message.
Proof.
  intros F.
  destruct r1 as [b1|m1]; [|injection F as <-; eexists; left; reflexivity].
  destruct r2 as [b2|m2]; [|injection F as <-; eexists; right; left; reflexivity].
  destruct r3 as [b3|m3]; [discriminate F|].
  injection F as <-. eexists. right. right. left. reflexivity.
Qed.

(** A failed batch has a rejected request, or a response that is not a list
    of records, to show for it. *)
Lemma batch_failed_failure (del : value -> Call) (body : json) evs m :
  batch_failed del body evs m ->
  rejected_with evs m \/ (type_error m /\ ~ record_list body).
Proof.
  intros [_ B]. destruct (unreadable body) as [kind|] eqn:U.
  - right. split; [now exists kind | now apply (unreadable_malformed body kind)].
  - left. now apply first_rejection_in.
Qed.

Lemma clearExisting_run (st : St) :
  exists evs r st',
    clearExisting st = (r, st') /\
    events st' = events st ++ evs /\ page st' = page st /\
    Forall (fun e => clearing_event e = true) evs /\ Forall answered evs /\
    match r with
    | Normal _ => cleared evs
    | Throw m => clearing_failed evs m
    end.
Proof.
  unfold clearExisting.
  destruct (fetchAll_run st) as (r1 & r2 & r3 & s0 & Hf & E0 & P0 & A0).
  unfold bind at 1. rewrite Hf.
  assert (C0 : Forall (fun e => clearing_event e = true) (reads r1 r2 r3))
    by (repeat constructor).
  destruct (first_rejection [r1; r2; r3]) as [m|] eqn:F.
  { exists (reads r1 r2 r3), (Throw m), s0. repeat split; try assumption.
    now constructor. }
  destruct r1 as [b1|], r2 as [b2|], r3 as [b3|]; try discriminate F. clear F.
  simpl bodies. simpl nth_error.
  destruct (deleteAll_run deleteExpense (fun _ => eq_refl) b1 s0)
    as (e1 & q1 & s1 & H1 & E1 & P1 & C1 & A1 & R1).
  unfold bind at 1. rewrite H1.
  destruct q1 as [[]|m].
  2:{ exists (reads (Resolve b1) (Resolve b2) (Resolve b3) ++ e1), (Throw m), s1.
      split; [reflexivity|]. split; [rewrite E1, E0, <- app_assoc; reflexivity|].
      split; [now rewrite P1|]. split; [rewrite !Forall_app; auto|].
      split; [rewrite !Forall_app; auto|].
      now apply failed_deleting_expenses. }
  destruct R1 as (ex & -> & D1).
  destruct (deleteAll_run deleteBudget (fun _ => eq_refl) b2 s1)
    as (e2 & q2 & s2 & H2 & E2 & P2 & C2 & A2 & R2).
  unfold bind at 1. rewrite H2.
  destruct q2 as [[]|m].
  2:{ exists (reads (Resolve (JArr ex)) (Resolve b2) (Resolve b3) ++ e1 ++ e2), (Throw m), s2.
      split; [reflexivity|].
      split; [rewrite E2, E1, E0, <- !app_assoc; reflexivity|].
      split; [now rewrite P2, P1|]. split; [rewrite !Forall_app; auto|].
      split; [rewrite !Forall_app; auto|].
      now apply failed_deleting_budgets. }
  destruct R2 as (bu & -> & D2).
  destruct (deleteAll_run deleteSaving (fun _ => eq_refl) b3 s2)
    as (e3 & q3 & s3 & H3 & E3 & P3 & C3 & A3 & R3).
  exists (reads (Resolve (JArr ex)) (Resolve (JArr bu)) (Resolve b3) ++ e1 ++ e2 ++ e3), q3, s3.
  split; [exact H3|].
  split; [rewrite E3, E2, E1, E0, <- !app_assoc; reflexivity|].
  split; [now rewrite P3, P2, P1|].
  split; [rewrite !Forall_app; auto|].
  split; [rewrite !Forall_app; auto|].
  destruct q3 as [[]|m].
  - destruct R3 as (sa & -> & D3). now exists ex, bu, sa, e1, e2, e3.
  - now apply failed_deleting_savings.
Qed.

(** A failed clearing phase has a rejected request or a malformed response
    to show for it. *)
Lemma clearing_failed_failure evs message :
  clearing_failed evs message -> clearing_failure evs message.
Proof.
  intros [r1 r2 r3 m F
         |b1 b2 b3 dE m B
         |ex b2 b3 dE dB m _ B
         |ex bu b3 dE dB dS m _ _ B]; try apply batch_failed_failure in B.
  - left. now apply first_rejection_rejected.
  - destruct B as [(c & I)|(T & N)].
    + left. exists c. apply in_or_app. now right.
    + right. split; [exact T|]. exists getExpenses, b1.
      split; [reflexivity|]. split; [now left | exact N].
  - destruct B as [(c & I)|(T & N)].
    + left. exists c. apply in_or_app. right. apply in_or_app. now right.
    + right. split; [exact T|]. exists getBudgets, b2.
      split; [reflexivity|]. split; [right; now left | exact N].
  - destruct B as [(c & I)|(T & N)].
    + left. exists c. apply in_or_app. right. apply in_or_app. right.
      apply in_or_app. now right.
    + right. split; [exact T|]. exists getSavings, b3.
      split; [reflexivity|]. split; [right; right; now left | exact N].
Qed.

(** ** A whole run of [runImport] *)

Lemma core_fields (p p' : PageState) :
  core p' = core p ->
  info p' = info p /\ pendingImport p' = pendingImport p /\ importing p' = importing p.
Proof. unfold core. intros [= ]. auto. Qed.

Lemma runImport_run (st : St) (name : string) (doc : json) (payload : BackupPayload) :
  pendingImport (page st) = Some (name, doc) ->
  asBackupPayload doc = Some payload ->
  exists st',
    runImport true st = Some st' /\
    importing (page st') = false /\ importProgress (page st') = None /\
    run_of st payload st'.
Proof.
  intros Hpend Hdoc. unfold runImport. rewrite Hpend, Hdoc. simpl negb. cbv iota.
  match goal with
  | |- context [snd ?run] => destruct run as [r st'] eqn:Hrun
  end.
  exists st'. split; [reflexivity|].
  unfold bind at 1, setImporting at 1, update_page at 1 in Hrun.
  unfold bind at 1, setImportProgress at 1, bind at 1, update_page at 1, log at 1 in Hrun.
  unfold bind at 1, setInfo at 1, update_page at 1 in Hrun.
  cbn [page server events importing importProgress info busy currency dateFmt numFmt
       firstDay pendingImport] in Hrun.
  match type of Hrun with
  | try_finally _ _ ?s = _ => set (st0 := s) in Hrun
  end.
  assert (E0 : events st0 = events st ++ [placeholder]) by reflexivity.
  assert (P0 : pendingImport (page st0) = pendingImport (page st)) by reflexivity.
  unfold try_finally, try_catch, replaceAll in Hrun.
  destruct (clearExisting_run st0) as (ev1 & q1 & s1 & H1 & E1 & P1 & C1 & A1 & R1).
  unfold bind at 1 in Hrun. rewrite H1 in Hrun.
  destruct q1 as [[]|m].
  2:{ injection Hrun as <- <-. cbn. split; [reflexivity|]. split; [reflexivity|].
      apply (run_failed_clearing _ _ _ ev1 m); cbn; try assumption; try reflexivity.
      - rewrite E1, E0, <- app_assoc. reflexivity.
      - now rewrite P1. }
  destruct (restore_run payload s1) as (ev2 & q2 & s2 & H2 & E2 & P2 & R2).
  unfold bind at 1 in Hrun. rewrite H2 in Hrun.
  apply core_fields in P2 as (I2 & Pe2 & Im2).
  destruct q2 as [[]|m].
  2:{ injection Hrun as <- <-. cbn. split; [reflexivity|]. split; [reflexivity|].
      apply (run_failed_restoring _ _ _ ev1 ev2 m); cbn; try assumption; try reflexivity.
      - rewrite E2, E1, E0, <- !app_assoc. reflexivity.
      - now rewrite Pe2, P1. }
  unfold bind at 1, setPendingImport at 1, update_page at 1 in Hrun.
  unfold bind at 1, setInfo at 1, update_page at 1 in Hrun.
  unfold refreshCounts_start in Hrun.
  unfold bind at 1, setBusy at 1, update_page at 1 in Hrun.
  cbn [page server events importing importProgress info busy currency dateFmt numFmt
       firstDay pendingImport] in Hrun.
  match type of Hrun with
  | context [bind (send getExpenses) _ ?s] => set (s3 := s) in Hrun
  end.
  destruct (send_run getExpenses s3) as (r1 & t1 & G1 & F1 & Q1 & _).
  destruct (send_run getBudgets t1) as (r2 & t2 & G2 & F2 & Q2 & _).
  destruct (send_run getSavings t2) as (r3 & t3 & G3 & F3 & Q3 & _).
  unfold bind at 1 in Hrun. rewrite G1 in Hrun.
  unfold bind at 1 in Hrun. rewrite G2 in Hrun.
  unfold bind at 1 in Hrun. rewrite G3 in Hrun.
  injection Hrun as <- <-.
  cbn. rewrite Q3, Q2, Q1. cbn.
  split; [reflexivity|]. split; [reflexivity|].
  apply (run_completed _ _ _ ev1 ev2 r1 r2 r3); cbn; try assumption; try reflexivity.
  rewrite F3, F2, F1. cbn. rewrite E2, E1, E0, <- !app_assoc. reflexivity.
Qed.

(** ** What the events of a plan show *)

Lemma follow_up_is_update k x body u :
  follow_up k x body = Some u -> creating_call u = false.
Proof.
  destruct k; try discriminate. unfold follow_up.
  destruct (_ && _); [|discriminate]. now intros [= <-].
Qed.

Lemma creation_is_creating k x : creating_call (creation_of k x) = true.
Proof. destruct k; reflexivity. Qed.

Lemma item_calls k x evs r :
  item_events k x evs r ->
  reports evs = [] /\
  (created evs = [] \/ created evs = [creation_of k x]) /\
  (r = Normal tt -> created evs = [creation_of k x] /\
                    Forall (fun e => rejected e = false) evs).
Proof.
  intros I. split; [destruct I; reflexivity|].
  destruct I as [N|m N|body N F|body u b N F|body u m N F]; simpl;
    rewrite ?creation_is_creating, ?(follow_up_is_update _ _ _ _ F); simpl;
    (split; [auto|]); intros E; try discriminate E; split; auto.
Qed.

Lemma item_failed k x evs message :
  item_events k x evs (Throw message) ->
  Forall (fun e => rejected e = false) (removelast evs) /\
  (ends_with_rejection evs message \/ (evs = [] /\ type_error message)).
Proof.
  intros I. inversion I; subst; simpl.
  - split; [constructor|]. right. split; [reflexivity | now eexists].
  - split; [constructor|]. left. now exists [], (creation_of k x).
  - split; [repeat constructor|]. left.
    now exists [Called (creation_of k x) (Resolve created0)], u.
Qed.

Lemma created_app l l' : created (l ++ l') = created l ++ created l'.
Proof. apply flat_map_app. Qed.

Lemma reports_app l l' : reports (l ++ l') = reports l ++ reports l'.
Proof. apply flat_map_app. Qed.

Lemma creations_app l l' : creations (l ++ l') = creations l ++ creations l'.
Proof. apply flat_map_app. Qed.

Lemma creations_restore k items : creations (map (Restore k) items) = map (creation_of k) items.
Proof. induction items as [|x items IH]; simpl; [reflexivity | now rewrite IH]. Qed.

Lemma creations_plan payload : creations (plan payload) = all_creations payload.
Proof.
  unfold plan, all_creations.
  change (Announce Expense :: ?l) with ([Announce Expense] ++ l).
  rewrite !creations_app, creations_restore. simpl. f_equal.
  change (Announce Budget :: ?l) with ([Announce Budget] ++ l).
  rewrite !creations_app, creations_restore. simpl. f_equal.
  apply creations_restore.
Qed.

Lemma planned_category total k items : forall rest done,
  planned_reports total (Announce k :: map (Restore k) items ++ rest) done =
  map (fun i => {| step := step_of k; current := i; total := total |})
      (seq done (S (length items)))
  ++ planned_reports total rest (done + length items).
Proof.
  induction items as [|x items IH]; intros rest done.
  - simpl. now rewrite Nat.add_0_r.
  - specialize (IH rest (S done)). simpl in *. rewrite IH.
    now rewrite Nat.add_succ_r.
Qed.

Lemma planned_plan payload :
  planned_reports (total_of payload) (plan payload) 0 = all_reports payload.
Proof.
  unfold plan, all_reports. rewrite planned_category. f_equal.
  rewrite planned_category. simpl Nat.add. f_equal.
  pose proof (planned_category (total_of payload) Saving (savings payload) []
                (length (expenses payload) + length (budgets payload))) as P.
  rewrite !app_nil_r in P. exact P.
Qed.

Lemma planned_total total steps : forall done,
  Forall (fun p => Settings.total p = total) (planned_reports total steps done).
Proof.
  induction steps as [|[k|k x] steps IH]; intros done; simpl; constructor; auto.
Qed.

Lemma last_cons {A : Type} (a d : A) (l : list A) : last (a :: l) d = last l a.
Proof.
  revert a d. induction l as [|b l IH]; intros a d; [reflexivity|].
  change (last (b :: l) d = last (b :: l) a). now rewrite (IH b d), (IH b a).
Qed.

Lemma updates_follow_app (l l' : list Event) : forall prev,
  updates_follow_creations prev l ->
  updates_follow_creations (last (map Some l) prev) l' ->
  updates_follow_creations prev (l ++ l').
Proof.
  induction l as [|e l IH]; intros prev; [intros _ F; exact F|].
  intros [P F] F'. split; [exact P|]. apply IH; [exact F|].
  simpl map in F'. now rewrite last_cons in F'.
Qed.

Lemma item_updates k x evs r :
  item_events k x evs r -> forall prev, updates_follow_creations prev evs.
Proof.
  intros I prev.
  inversion I as [N|m N|created N F|created u b N F|created u m N F]; subst; simpl;
    try (destruct k; now repeat split);
    (destruct k; try discriminate F; unfold follow_up in F;
     destruct (_ && _); [injection F as <-|discriminate F]; now repeat split).
Qed.

Lemma plan_updates total steps done evs r :
  plan_events total steps done evs r -> forall prev, updates_follow_creations prev evs.
Proof.
  induction 1 as [done|k rest done evs r P IH|k x rest done evs m I
                  |k x rest done evs evs' r I P IH]; intros prev.
  - constructor.
  - split; [constructor | apply IH].
  - now apply (item_updates k x evs (Throw m)).
  - apply updates_follow_app; [now apply (item_updates k x evs (Normal tt))|].
    split; [constructor | apply IH].
Qed.

(** What a run of a plan leaves in the log: the creation requests and the
    reports it asked for, up to where it stopped; no rejection before the
    last event; and, when it failed, the message of the rejection it ended
    on (or of the [TypeError] of an entry that could not be read). *)
Lemma plan_run total steps done evs r :
  plan_events total steps done evs r ->
  (exists n, created evs = firstn n (creations steps)) /\
  (exists n, reports evs = firstn n (planned_reports total steps done)) /\
  Forall (fun e => rejected e = false) (removelast evs) /\
  Forall (fun e => clearing_event e = false) evs /\
  match r with
  | Normal _ =>
      created evs = creations steps /\
      reports evs = planned_reports total steps done /\
      Forall (fun e => rejected e = false) evs
  | Throw m => ends_with_rejection evs m \/ type_error m
  end.
Proof.
  induction 1 as [done|k rest done evs r P IH|k x rest done evs m I
                  |k x rest done evs evs' r I P IH].
  - split; [now exists 0%nat|]. split; [now exists 0%nat|]. repeat split; constructor.
  - destruct IH as ((n & C) & (n' & R) & L & Cl & Hr).
    split; [now exists n|]. split; [exists (S n'); simpl; now rewrite R|].
    split.
    { destruct evs; [constructor|]. change (Forall (fun e => rejected e = false)
        (report total k done :: removelast (e :: evs))). now constructor. }
    split; [now constructor|].
    destruct r as [[]|m].
    + destruct Hr as (C' & R' & F). simpl. rewrite R'. repeat split; auto.
    + destruct Hr as [(l & c & ->)|T]; [|now right].
      left. now exists (report total k done :: l), c.
  - destruct (item_calls _ _ _ _ I) as (R & C & _).
    destruct (item_failed _ _ _ _ I) as (L & E).
    split; [destruct C as [-> | ->]; [now exists 0%nat | now exists 1%nat]|].
    split; [exists 0%nat; now rewrite R|]. split; [exact L|].
    split; [inversion I; subst; repeat constructor;
            try (destruct k; reflexivity);
            match goal with
            | F : follow_up _ _ _ = Some _ |- _ =>
                destruct k; try discriminate F; unfold follow_up in F;
                destruct (_ && _); [now injection F as <- | discriminate F]
            end|].
    destruct E as [E|[_ T]]; [now left | now right].
  - destruct (item_calls _ _ _ _ I) as (R & _ & C).
    destruct (C eq_refl) as [C' F]. clear C.
    destruct IH as ((n & Cn) & (n' & Rn) & L & Cl & Hr).
    split; [exists (S n); rewrite created_app, C'; simpl; now rewrite Cn|].
    split; [exists (S n'); rewrite reports_app, R; simpl; now rewrite Rn|].
    split.
    { rewrite removelast_app by discriminate. apply Forall_app. split; [exact F|].
      destruct evs'; [repeat constructor|].
      change (Forall (fun e => rejected e = false)
                (report total k (S done) :: removelast (e :: evs'))). now constructor. }
    split.
    { apply Forall_app. split; [|now constructor].
      inversion I; subst; repeat constructor;
        try (destruct k; reflexivity);
        match goal with
        | F : follow_up _ _ _ = Some _ |- _ =>
            destruct k; try discriminate F; unfold follow_up in F;
            destruct (_ && _); [now injection F as <- | discriminate F]
        end. }
    destruct r as [[]|m].
    + destruct Hr as (C'' & R'' & F'). rewrite created_app, reports_app, C', R.
      simpl. rewrite C'', R''.
      repeat split; auto. apply Forall_app. split; [exact F | now constructor].
    + destruct Hr as [(l & c & ->)|T]; [|now right].
      left. exists (evs ++ report total k (S done) :: l), c.
      now rewrite <- app_assoc.
Qed.

(** A plan fails on a rejected request, which is then its last event, or
    on an entry that is [null]. *)
Lemma plan_failed total steps done evs message :
  plan_events total steps done evs (Throw message) ->
  ends_with_rejection evs message \/
  exists k, In (Restore k JNull) steps /\
            message = TypeError_message (PropertyOfNullish (first_key k)).
Proof.
  remember (Throw message) as r eqn:Hr. intros P. revert Hr.
  induction P as [done|k rest done evs r P IH|k x rest done evs m I
                  |k x rest done evs evs' r I P IH]; intros Hr.
  - discriminate Hr.
  - destruct (IH Hr) as [(l & c & ->)|(k' & In' & M)].
    + left. now exists (report total k done :: l), c.
    + right. exists k'. split; [now right | exact M].
  - injection Hr as ->.
    inversion I as [N| m' N | | |created u m' N F]; subst.
    + right. exists k. split; [now left | reflexivity].
    + left. now exists [], (creation_of k x).
    + left. now exists [Called (creation_of k x) (Resolve created)], u.
  - destruct (IH Hr) as [(l & c & ->)|(k' & In' & M)].
    + left. exists (evs ++ report total k (S done) :: l), c. now rewrite <- app_assoc.
    + right. exists k'. split; [now right | exact M].
Qed.

Lemma plan_entries payload k x :
  In (Restore k x) (plan payload) -> In x (entries k payload).
Proof.
  unfold plan. intros I.
  repeat (apply in_app_or in I as [I|I] || destruct I as [I|I]); try discriminate I;
    try (apply in_map_iff in I as (y & [= <- <-] & I); exact I).
Qed.

Lemma recreation_failed payload evs message :
  plan_events (total_of payload) (plan payload) 0 evs (Throw message) ->
  recreation_failure payload evs message.
Proof.
  intros P. destruct (plan_failed _ _ _ _ _ P) as [E|(k & I & M)]; [now left|].
  right. exists k. split; [now apply plan_entries | exact M].
Qed.

Lemma cleared_resolved evs :
  cleared evs -> Forall (fun e => rejected e = false) evs.
Proof.
  intros (ex & bu & sa & dE & dB & dS & -> & D1 & D2 & D3).
  rewrite !Forall_app. repeat split; try (repeat constructor);
    match goal with
    | D : Forall2 _ _ ?d |- Forall _ ?d =>
        clear - D; induction D as [|? ? ? ? [? ->]]; constructor; auto
    end.
Qed.

Lemma cleared_clearing evs :
  cleared evs -> Forall (fun e => clearing_event e = true) evs.
Proof.
  intros (ex & bu & sa & dE & dB & dS & -> & D1 & D2 & D3).
  rewrite !Forall_app. repeat split; try (repeat constructor);
    match goal with
    | D : Forall2 _ _ ?d |- Forall _ ?d =>
        clear - D; induction D as [|? ? ? ? [? ->]]; constructor; auto
    end.
Qed.

Lemma clearing_silent evs :
  Forall (fun e => clearing_event e = true) evs -> reports evs = [] /\ created evs = [].
Proof.
  induction 1 as [|e evs He _ [IH1 IH2]]; [now split|].
  destruct e as [c r|p|f j]; try discriminate He. simpl. rewrite IH1, IH2.
  destruct c; try discriminate He; now split.
Qed.

(** A failed clearing phase has a rejected request, or a read that did not
    resolve with a list of records. *)
Lemma clearing_failed_unsound evs message :
  clearing_failed evs message ->
  Forall (fun e => rejected e = false) evs -> well_read evs -> False.
Proof.
  intros F R W. destruct (clearing_failed_failure _ _ F) as [(c & I)|(_ & c & body & Rd & I & N)].
  - rewrite Forall_forall in R. specialize (R _ I). discriminate R.
  - exact (N (W c body Rd I)).
Qed.

(** The creation requests of a confirmed run: an initial part of those of
    the staged document, and all of them when the run clears the pending
    document. *)
Lemma runImport_creations (st : St) (name : string) (doc : json) (payload : BackupPayload) :
  pendingImport (page st) = Some (name, doc) ->
  asBackupPayload doc = Some payload ->
  exists st' run,
    runImport true st = Some st' /\
    events st' = events st ++ placeholder :: run /\
    (exists n, created run = firstn n (all_creations payload)) /\
    (pendingImport (page st') = None -> created run = all_creations payload).
Proof.
  intros Hpending Htyped.
  destruct (runImport_run st name doc payload Hpending Htyped)
    as (st' & Hrun & _ & _ & R).
  exists st'.
  destruct R as [clearing m E C A F Pe I
                |clearing recreation m E A C P Pe I
                |clearing recreation r1 r2 r3 E A C P Pe I].
  - destruct (clearing_silent _ C) as [_ Cc].
    exists clearing. split; [exact Hrun|]. split; [exact E|]. rewrite Cc.
    split; [now exists 0%nat|].
    intros N. rewrite N, Hpending in Pe. discriminate Pe.
  - destruct (clearing_silent _ (cleared_clearing _ C)) as [_ Cc].
    destruct (plan_run _ _ _ _ _ P) as ((n & Cr) & _).
    exists (clearing ++ recreation). split; [exact Hrun|]. split; [exact E|].
    rewrite created_app, Cc, creations_plan in *. simpl.
    split; [now exists n|].
    intros N. rewrite N, Hpending in Pe. discriminate Pe.
  - destruct (clearing_silent _ (cleared_clearing _ C)) as [_ Cc].
    destruct (plan_run _ _ _ _ _ P) as (_ & _ & _ & _ & Call & _).
    exists (clearing ++ recreation ++ reads r1 r2 r3).
    split; [exact Hrun|]. split; [exact E|].
    rewrite !created_app, Cc, Call, creations_plan. simpl. rewrite app_nil_r.
    split; [|reflexivity].
    exists (length (all_creations payload)). now rewrite firstn_all.
Qed.

(** ** Staging *)

(** C1: staging a file sends no request and leaves the server alone.  A
    text that parses to an acceptable document (an object with an array in
    [expenses], [budgets] or [savings]) becomes the pending import, with the
    notice "Ready to import"; any other text leaves the pending import as it
    was and sets an error message (the parser's, "Invalid backup file.", or
    the engine's for [null]).  A staged document is applied only by a
    confirmed [runImport]: declined, [runImport] changes nothing. *)
Theorem handleFile_spec (f : File) (st : St) :
  let st' := snd (handleFile (Some f) st) in
  server st' = server st /\ events st' = events st /\
  match JSON_parse (file_text f) with
  | Normal doc =>
      if acceptable doc
      then pendingImport (page st') = Some (file_name f, doc) /\
           info (page st') = ("Ready to import: " ++ file_name f)%string
      else pendingImport (page st') = pendingImport (page st) /\
           info (page st') = refusal doc
  | Throw message =>
      pendingImport (page st') = pendingImport (page st) /\
      info (page st') = message
  end /\
  runImport false st' = Some st' /\
  snd (handleFile None st) = st.
Proof.
  intros st'.
  assert (Hdecline : forall s : St, runImport false s = Some s).
  { intros s. unfold runImport. destruct (pendingImport (page s)) as [[]|]; reflexivity. }
  unfold st', handleFile, try_catch, bind, lift.
  destruct (JSON_parse (file_text f)) as [doc|message]; [|repeat split; apply Hdecline].
  destruct doc as [| | | | |fields]; try (repeat split; apply Hdecline).
  unfold acceptable. cbn [typeof_object get].
  destruct (Array_isArray (lookup "expenses" fields));
    [repeat split; apply Hdecline|].
  destruct (Array_isArray (lookup "budgets" fields));
    [repeat split; apply Hdecline|].
  destruct (Array_isArray (lookup "savings" fields)); repeat split; apply Hdecline.
Qed.

(** ** Export *)

(** C7: [downloadJson] sends the three reads and nothing else.  When all
    three resolve, one file is downloaded, holding their bodies, and the
    notice is "Backup downloaded."; when one is rejected, no file is
    produced and the notice is the message of that rejection (of the first
    one, when several are). *)
Theorem downloadJson_spec (st : St) :
  let st' := snd (downloadJson st) in
  exists r1 r2 r3 files,
    events st' = events st ++ reads r1 r2 r3 ++ files /\
    busy (page st') = false /\
    pendingImport (page st') = pendingImport (page st) /\
    (forall b1 b2 b3,
       r1 = Resolve b1 -> r2 = Resolve b2 -> r3 = Resolve b3 ->
       info (page st') = "Backup downloaded."%string /\
       exists meta,
         files = [Downloaded "finance-backup.json"
                    (JObj [("expenses"%string, b1); ("budgets"%string, b2);
                           ("savings"%string, b3); ("meta"%string, meta)])]) /\
    (forall message,
       first_rejection [r1; r2; r3] = Some message ->
       files = [] /\ info (page st') = message).
Proof.
  intros st'. unfold st'. destruct (downloadJson st) as [r fin] eqn:Hrun.
  unfold downloadJson in Hrun.
  unfold bind at 1, setInfo at 1, update_page at 1 in Hrun.
  unfold try_finally, try_catch in Hrun.
  unfold bind at 1, setBusy at 1, update_page at 1 in Hrun.
  cbn [page server events importing importProgress info busy currency dateFmt numFmt
       firstDay pendingImport] in Hrun.
  match type of Hrun with
  | context [bind fetchAll _ ?s] => set (st0 := s) in Hrun
  end.
  destruct (fetchAll_run st0) as (r1 & r2 & r3 & s1 & Hf & E1 & P1 & _).
  unfold bind at 1 in Hrun. rewrite Hf in Hrun.
  exists r1, r2, r3.
  destruct (first_rejection [r1; r2; r3]) as [m|] eqn:F.
  - injection Hrun as <- <-. exists []. cbn. rewrite P1, E1. cbn.
    split; [reflexivity|]. split; [reflexivity|]. split; [reflexivity|].
    split; [|now intros message [= <-]].
    intros b1 b2 b3 -> -> ->. discriminate F.
  - destruct r1 as [b1|], r2 as [b2|], r3 as [b3|]; try discriminate F.
    cbn in Hrun. injection Hrun as <- <-. eexists. cbn. rewrite P1, E1. cbn.
    split; [rewrite <- app_assoc; reflexivity|].
    split; [reflexivity|]. split; [reflexivity|].
    split; [|intros message [=]].
    intros ? ? ? [= <-] [= <-] [= <-]. split; [reflexivity|]. eexists. reflexivity.
Qed.

(** ** Applying *)

(** C2: in a confirmed run the events after the placeholder report are the
    clearing phase (reads and deletions only), then the recreation, then the
    reads of the refresh.  Nothing is recreated only when the clearing phase
    failed ([clearing_failed]: a read or a deletion was rejected, or a read
    did not resolve with a list of records), and then nothing follows it.
    Otherwise the clearing phase has completed, with every deletion
    resolved, before the recreation starts; the recreation runs the plan of
    the document, which lists the expenses, then the budgets, then the
    savings ([plan_events]: one step at a time, each step starting when the
    one before has ended; [item_events]: the update of a saving comes right
    after its creation and before the report that precedes the next entry).
    The creation requests sent are an initial part of those of the document
    in that order, and all of them when the recreation completes, which it
    has whenever the pending document is cleared; no request but the last
    was rejected; and every update request comes right after a resolved
    creation of a saving, with the identifier of its response. *)
Theorem runImport_order (st : St) (name : string) (doc : json) (payload : BackupPayload)
  (Hpending : pendingImport (page st) = Some (name, doc))
  (Htyped : asBackupPayload doc = Some payload) :
  exists st' clearing recreation refresh,
    runImport true st = Some st' /\
    events st' = events st ++ placeholder :: clearing ++ recreation ++ refresh /\
    Forall (fun e => clearing_event e = true) clearing /\
    Forall (fun e => clearing_event e = false) recreation /\
    ((exists message, clearing_failed clearing message) /\
     recreation = [] /\ refresh = []
     \/
     cleared clearing /\
     exists r,
       plan_events (total_of payload) (plan payload) 0 recreation r /\
       (exists n, created recreation = firstn n (all_creations payload)) /\
       Forall (fun e => rejected e = false) (removelast recreation) /\
       updates_follow_creations None recreation /\
       match r with
       | Normal _ =>
           created recreation = all_creations payload /\
           exists r1 r2 r3, refresh = reads r1 r2 r3
       | Throw _ => refresh = []
       end) /\
    (pendingImport (page st') = None ->
     cleared clearing /\
     plan_events (total_of payload) (plan payload) 0 recreation (Normal tt) /\
     created recreation = all_creations payload /\
     exists r1 r2 r3, refresh = reads r1 r2 r3).
Proof.
  destruct (runImport_run st name doc payload Hpending Htyped)
    as (st' & Hrun & _ & _ & R).
  exists st'.
  destruct R as [clearing m E C A F Pe I
                |clearing recreation m E A C P Pe I
                |clearing recreation r1 r2 r3 E A C P Pe I].
  - exists clearing, [], []. split; [exact Hrun|].
    split; [now rewrite !app_nil_r|]. split; [exact C|]. split; [constructor|].
    split; [left; split; [now exists m | now split]|].
    intros N. rewrite N, Hpending in Pe. discriminate Pe.
  - destruct (plan_run _ _ _ _ _ P) as (Cr & _ & L & NC & _).
    pose proof (plan_updates _ _ _ _ _ P None) as U.
    exists clearing, recreation, []. split; [exact Hrun|].
    split; [now rewrite app_nil_r|]. split; [now apply cleared_clearing|].
    split; [exact NC|]. split.
    + right. split; [exact C|]. exists (Throw m).
      rewrite creations_plan in Cr. repeat split; assumption.
    + intros N. rewrite N, Hpending in Pe. discriminate Pe.
  - destruct (plan_run _ _ _ _ _ P) as (Cr & _ & L & NC & Call & _).
    pose proof (plan_updates _ _ _ _ _ P None) as U.
    exists clearing, recreation, (reads r1 r2 r3). split; [exact Hrun|].
    split; [exact E|]. split; [now apply cleared_clearing|]. split; [exact NC|].
    rewrite creations_plan in Cr, Call. split.
    + right. split; [exact C|]. exists (Normal tt).
      repeat split; try assumption. now exists r1, r2, r3.
    + intros _. repeat split; try assumption. now exists r1, r2, r3.
Qed.

(** C3: a confirmed run ends with [importing] off and the progress display
    cleared, in one of two ways, and which one is decided by what happened.
    Either it completed: the clearing phase and every step of the plan of
    the document went through, no request of the run was rejected, the
    pending document is cleared and the notice is "Import completed." (the
    reads of the refresh follow).  Or it failed, the pending document is
    still there, nothing follows the failure, and the notice is, unchanged,
    the message of the step that failed.  That step is in the clearing
    phase ([clearing_failed]: the batch that failed, the three reads or the
    deletions of one category, which are sent together, is the last thing
    sent, and the message is that of the first rejected request of the
    batch, or that of the [TypeError] of a read that did not resolve with a
    list of records); or it is in the recreation after a completed clearing
    phase ([plan_events] ending in the message: no request before the last
    was rejected, and the message is that of the last request, rejected, or
    of the [TypeError] of reading an entry that is [null]).  So a run in
    which no request is rejected, every read resolves with a list of
    records and no entry of the document is [null] completes. *)
Theorem runImport_outcome (st : St) (name : string) (doc : json) (payload : BackupPayload)
  (Hpending : pendingImport (page st) = Some (name, doc))
  (Htyped : asBackupPayload doc = Some payload) :
  exists st' clearing recreation refresh,
    runImport true st = Some st' /\
    events st' = events st ++ placeholder :: clearing ++ recreation ++ refresh /\
    importing (page st') = false /\ importProgress (page st') = None /\
    (cleared clearing /\
     plan_events (total_of payload) (plan payload) 0 recreation (Normal tt) /\
     Forall (fun e => rejected e = false) (clearing ++ recreation) /\
     (exists r1 r2 r3, refresh = reads r1 r2 r3) /\
     pendingImport (page st') = None /\
     info (page st') = "Import completed."%string
     \/
     exists message,
       refresh = [] /\
       pendingImport (page st') = pendingImport (page st) /\
       info (page st') = message /\
       (clearing_failed clearing message /\
        clearing_failure clearing message /\
        recreation = []
        \/
        cleared clearing /\
        plan_events (total_of payload) (plan payload) 0 recreation (Throw message) /\
        Forall (fun e => rejected e = false) (clearing ++ removelast recreation) /\
        recreation_failure payload recreation message)) /\
    (Forall (fun e => rejected e = false) (clearing ++ recreation) ->
     well_read clearing -> no_null_entry payload ->
     pendingImport (page st') = None /\
     info (page st') = "Import completed."%string).
Proof.
  destruct (runImport_run st name doc payload Hpending Htyped)
    as (st' & Hrun & Im & Pr & R).
  exists st'.
  destruct R as [clearing m E C A F Pe I
                |clearing recreation m E A C P Pe I
                |clearing recreation r1 r2 r3 E A C P Pe I].
  - exists clearing, [], []. split; [exact Hrun|]. split; [now rewrite !app_nil_r|].
    split; [exact Im|]. split; [exact Pr|]. split.
    + right. exists m. split; [reflexivity|]. split; [exact Pe|]. split; [exact I|].
      left. split; [exact F|]. split; [now apply clearing_failed_failure | reflexivity].
    + rewrite app_nil_r. intros Res W _.
      destruct (clearing_failed_unsound _ _ F Res W).
  - destruct (plan_run _ _ _ _ _ P) as (_ & _ & L & _ & _).
    pose proof (recreation_failed _ _ _ P) as Fail.
    exists clearing, recreation, []. split; [exact Hrun|].
    split; [now rewrite app_nil_r|].
    split; [exact Im|]. split; [exact Pr|]. split.
    + right. exists m. split; [reflexivity|]. split; [exact Pe|]. split; [exact I|].
      right. split; [exact C|]. split; [exact P|]. split; [|exact Fail].
      apply Forall_app. split; [now apply cleared_resolved | exact L].
    + intros Res _ Nn. exfalso.
      apply Forall_app in Res as [_ Res].
      destruct Fail as [(l & c & ->)|(k & In' & _)].
      * apply Forall_app in Res as [_ Res]. inversion Res as [|? ? Hr _]. discriminate Hr.
      * exact (Nn k In').
  - destruct (plan_run _ _ _ _ _ P) as (_ & _ & _ & _ & _ & _ & F).
    exists clearing, recreation, (reads r1 r2 r3). split; [exact Hrun|].
    split; [exact E|].
    split; [exact Im|]. split; [exact Pr|]. split.
    + left. split; [exact C|]. split; [exact P|].
      split; [apply Forall_app; split; [now apply cleared_resolved | exact F]|].
      split; [now exists r1, r2, r3|]. now split.
    + intros _ _ _. now split.
Qed.

Lemma cooperative_clears evs message :
  cooperative ->
  Forall (fun e => clearing_event e = true) evs -> Forall answered evs ->
  clearing_failure evs message -> False.
Proof.
  intros Co C A. rewrite Forall_forall in C, A.
  intros [(c & I)|(_ & c & body & Rd & I & N)].
  - specialize (C _ I). destruct (A _ I) as [s E]. specialize (Co s c C).
    simpl in E. now rewrite <- E in Co.
  - specialize (C _ I). destruct (A _ I) as [s E]. specialize (Co s c C).
    simpl in E. rewrite <- E in Co. auto.
Qed.

Lemma Forall_prefix {A : Type} (P : A -> Prop) (n : nat) (l : list A) :
  Forall P l -> Forall P (firstn n l).
Proof.
  intros F. rewrite <- (firstn_skipn n l) in F. now apply Forall_app in F.
Qed.

(** C8: in every confirmed run, the clearing phase and the refresh report
    nothing, and the reports of the recreation are an initial part of
    [all_reports]: per phase the count it starts from and then one more
    after each restored entry ([plan_events]), every one with the same
    total, the combined length of the three arrays; they are all of
    [all_reports] when the run completes.  For a document whose three
    arrays are empty (or absent) no creation request is sent; and when the
    server resolves the reads with lists of records and resolves the
    deletions, the run deletes every record read, reports a total of zero
    in each of the three phases, completes and clears the pending document. *)
Theorem runImport_progress (st : St) (name : string) (doc : json) (payload : BackupPayload)
  (Hpending : pendingImport (page st) = Some (name, doc))
  (Htyped : asBackupPayload doc = Some payload) :
  exists st' clearing recreation refresh,
    runImport true st = Some st' /\
    events st' = events st ++ placeholder :: clearing ++ recreation ++ refresh /\
    reports clearing = [] /\ reports refresh = [] /\
    (exists n, reports recreation = firstn n (all_reports payload)) /\
    Forall (fun p => total p = total_of payload) (reports recreation) /\
    (recreation <> [] ->
     exists r, plan_events (total_of payload) (plan payload) 0 recreation r) /\
    (pendingImport (page st') = None -> reports recreation = all_reports payload) /\
    (expenses payload = [] -> budgets payload = [] -> savings payload = [] ->
     created (clearing ++ recreation ++ refresh) = [] /\
     (cooperative ->
      cleared clearing /\
      recreation = [report 0 Expense 0; report 0 Budget 0; report 0 Saving 0] /\
      (exists r1 r2 r3, refresh = reads r1 r2 r3) /\
      pendingImport (page st') = None /\
      info (page st') = "Import completed."%string)).
Proof.
  destruct (runImport_run st name doc payload Hpending Htyped)
    as (st' & Hrun & _ & _ & R).
  exists st'.
  assert (Hplan : expenses payload = [] -> budgets payload = [] -> savings payload = [] ->
                  forall evs r, plan_events (total_of payload) (plan payload) 0 evs r ->
                  r = Normal tt /\
                  evs = [report 0 Expense 0; report 0 Budget 0; report 0 Saving 0]).
  { intros E1 E2 E3 evs r P. unfold plan, total_of in P. rewrite E1, E2, E3 in P.
    simpl in P. inversion P as [|? ? ? ? ? P1| |]; subst.
    inversion P1 as [|? ? ? ? ? P2| |]; subst.
    inversion P2 as [|? ? ? ? ? P3| |]; subst.
    inversion P3; subst. now split. }
  destruct R as [clearing m E C A F Pe I
                |clearing recreation m E A C P Pe I
                |clearing recreation r1 r2 r3 E A C P Pe I].
  - destruct (clearing_silent _ C) as [Rc Cc].
    exists clearing, [], []. split; [exact Hrun|]. split; [now rewrite !app_nil_r|].
    split; [exact Rc|]. split; [reflexivity|]. split; [now exists 0%nat|].
    split; [constructor|]. split; [now intros N|].
    split; [intros N; rewrite N, Hpending in Pe; discriminate Pe|].
    intros _ _ _. rewrite !app_nil_r. split; [exact Cc|].
    intros Co. destruct (cooperative_clears _ _ Co C A (clearing_failed_failure _ _ F)).
  - destruct (clearing_silent _ (cleared_clearing _ C)) as [Rc Cc].
    destruct (plan_run _ _ _ _ _ P) as ((n & Cr) & (n' & Rr) & _).
    exists clearing, recreation, []. split; [exact Hrun|].
    split; [now rewrite app_nil_r|]. split; [exact Rc|]. split; [reflexivity|].
    rewrite planned_plan in Rr.
    split; [now exists n'|].
    split; [rewrite Rr; apply Forall_prefix; rewrite <- planned_plan; apply planned_total|].
    split; [intros _; now exists (Throw m)|].
    split; [intros N; rewrite N, Hpending in Pe; discriminate Pe|].
    intros E1 E2 E3. destruct (Hplan E1 E2 E3 _ _ P) as [D _]. discriminate D.
  - destruct (clearing_silent _ (cleared_clearing _ C)) as [Rc Cc].
    destruct (plan_run _ _ _ _ _ P) as ((n & Cr) & (n' & Rr) & _ & _ & Call & Rall & _).
    exists clearing, recreation, (reads r1 r2 r3). split; [exact Hrun|].
    split; [exact E|]. split; [exact Rc|]. split; [reflexivity|].
    rewrite planned_plan in Rr, Rall.
    split; [now exists n'|].
    split; [rewrite Rall, <- planned_plan; apply planned_total|].
    split; [intros _; now exists (Normal tt)|].
    split; [intros _; exact Rall|].
    intros E1 E2 E3. destruct (Hplan E1 E2 E3 _ _ P) as [_ ->].
    split; [rewrite !created_app, Cc; reflexivity|].
    intros _. split; [exact C|]. split; [reflexivity|].
    split; [now exists r1, r2, r3|]. now split.
Qed.

(** C10: the body of the savings loop of [runImport].  For an entry that is
    not [null] it sends the creation request, made of the name and the
    target of the entry only; when that request resolves, the update that
    sets the current amount is sent, right after it, exactly when
    [Number(s.current || 0)] is above zero and the response carries a truthy
    [id], and it is sent with that [id]; otherwise the creation is the only
    request.  An absent [current] is not above zero, and a numeric one is
    above zero exactly when it is positive, so that an absent, zero or
    negative [current] leads to no update. *)
Theorem importSaving_update (s : json) (st : St) :
  let st' := snd (importSaving s st) in
  let current := Number_or_zero (get_optional (Some s) "current") in
  let creation := createSaving (get_optional (Some s) "name")
                    (Number_or_zero (get_optional (Some s) "target")) in
  (s = JNull -> events st' = events st) /\
  (s <> JNull ->
   exists r,
     match r with
     | Resolve created =>
         if positive current && truthy (get_optional (Some created) "id")
         then exists r',
                events st' =
                events st ++ [Called creation r;
                              Called (updateSaving (get_optional (Some created) "id") current) r']
         else events st' = events st ++ [Called creation r]
     | Reject _ => events st' = events st ++ [Called creation r]
     end) /\
  (get_optional (Some s) "current" = None -> positive current = false) /\
  (forall q, get_optional (Some s) "current" = Some (JNum q) ->
             (positive current = true <-> 0 < q)).
Proof.
  intros st' current creation.
  destruct (item_run Saving s st) as (evs & r & fin & Hb & He & _ & I).
  assert (Hst : st' = fin) by (unfold st'; simpl in Hb; now rewrite Hb).
  rewrite Hst. clear Hst st'.
  split; [|split; [|split]].
  - intros ->. inversion I; subst; try contradiction. now rewrite app_nil_r in He.
  - intros N.
    inversion I as [X|m X|created X F|created u b X F|created u m X F]; subst;
      try contradiction.
    + now exists (Reject m).
    + exists (Resolve created). unfold follow_up in F. fold current in F.
      destruct (positive current && truthy (get_optional (Some created) "id"));
        [discriminate F | exact He].
    + exists (Resolve created). unfold follow_up in F. fold current in F.
      destruct (positive current && truthy (get_optional (Some created) "id"));
        [|discriminate F].
      injection F as <-. now exists (Resolve b).
    + exists (Resolve created). unfold follow_up in F. fold current in F.
      destruct (positive current && truthy (get_optional (Some created) "id"));
        [|discriminate F].
      injection F as <-. now exists (Reject m).
  - intros E. unfold current. now rewrite E.
  - intros q E. unfold current, Number_or_zero. rewrite E. simpl.
    destruct (Qeq_bool q 0) eqn:Z; simpl.
    + apply Qeq_bool_iff in Z. split; [discriminate|]. intros L. rewrite Z in L.
      now apply Qlt_irrefl in L.
    + apply ltb_lt.
Qed.

End WithBackend.

Import Samples.

Lemma sample_cooperative : @cooperative sample_backend.
Proof.
  intros s c Hc. destruct c; try discriminate Hc; simpl;
    try (intros R; discriminate R); intros _;
    eexists; (split; [reflexivity|]);
    apply Forall_forall; intros x Hx; apply in_map_iff in Hx as (row & <- & _);
    discriminate.
Qed.

(** The sample document on the sample server: the run completes, and the
    creation requests it sent are those of the document. *)
Lemma sample_run :
  option_map (fun st' : @St sample_backend =>
                (pendingImport (page st'), info (page st'), created (events st')))
             (@runImport sample_engine sample_backend true (staged sample_backup))
  = Some (None, "Import completed."%string, @all_creations sample_engine sample_payload).
Proof. vm_compute. reflexivity. Qed.

(** [runImport_order] on the sample document, staged in front of the
    sample server: the clearing phase completes, and the recreation sends
    the creation requests of the document, each once and in its order. *)
Lemma runImport_order_witness :
  pendingImport (page (staged sample_backup)) = Some ("backup.json"%string, sample_backup) /\
  asBackupPayload sample_backup = Some sample_payload /\
  exists st' clearing recreation refresh,
    @runImport sample_engine sample_backend true (staged sample_backup) = Some st' /\
    events st' = placeholder :: clearing ++ recreation ++ refresh /\
    cleared clearing /\
    @plan_events sample_engine (total_of sample_payload) (plan sample_payload) 0 recreation (Normal tt) /\
    created recreation = @all_creations sample_engine sample_payload /\
    updates_follow_creations None recreation /\
    exists r1 r2 r3, refresh = reads r1 r2 r3.
Proof.
  split; [reflexivity|]. split; [reflexivity|].
  destruct (@runImport_order sample_engine sample_backend (staged sample_backup)
              "backup.json" sample_backup sample_payload eq_refl eq_refl)
    as (st' & clearing & recreation & refresh & R & E & _ & _ & D & Done).
  pose proof sample_run as S. rewrite R in S. simpl in S. injection S as Pe _ _.
  destruct (Done Pe) as (C & P & Cr & Rf).
  exists st', clearing, recreation, refresh.
  split; [exact R|]. split; [exact E|]. split; [exact C|]. split; [exact P|].
  split; [exact Cr|]. split; [|exact Rf].
  destruct D as [(_ & -> & _)|(_ & r & _ & _ & _ & U & _)]; [constructor | exact U].
Defined.

(** [runImport_outcome] on the sample document, staged in front of the
    sample server: the run completes. *)
Lemma runImport_outcome_witness :
  pendingImport (page (staged sample_backup)) = Some ("backup.json"%string, sample_backup) /\
  asBackupPayload sample_backup = Some sample_payload /\
  exists st' clearing recreation refresh,
    @runImport sample_engine sample_backend true (staged sample_backup) = Some st' /\
    events st' = placeholder :: clearing ++ recreation ++ refresh /\
    importing (page st') = false /\ importProgress (page st') = None /\
    cleared clearing /\
    @plan_events sample_engine (total_of sample_payload) (plan sample_payload) 0 recreation (Normal tt) /\
    Forall (fun e => rejected e = false) (clearing ++ recreation) /\
    (exists r1 r2 r3, refresh = reads r1 r2 r3) /\
    pendingImport (page st') = None /\
    info (page st') = "Import completed."%string.
Proof.
  split; [reflexivity|]. split; [reflexivity|].
  destruct (@runImport_outcome sample_engine sample_backend (staged sample_backup)
              "backup.json" sample_backup sample_payload eq_refl eq_refl)
    as (st' & clearing & recreation & refresh & R & E & I & P & D & _).
  pose proof sample_run as S. rewrite R in S. simpl in S. injection S as Pe _ _.
  exists st', clearing, recreation, refresh.
  split; [exact R|]. split; [exact E|]. split; [exact I|]. split; [exact P|].
  destruct D as [D|(m & _ & Pe' & _)]; [exact D|].
  rewrite Pe in Pe'. discriminate Pe'.
Defined.

(** [runImport_progress] on the empty backup, staged in front of the sample
    server, which is cooperative: the run completes with a total of zero. *)
Lemma runImport_progress_witness :
  pendingImport (page (staged empty_backup)) = Some ("backup.json"%string, empty_backup) /\
  asBackupPayload empty_backup = Some empty_payload /\
  exists st' clearing refresh,
    @runImport sample_engine sample_backend true (staged empty_backup) = Some st' /\
    events st' =
      placeholder :: clearing
      ++ [report 0 Expense 0; report 0 Budget 0; report 0 Saving 0]
      ++ refresh /\
    pendingImport (page st') = None /\
    info (page st') = "Import completed."%string.
Proof.
  split; [reflexivity|]. split; [reflexivity|].
  destruct (@runImport_progress sample_engine sample_backend (staged empty_backup)
              "backup.json" empty_backup empty_payload eq_refl eq_refl)
    as (st' & clearing & recreation & refresh & R & E & _ & _ & _ & _ & _ & _ & H).
  destruct (H eq_refl eq_refl eq_refl) as (_ & H').
  destruct (H' sample_cooperative) as (_ & -> & _ & P & I).
  exists st', clearing, refresh.
  split; [exact R|]. split; [exact E|]. split; [exact P | exact I].
Defined.

(** ** The handlers, run *)

Example handleFile_stages_the_empty_backup :
  let st := snd (@handleFile sample_engine sample_backend
                   (Some {| file_name := "b.json"; file_text := empty_backup_text |}) idle) in
  pendingImport (page st) = Some ("b.json"%string, empty_backup) /\
  info (page st) = "Ready to import: b.json"%string /\ events st = [].
Proof. repeat split. Qed.

Example handleFile_refuses_null :
  let st := snd (@handleFile sample_engine sample_backend
                   (Some {| file_name := "b.json"; file_text := "null" |}) idle) in
  pendingImport (page st) = None /\
  info (page st) = "Cannot read properties of null (reading 'expenses')"%string /\
  events st = [].
Proof. repeat split. Qed.

Example handleFile_refuses_other_text :
  let st := snd (@handleFile sample_engine sample_backend
                   (Some {| file_name := "b.json"; file_text := "{" |}) idle) in
  pendingImport (page st) = None /\
  info (page st) = "Unexpected token in JSON"%string /\ events st = [].
Proof. repeat split. Qed.

Example downloadJson_offline :
  let st := snd (@downloadJson sample_engine offline_backend idle_offline) in
  let message := "Network error. Is the API running on 4000?"%string in
  events st = reads (Reject message) (Reject message) (Reject message) /\
  info (page st) = message /\ busy (page st) = false.
Proof. repeat split. Qed.

Example runImport_sample :
  exists st,
    @runImport sample_engine sample_backend true (staged sample_backup) = Some st /\
    info (page st) = "Import completed."%string /\
    pendingImport (page st) = None /\
    created (events st) =
      [createExpense (Some (JStr "2025-02-01")) (Some (JStr "Rent"))
         (Some (JStr "February")) (Finite 500);
       createSaving (Some (JStr "Trip")) (Finite 1000);
       createSaving (Some (JStr "Laptop")) (Finite 2000)] /\
    reports (events st) =
      [ {| step := "Clearing existing"; current := 0; total := 1 |};
        {| step := "Importing expenses"; current := 0; total := 3 |};
        {| step := "Importing expenses"; current := 1; total := 3 |};
        {| step := "Importing budgets"; current := 1; total := 3 |};
        {| step := "Importing savings"; current := 1; total := 3 |};
        {| step := "Importing savings"; current := 2; total := 3 |};
        {| step := "Importing savings"; current := 3; total := 3 |} ] /\
    filter (fun e => match e with Called (updateSaving _ _) _ => true | _ => false end)
           (events st) =
      [Called (updateSaving (Some (JNum 4)) (Finite 250)) (Resolve JNull)].
Proof. eexists. split; [reflexivity|]. repeat split. Qed.

End SettingsFacts.


(** * Facts about rounding and clamping *)

Module MathFacts.

Import JS JSFacts.

Lemma Math_max2_cases (m y : number) :
  (Math_max2 m y = m /\ y <= m) \/ (Math_max2 m y = y /\ m <= y).
Proof.
  unfold Math_max2. destruct (ltb m y) eqn:E.
  - right. apply ltb_lt in E. split; [reflexivity | lra].
  - left. apply ltb_ge in E. now split.
Qed.

Lemma Math_min2_cases (m y : number) :
  (Math_min2 m y = m /\ m <= y) \/ (Math_min2 m y = y /\ y <= m).
Proof.
  unfold Math_min2. destruct (ltb y m) eqn:E.
  - right. apply ltb_lt in E. split; [reflexivity | lra].
  - left. apply ltb_ge in E. now split.
Qed.

Lemma Math_round_integer (z : Z) : Math_round (inject_Z z) = inject_Z z.
Proof.
  unfold Math_round. f_equal. apply Z.le_antisymm.
  - apply Z.lt_succ_r. rewrite Zlt_Qlt.
    apply (Qle_lt_trans _ (inject_Z z + (1 # 2))); [apply Qfloor_le|].
    unfold Z.succ. rewrite inject_Z_plus. change (inject_Z 1) with 1. lra.
  - rewrite <- (Qfloor_Z z) at 1. apply Qfloor_resp_le. lra.
Qed.

Lemma Math_round_le (x y : number) : x <= y -> Math_round x <= Math_round y.
Proof.
  intros L. unfold Math_round. rewrite <- Zle_Qle. apply Qfloor_resp_le. lra.
Qed.

Lemma Math_round_between (x : number) (lo hi : Z) :
  inject_Z lo <= x -> x <= inject_Z hi ->
  inject_Z lo <= Math_round x <= inject_Z hi.
Proof.
  intros L U. split.
  - rewrite <- (Math_round_integer lo). now apply Math_round_le.
  - rewrite <- (Math_round_integer hi). now apply Math_round_le.
Qed.

End MathFacts.

(** * The Reports page: the window and the headline figures *)

Module ReportsPageFacts.

Import JS JSFacts MathFacts Reports ReportsSpec.



(** [slice(-n)] keeps the last [n] entries; [slice(-0)] is [slice(0)], the
    whole array. *)
Lemma slice_last {A} (l : list A) (n : nat) :
  (n <= length l)%nat -> (n = 0%nat -> l = []) ->
  slice l (- Z.of_nat n) None = skipn (length l - n) l.
Proof.
  intros Hn H0. unfold slice, relative_index.
  destruct (Z.ltb_spec (- Z.of_nat n) 0).
  - replace (Z.to_nat (Z.max (Z.of_nat (length l) + - Z.of_nat n) 0))
      with (length l - n)%nat by lia.
    apply firstn_all2. rewrite length_skipn. lia.
  - assert (n = 0%nat) by lia. subst n. now rewrite (H0 eq_refl).
Qed.

Lemma months_labels (data : option MonthlyData) :
  monthlyLabelsAll data = map label (months data).
Proof. unfold monthlyLabelsAll, months. now rewrite map_map. Qed.

Lemma months_values (data : option MonthlyData) :
  monthlyValuesAll data = map value (months data).
Proof. unfold monthlyValuesAll, months. now rewrite map_map. Qed.

(** X1: the windowed series.  With [n] the number of months kept -- the
    smaller of [monthsWindow] and the length of the series when
    [monthsWindow] is positive, the whole length otherwise -- [windowSize]
    is [n], and the windowed labels and values are the labels and values of
    the last [n] months of the summary, in order. *)
Theorem window_spec (data : option MonthlyData) (monthsWindow : Z) :
  let ms := months data in
  let w := windowSize monthsWindow (monthlyLabelsAll data) in
  let n := if (0 <? monthsWindow)%Z
           then Nat.min (Z.to_nat monthsWindow) (length ms) else length ms in
  w = Z.of_nat n /\
  monthlyLabels (monthlyLabelsAll data) w = map label (skipn (length ms - n) ms) /\
  monthlyValues (monthlyValuesAll data) w = map value (skipn (length ms - n) ms).
Proof.
  intros ms w n.
  assert (Hw : w = Z.of_nat n).
  { unfold w, n, windowSize. rewrite months_labels, length_map. fold ms.
    destruct (Z.eqb_spec monthsWindow 0), (Z.ltb_spec 0 monthsWindow); simpl; lia. }
  assert (Hn : (n <= length ms)%nat) by (unfold n; destruct (0 <? monthsWindow)%Z; lia).
  assert (H0 : n = 0%nat -> ms = []).
  { unfold n. destruct (Z.ltb_spec 0 monthsWindow); intros E;
      apply length_zero_iff_nil; lia. }
  split; [exact Hw|].
  unfold monthlyLabels, monthlyValues. rewrite Hw, months_labels, months_values. fold ms.
  split.
  - rewrite slice_last; rewrite ?length_map; [now rewrite skipn_map | exact Hn |].
    intros E. now rewrite (H0 E).
  - rewrite slice_last; rewrite ?length_map; [now rewrite skipn_map | exact Hn |].
    intros E. now rewrite (H0 E).
Qed.

(** ** The best and the worst month *)

Lemma indexOf_first (arr : list number) (m : number) :
  In m arr ->
  exists pre y post,
    arr = pre ++ y :: post /\ indexOf arr m = Some (length pre) /\ y == m /\
    Forall (fun z => ~ z == m) pre.
Proof.
  induction arr as [|y arr IH]; [intros []|].
  intros I. simpl. destruct (Qeq_bool y m) eqn:E.
  - exists [], y, arr. apply Qeq_bool_iff in E. repeat split; [exact E | constructor].
  - assert (N : ~ y == m) by (intros Q; apply Qeq_bool_iff in Q; congruence).
    destruct I as [->|I]; [exfalso; apply N; reflexivity|].
    destruct (IH I) as (pre & z & post & -> & Hi & V & F).
    exists (y :: pre), z, post. rewrite Hi. repeat split; [exact V | now constructor].
Qed.

Lemma months_nth (data : option MonthlyData) (i : nat) :
  {| label := nth i (monthlyLabelsAll data) ""%string;
     value := nth i (monthlyValuesAll data) 0 |} =
  nth i (months data) {| label := ""; value := 0 |}.
Proof.
  unfold monthlyLabelsAll, monthlyValuesAll, months.
  generalize (match data with Some d => monthly d | None => [] end). intros l.
  revert i. induction l as [|a l IH]; intros [|i]; simpl; try reflexivity. apply IH.
Qed.

Section Extremum.

(** [le a b]: [b] is at least as extreme as [a]; [pick] keeps the more
    extreme of two values. *)
Variable le : number -> number -> Prop.
Variable pick : number -> number -> number.
Hypothesis le_eq : forall a b, a == b -> le a b.
Hypothesis le_trans : forall a b c, le a b -> le b c -> le a c.
Hypothesis pick_cases :
  forall m y, (pick m y = m /\ le y m) \/ (pick m y = y /\ le m y).

Lemma fold_pick (xs : list number) : forall x,
  In (fold_left pick xs x) (x :: xs) /\
  Forall (fun y => le y (fold_left pick xs x)) (x :: xs).
Proof.
  induction xs as [|y xs IH]; intros x; simpl.
  - split; [now left|]. constructor; [apply le_eq; reflexivity | constructor].
  - destruct (pick_cases x y) as [[E L]|[E L]]; rewrite E.
    + destruct (IH x) as [I F]. inversion F as [|? ? F1 F2]; subst. split.
      * destruct I as [I|I]; [now left | now right; right].
      * constructor; [exact F1|]. constructor; [|exact F2].
        eapply le_trans; eassumption.
    + destruct (IH y) as [I F]. inversion F as [|? ? F1 F2]; subst. split.
      * destruct I as [I|I]; [right; now left | now right; right].
      * constructor; [eapply le_trans; eassumption|]. now constructor.
Qed.

Lemma extreme_month (data : option MonthlyData) (x : number) (xs : list number) :
  monthlyValuesAll data = x :: xs ->
  exists i before b after,
    indexOf (monthlyValuesAll data) (fold_left pick xs x) = Some i /\
    b = {| label := nth i (monthlyLabelsAll data) ""%string;
           value := nth i (monthlyValuesAll data) 0 |} /\
    months data = before ++ b :: after /\
    Forall (fun m => le (value m) (value b) /\ ~ value m == value b) before /\
    Forall (fun m => le (value m) (value b)) (months data).
Proof.
  intros E. destruct (fold_pick xs x) as [I F]. rewrite <- E in I, F.
  set (m := fold_left pick xs x) in *.
  destruct (indexOf_first _ _ I) as (pre & y & post & Hv & Hi & Hy & Hpre).
  pose proof Hv as Hms. rewrite months_values in Hms.
  apply map_eq_app in Hms as (before & rest & Hms & Hb & Hr).
  apply map_eq_cons in Hr as (b & after & -> & Vb & Ha).
  assert (Hlen : length pre = length before) by (now rewrite <- Hb, length_map).
  assert (Hnth : {| label := nth (length pre) (monthlyLabelsAll data) ""%string;
                    value := nth (length pre) (monthlyValuesAll data) 0 |} = b).
  { rewrite months_nth, Hms, Hlen. apply nth_middle. }
  assert (Hbm : value b == m) by (now rewrite Vb).
  assert (Hall : Forall (fun mo => le (value mo) (value b)) (months data)).
  { rewrite months_values in F. rewrite Forall_map in F.
    revert F. apply Forall_impl. intros mo L.
    apply (le_trans _ m); [exact L | apply le_eq; now symmetry]. }
  exists (length pre), before, b, after.
  split; [exact Hi|]. split; [now symmetry|]. split; [exact Hms|]. split; [|exact Hall].
  rewrite Hms in Hall. apply Forall_app in Hall as [Hbefore _].
  rewrite <- Hb, Forall_map in Hpre.
  apply Forall_forall. intros mo Hmo. rewrite Forall_forall in Hbefore, Hpre.
  split; [now apply Hbefore|]. intros Q. apply (Hpre mo Hmo). now rewrite Q.
Qed.

End Extremum.

Lemma best_month (data : option MonthlyData) (x : number) (xs : list number) :
  monthlyValuesAll data = x :: xs ->
  exists before after,
    months data =
      before ++ best (monthlyLabelsAll data) (monthlyValuesAll data) :: after /\
    Forall (fun m => value m < value (best (monthlyLabelsAll data) (monthlyValuesAll data)))
           before /\
    Forall (fun m => value m <= value (best (monthlyLabelsAll data) (monthlyValuesAll data)))
           (months data).
Proof.
  intros E.
  destruct (extreme_month Qle Math_max2
              (fun a b H => proj2 (Qle_lteq a b) (or_intror H))
              Qle_trans Math_max2_cases data x xs E)
    as (i & before & b & after & Hi & Hb & Hms & Hbefore & Hall).
  assert (B : best (monthlyLabelsAll data) (monthlyValuesAll data) = b).
  { unfold best. rewrite E. rewrite <- E. unfold Math_max. rewrite Hi. now symmetry. }
  rewrite B. exists before, after. split; [exact Hms|]. split; [|exact Hall].
  revert Hbefore. apply Forall_impl. intros m [L N]. apply Qle_lteq in L as [L|L]; tauto.
Qed.

Lemma worst_month (data : option MonthlyData) (x : number) (xs : list number) :
  monthlyValuesAll data = x :: xs ->
  exists before after,
    months data =
      before ++ worst (monthlyLabelsAll data) (monthlyValuesAll data) :: after /\
    Forall (fun m => value (worst (monthlyLabelsAll data) (monthlyValuesAll data)) < value m)
           before /\
    Forall (fun m => value (worst (monthlyLabelsAll data) (monthlyValuesAll data)) <= value m)
           (months data).
Proof.
  intros E.
  destruct (extreme_month (fun a b => b <= a) Math_min2
              (fun a b H => proj2 (Qle_lteq b a) (or_intror (Qeq_sym _ _ H)))
              (fun a b c H1 H2 => Qle_trans _ _ _ H2 H1)
              Math_min2_cases data x xs E)
    as (i & before & b & after & Hi & Hb & Hms & Hbefore & Hall).
  assert (B : worst (monthlyLabelsAll data) (monthlyValuesAll data) = b).
  { unfold worst. rewrite E. rewrite <- E. unfold Math_min. rewrite Hi. now symmetry. }
  rewrite B. exists before, after. split; [exact Hms|]. split; [|exact Hall].
  revert Hbefore. apply Forall_impl. intros m [L N]. apply Qle_lteq in L as [L|L]; [exact L|].
  exfalso. apply N. now symmetry.
Qed.

Lemma months_nil (data : option MonthlyData) :
  months data = [] <-> monthlyValuesAll data = [].
Proof.
  rewrite months_values. split; [now intros -> | apply map_eq_nil].
Qed.

(** X2: the best month.  For a summary without months it is the placeholder
    of label "-" and value 0.  Otherwise it is one of the months of the
    summary, with the label and the value of that month, namely the first
    month of the highest value: every month before it has a strictly
    smaller value, and no month after it has a larger one. *)
Theorem best_spec (data : option MonthlyData) :
  let b := best (monthlyLabelsAll data) (monthlyValuesAll data) in
  (months data = [] -> b = {| label := "-"; value := 0 |}) /\
  (months data <> [] ->
   exists before after,
     months data = before ++ b :: after /\
     Forall (fun m => value m < value b) before /\
     Forall (fun m => value m <= value b) after).
Proof.
  cbv zeta. split.
  - intros E. apply months_nil in E. now rewrite E.
  - intros N. destruct (monthlyValuesAll data) as [|x xs] eqn:E;
      [now apply months_nil in E|].
    rewrite <- E. destruct (best_month data x xs E) as (before & after & Hms & Hb & Hall).
    exists before, after. split; [exact Hms|]. split; [exact Hb|].
    rewrite Hms in Hall. apply Forall_app in Hall as [_ Hall]. now inversion Hall.
Qed.

(** X3: the worst month.  For a summary without months it is the
    placeholder of label "-" and value 0.  Otherwise it is one of the months
    of the summary, namely the first month of the lowest value: every month
    before it has a strictly larger value, and no month after it has a
    smaller one. *)
Theorem worst_spec (data : option MonthlyData) :
  let w := worst (monthlyLabelsAll data) (monthlyValuesAll data) in
  (months data = [] -> w = {| label := "-"; value := 0 |}) /\
  (months data <> [] ->
   exists before after,
     months data = before ++ w :: after /\
     Forall (fun m => value w < value m) before /\
     Forall (fun m => value w <= value m) after).
Proof.
  cbv zeta. split.
  - intros E. apply months_nil in E. now rewrite E.
  - intros N. destruct (monthlyValuesAll data) as [|x xs] eqn:E;
      [now apply months_nil in E|].
    rewrite <- E. destruct (worst_month data x xs E) as (before & after & Hms & Hb & Hall).
    exists before, after. split; [exact Hms|]. split; [exact Hb|].
    rewrite Hms in Hall. apply Forall_app in Hall as [_ Hall]. now inversion Hall.
Qed.



End ReportsPageFacts.

(** * The CSV exports read back *)

Module CsvFacts.

Import JS Settings Csv.

Lemma append_nil_r (s : string) : (s ++ "")%string = s.
Proof. induction s as [|c s IH]; simpl; [reflexivity | now rewrite IH]. Qed.

Lemma append_assoc (a b c : string) : ((a ++ b) ++ c)%string = (a ++ (b ++ c))%string.
Proof. induction a as [|x a IH]; simpl; [reflexivity | now rewrite IH]. Qed.

Lemma read_separator (mode : Mode) field row rows rest :
  mode <> InQuotes -> separated rest ->
  read_from mode field row rows rest = after_field field row rows rest.
Proof.
  intros M S. destruct rest as [|c rest]; [destruct mode; try reflexivity; contradiction|].
  destruct S as [-> | ->]; destruct mode; try contradiction; reflexivity.
Qed.

Lemma read_quoted (s : string) : forall field row rows rest,
  read_from InQuotes field row rows (double_quotes s ++ String double_quote rest) =
  read_from QuoteSeen (field ++ s) row rows rest.
Proof.
  induction s as [|c s IH]; intros field row rows rest.
  - rewrite append_nil_r. reflexivity.
  - cbn [double_quotes]. destruct (Ascii.eqb c double_quote) eqn:E.
    + apply Ascii.eqb_eq in E. subst c.
      change (read_from InQuotes (field ++ String double_quote EmptyString) row rows
                (double_quotes s ++ String double_quote rest) =
              read_from QuoteSeen (field ++ String double_quote s) row rows rest).
      rewrite IH, append_assoc. reflexivity.
    + cbn [append read_from]. rewrite E, IH, append_assoc. reflexivity.
Qed.

Lemma read_bare (s : string) : forall mode field row rows rest,
  bare s = true -> mode = FieldStart \/ mode = Bare -> separated rest ->
  read_from mode field row rows (s ++ rest) = after_field (field ++ s) row rows rest.
Proof.
  induction s as [|c s IH]; intros mode field row rows rest B M S.
  - rewrite append_nil_r. apply read_separator; [|exact S].
    destruct M as [-> | ->]; discriminate.
  - cbn [bare] in B. apply andb_true_iff in B as [B Bs].
    apply andb_true_iff in B as [B Bl]. apply andb_true_iff in B as [Bq Bc].
    apply negb_true_iff in Bq, Bc, Bl.
    cbn [append read_from].
    replace (field ++ String c s)%string
      with ((field ++ String c EmptyString) ++ s)%string by (now rewrite append_assoc).
    destruct M as [-> | ->]; rewrite Bq, Bc, Bl; apply IH; auto.
Qed.

Lemma read_cell (c : Cell) row rows rest :
  cell_ok c -> separated rest ->
  read_from FieldStart EmptyString row rows (cell_text c ++ rest) =
  after_field (cell_value c) row rows rest.
Proof.
  intros Ok S. destruct c as [s|s].
  - apply (read_bare s FieldStart EmptyString); auto.
  - cbn [cell_text cell_value append]. rewrite append_assoc.
    change (read_from InQuotes EmptyString row rows
              (double_quotes s ++ String double_quote rest) =
            after_field s row rows rest).
    rewrite read_quoted. apply read_separator; [discriminate | exact S].
Qed.

Lemma read_row (cells : list Cell) : forall row rows rest,
  cells <> [] -> Forall cell_ok cells ->
  rest = EmptyString \/ (exists rest', rest = String line_feed rest') ->
  read_from FieldStart EmptyString row rows (row_text cells ++ rest) =
  match rest with
  | EmptyString => Some (rows ++ [row ++ map cell_value cells])
  | String _ rest' =>
      read_from FieldStart EmptyString [] (rows ++ [row ++ map cell_value cells]) rest'
  end.
Proof.
  induction cells as [|c cells IH]; intros row rows rest N Ok R; [contradiction|].
  inversion Ok as [|? ? Okc Oks]; subst.
  destruct cells as [|c2 cells].
  - change (row_text [c]) with (cell_text c). rewrite read_cell; [|exact Okc|].
    + destruct R as [-> | [rest' ->]]; reflexivity.
    + destruct R as [-> | [rest' ->]]; simpl; auto.
  - change (row_text (c :: c2 :: cells))
      with (cell_text c ++ String comma (row_text (c2 :: cells)))%string.
    rewrite append_assoc. cbn [append].
    rewrite read_cell; [|exact Okc | now left].
    cbn [after_field]. change (Ascii.eqb comma comma) with true. cbv iota.
    rewrite IH; [|discriminate | exact Oks | exact R].
    cbn [map]. rewrite <- !app_assoc. reflexivity.
Qed.

Lemma read_table (table : list (list Cell)) : forall rows,
  table <> [] -> Forall (fun row => row <> [] /\ Forall cell_ok row) table ->
  read_from FieldStart EmptyString [] rows (table_text table) =
  Some (rows ++ map (map cell_value) table).
Proof.
  induction table as [|r table IH]; intros rows N Ok; [contradiction|].
  inversion Ok as [|? ? [Nr Okr] Oks]; subst.
  destruct table as [|r2 table].
  - change (table_text [r]) with (row_text r). rewrite <- (append_nil_r (row_text r)).
    rewrite read_row; auto.
  - change (table_text (r :: r2 :: table))
      with (row_text r ++ String line_feed (table_text (r2 :: table)))%string.
    rewrite read_row; [|exact Nr | exact Okr | right; now eexists].
    rewrite IH; [|discriminate | exact Oks].
    cbn [map app]. rewrite <- app_assoc. reflexivity.
Qed.

Section WithBackend.

Context `{Engine} `{Backend}.

Lemma quoted_textual (x : value) :
  textual x -> quoted x = Normal (cell_text (Quote (text_of x))).
Proof.
  intros [F | [s ->]]; unfold quoted.
  - rewrite F. destruct x as [[| | |s| |]|]; try reflexivity.
    simpl in F. apply negb_false_iff, String.eqb_eq in F. now subst s.
  - destruct (truthy (Some (JStr s))) eqn:T; [reflexivity|].
    simpl in T. apply negb_false_iff, String.eqb_eq in T. now subst s.
Qed.

Lemma rows_run (row : json -> M string) (text : json -> string) (ok : json -> Prop) :
  (forall r st, ok r -> row r st = (Normal (text r), st)) ->
  forall items st, Forall ok items ->
    mapM row items st = (Normal (map text items), st).
Proof.
  intros R items st. induction 1 as [|r items Hr _ IH]; [reflexivity|].
  simpl. unfold bind at 1. rewrite (R r st Hr). unfold bind at 1. now rewrite IH.
Qed.

Lemma csv_of_reads_back (row : json -> M string) (cells : json -> list Cell)
  (ok : json -> Prop) (headers : list string) (items : list json) (st : St) :
  (forall r st, ok r -> row r st = (Normal (row_text (cells r)), st)) ->
  (forall r, ok r -> cells r <> [] /\ Forall cell_ok (cells r)) ->
  headers <> [] -> Forall (fun h => bare h = true) headers -> Forall ok items ->
  exists csv,
    csv_of headers row (JArr items) st = (Normal csv, st) /\
    read csv = Some (headers :: map (fun r => map cell_value (cells r)) items).
Proof.
  intros R C Nh Bh Ok. eexists. split.
  - unfold csv_of, Array_map, bind.
    rewrite (rows_run row (fun r => row_text (cells r)) ok R items st Ok). reflexivity.
  - assert (T : String.concat (String line_feed EmptyString)
                  (String.concat "," headers :: map (fun r => row_text (cells r)) items) =
                table_text (map Plain headers :: map cells items)).
    { unfold table_text. cbn [map]. rewrite map_map. f_equal. f_equal.
      unfold row_text. rewrite map_map. cbn [cell_text]. now rewrite map_id. }
    rewrite T. unfold read. rewrite read_table.
    + cbn [app map]. rewrite !map_map. cbn [cell_value]. now rewrite map_id.
    + discriminate.
    + constructor.
      * split; [now destruct headers|]. rewrite Forall_map. exact Bh.
      * rewrite Forall_map. revert Ok. apply Forall_impl. exact C.
Qed.

(** X6: a quoted field of a CSV export reads back as the text it was made
    from.  A string, whatever it holds (double quotes, commas and line
    feeds included), is written so that a CSV reader finds exactly that
    string; a falsy value is written as the empty field; and a truthy value
    that is not a string cannot be written at all: the attempt throws the
    [TypeError] of a missing method [replace]. *)
Theorem quoted_reads_back (x : value) :
  (forall s, x = Some (JStr s) ->
     exists q, quoted x = Normal q /\ read q = Some [[s]]) /\
  (truthy x = false ->
     exists q, quoted x = Normal q /\ read q = Some [[EmptyString]]) /\
  (truthy x = true -> (forall s, x <> Some (JStr s)) ->
     quoted x = Throw (TypeError_message (NotAFunction "replace"))).
Proof.
  assert (R : forall s, read (cell_text (Quote s)) = Some [[s]]).
  { intros s. unfold read.
    change (cell_text (Quote s)) with (table_text [[Quote s]]).
    rewrite read_table; [reflexivity | discriminate | repeat constructor; discriminate]. }
  split; [|split].
  - intros s ->. eexists. split; [apply quoted_textual; right; now exists s | apply R].
  - intros F. eexists. split; [apply quoted_textual; now left|].
    replace (text_of x) with EmptyString; [apply R|].
    destruct x as [[| | |s| |]|]; try reflexivity.
    simpl in F. apply negb_false_iff, String.eqb_eq in F. now subst s.
  - intros T N. unfold quoted. rewrite T.
    destruct x as [[| | |s| |]|]; try reflexivity. now destruct (N s).
Qed.

Lemma expenseRow_run (r : json) (st : St) :
  exportable_expense r ->
  expenseRow r st = (Normal (row_text (expense_cells r)), st).
Proof.
  intros (N & Tc & Td & _). unfold expenseRow, bind, lift.
  rewrite !(SettingsFacts.get_not_null r) by exact N.
  now rewrite (quoted_textual _ Tc), (quoted_textual _ Td).
Qed.

Lemma budgetRow_run (b : json) (st : St) :
  exportable_budget b ->
  budgetRow b st = (Normal (row_text (budget_cells b)), st).
Proof.
  intros (N & Tc & _). unfold budgetRow, bind, lift.
  rewrite !(SettingsFacts.get_not_null b) by exact N.
  now rewrite (quoted_textual _ Tc).
Qed.

Lemma savingRow_run (s : json) (st : St) :
  exportable_saving s ->
  savingRow s st = (Normal (row_text (saving_cells s)), st).
Proof.
  intros (N & Tn & _). unfold savingRow, bind, lift.
  rewrite !(SettingsFacts.get_not_null s) by exact N.
  now rewrite (quoted_textual _ Tn).
Qed.

(** X7: the expenses CSV reads back.  For a list of expenses whose
    categories and descriptions are strings (or falsy) and whose dates and
    amounts are written without a double quote, comma or line feed, the
    text of the export is read by a CSV reader as the header record
    Date, Category, Description, Amount followed by one record per expense,
    in order, holding its date, category, description and amount: no comma,
    double quote or line feed inside a category or a description breaks a
    record or moves a field. *)
Theorem expensesCsv_reads_back (items : list json) (st : St)
  (Hitems : Forall exportable_expense items) :
  exists csv,
    expensesCsv (JArr items) st = (Normal csv, st) /\
    read csv =
    Some (["Date"; "Category"; "Description"; "Amount"]%string :: map expense_fields items).
Proof.
  apply (csv_of_reads_back expenseRow expense_cells exportable_expense).
  - intros r s. apply expenseRow_run.
  - intros r (_ & _ & _ & Bd & Ba). split; [discriminate|]. repeat constructor; assumption.
  - discriminate.
  - repeat constructor.
  - exact Hitems.
Qed.

(** X8: the budgets CSV reads back.  For a list of budgets whose categories
    are strings (or falsy) and whose limits are written without a double
    quote, comma or line feed, the text of the export is read by a CSV
    reader as the header record Category, Limit followed by one record per
    budget, in order, holding its category and its limit, the limit of a
    budget that has none being written as the number zero is. *)
Theorem budgetsCsv_reads_back (items : list json) (st : St)
  (Hitems : Forall exportable_budget items) :
  exists csv,
    budgetsCsv (JArr items) st = (Normal csv, st) /\
    read csv = Some (["Category"; "Limit"]%string :: map budget_fields items).
Proof.
  apply (csv_of_reads_back budgetRow budget_cells exportable_budget).
  - intros r s. apply budgetRow_run.
  - intros r (_ & _ & Bl). split; [discriminate|]. repeat constructor; assumption.
  - discriminate.
  - repeat constructor.
  - exact Hitems.
Qed.

(** X9: the savings CSV reads back.  For a list of savings whose names are
    strings (or falsy) and whose targets and current amounts are written
    without a double quote, comma or line feed, the text of the export is
    read by a CSV reader as the header record Name, Target, Current followed
    by one record per saving, in order, holding its name, target and current
    amount, an absent target or current amount being written as the number
    zero is. *)
Theorem savingsCsv_reads_back (items : list json) (st : St)
  (Hitems : Forall exportable_saving items) :
  exists csv,
    savingsCsv (JArr items) st = (Normal csv, st) /\
    read csv = Some (["Name"; "Target"; "Current"]%string :: map saving_fields items).
Proof.
  apply (csv_of_reads_back savingRow saving_cells exportable_saving).
  - intros r s. apply savingRow_run.
  - intros r (_ & _ & Bt & Bc). split; [discriminate|]. repeat constructor; assumption.
  - discriminate.
  - repeat constructor.
  - exact Hitems.
Qed.

End WithBackend.

(** ** The exports of the Reports page and of the Savings page *)

Lemma records_read_back (header : list string) (rows : list (list Cell)) :
  header <> [] -> Forall (fun h => bare h = true) header ->
  Forall (fun row => row <> [] /\ Forall cell_ok row) rows ->
  read (String.concat (String line_feed EmptyString)
          (String.concat "," header :: map row_text rows)) =
  Some (header :: map (map cell_value) rows).
Proof.
  intros Nh Bh Ok.
  assert (T : String.concat (String line_feed EmptyString)
                (String.concat "," header :: map row_text rows) =
              table_text (map Plain header :: rows)).
  { unfold table_text. cbn [map]. f_equal. f_equal.
    unfold row_text. rewrite map_map. cbn [cell_text]. now rewrite map_id. }
  rewrite T. unfold read. rewrite read_table.
  - cbn [app map]. rewrite map_map. cbn [cell_value]. now rewrite map_id.
  - discriminate.
  - constructor; [|exact Ok].
    split; [now destruct header|]. rewrite Forall_map. exact Bh.
Qed.

Lemma monthly_lines (print : number -> string) (labels : list string) :
  forall (values before : list number),
    length labels = length values ->
    mapi_from (fun m i =>
                 (m ++ ","
                  ++ match nth_error (before ++ values) i with
                     | Some x => print x
                     | None => "undefined"
                     end)%string)
              (length before) labels =
    map (fun mv => row_text [Plain (fst mv); Plain (print (snd mv))])
        (combine labels values).
Proof.
  induction labels as [|m labels IH]; intros [|x values] before L;
    try discriminate L; [reflexivity|].
  cbn [mapi_from combine map]. f_equal.
  - rewrite nth_error_app2, Nat.sub_diag by lia. reflexivity.
  - specialize (IH values (before ++ [x])).
    rewrite <- app_assoc, length_app, Nat.add_1_r in IH. apply IH.
    now injection L.
Qed.

(** X25: the monthly CSV of the Reports page reads back.  When the windowed
    labels and values are as many, and no label and no printed value holds
    a comma, a double quote or a line feed, the text of the export is read
    by a CSV reader as the header record month, amount followed by one
    record per month of the window, in order, holding its label and its
    value. *)
Theorem exportMonthlyCSV_reads_back (print : number -> string)
  (monthlyLabels : list string) (monthlyValues : list number)
  (Hlength : length monthlyLabels = length monthlyValues)
  (Hbare : Forall (fun mv => bare (fst mv) = true /\ bare (print (snd mv)) = true)
                  (combine monthlyLabels monthlyValues)) :
  read (Reports.exportMonthlyCSV print monthlyLabels monthlyValues) =
  Some (["month"; "amount"]%string
        :: map (fun mv => [fst mv; print (snd mv)]) (combine monthlyLabels monthlyValues)).
Proof.
  unfold Reports.exportMonthlyCSV, mapi.
  pose proof (monthly_lines print monthlyLabels monthlyValues [] Hlength) as M.
  cbn [app length] in M. rewrite M. clear M.
  pose proof (records_read_back ["month"; "amount"]%string
                (map (fun mv => [Plain (fst mv); Plain (print (snd mv))])
                     (combine monthlyLabels monthlyValues))) as R.
  rewrite !map_map in R. cbn [map cell_value] in R. apply R.
  - discriminate.
  - repeat constructor.
  - rewrite Forall_map. revert Hbare. apply Forall_impl. intros mv [B1 B2].
    split; [discriminate | repeat constructor; assumption].
Qed.

(** X26: the categories CSV of the Reports page reads back.  When no
    category name and no printed amount holds a comma, a double quote or a
    line feed, the text of the export is read by a CSV reader as the header
    record category, amount followed by one record per category, in sorted
    order, holding its name and its amount.  (The names are written as they
    are, without quotes.) *)
Theorem exportCategoriesCSV_reads_back (print : number -> string)
  (categoriesSorted : list Reports.Category)
  (Hbare : Forall (fun c => bare (Reports.k c) = true /\ bare (print (Reports.v c)) = true)
                  categoriesSorted) :
  read (Reports.exportCategoriesCSV print categoriesSorted) =
  Some (["category"; "amount"]%string
        :: map (fun c => [Reports.k c; print (Reports.v c)]) categoriesSorted).
Proof.
  unfold Reports.exportCategoriesCSV.
  pose proof (records_read_back ["category"; "amount"]%string
                (map (fun c => [Plain (Reports.k c); Plain (print (Reports.v c))])
                     categoriesSorted)) as R.
  rewrite !map_map in R. cbn [map cell_value] in R. apply R.
  - discriminate.
  - repeat constructor.
  - rewrite Forall_map. revert Hbare. apply Forall_impl. intros c [B1 B2].
    split; [discriminate | repeat constructor; assumption].
Qed.

(** The fields of the line of a goal in the export of the Savings page. *)
Lemma export_line_cells (print : number -> string) (g : Savings.Saving) :
  Savings.export_line print g =
  row_text [ Plain (print (Savings.id g)); Quote (Savings.name g);
             Plain (print (number_or_zero (Savings.current g)));
             Plain (print (number_or_zero (Savings.target g)));
             Plain (print (Savings.remaining g)); Plain (print (Savings.pct g)) ].
Proof. reflexivity. Qed.


Import Samples.

Ltac exportable :=
  repeat split; try discriminate; try reflexivity;
  try (right; eexists; reflexivity); try (left; reflexivity).

(** [expensesCsv_reads_back] on two expenses, one with a comma in its
    category and double quotes in its description, one without a
    description. *)
Lemma expensesCsv_reads_back_witness :
  Forall (@exportable_expense printing_engine) exported_expenses /\
  exists csv,
    @expensesCsv printing_engine sample_backend (JArr exported_expenses) idle
    = (Normal csv, idle) /\
    read csv =
    Some [ ["Date"; "Category"; "Description"; "Amount"];
           ["2025-01-09"; "Food, drink"; "He said " ++ quote ++ "hi" ++ quote; "12"];
           ["2025-01-10"; "Rent"; ""; "500"] ]%string.
Proof.
  assert (Ok : Forall (@exportable_expense printing_engine) exported_expenses).
  { constructor; [|constructor; [|constructor]]; exportable. }
  split; [exact Ok|].
  destruct (@expensesCsv_reads_back printing_engine sample_backend exported_expenses idle Ok)
    as (csv & E & R).
  exists csv. split; [exact E | exact R].
Defined.

(** [budgetsCsv_reads_back] on two budgets, one without a limit. *)
Lemma budgetsCsv_reads_back_witness :
  Forall (@exportable_budget printing_engine) exported_budgets /\
  exists csv,
    @budgetsCsv printing_engine sample_backend (JArr exported_budgets) idle
    = (Normal csv, idle) /\
    read csv =
    Some [ ["Category"; "Limit"]; ["Food, drink"; "20000"]; ["Rent"; "0"] ]%string.
Proof.
  assert (Ok : Forall (@exportable_budget printing_engine) exported_budgets).
  { constructor; [|constructor; [|constructor]]; exportable. }
  split; [exact Ok|].
  destruct (@budgetsCsv_reads_back printing_engine sample_backend exported_budgets idle Ok)
    as (csv & E & R).
  exists csv. split; [exact E | exact R].
Defined.

(** [savingsCsv_reads_back] on two savings, one with a line feed in its
    name, one without a current amount. *)
Lemma savingsCsv_reads_back_witness :
  Forall (@exportable_saving printing_engine) exported_savings /\
  exists csv,
    @savingsCsv printing_engine sample_backend (JArr exported_savings) idle
    = (Normal csv, idle) /\
    read csv =
    Some [ ["Name"; "Target"; "Current"];
           ["Trip" ++ String (ascii_of_nat 10) "2026"; "1000"; "250"];
           ["Laptop"; "2000"; "0"] ]%string.
Proof.
  assert (Ok : Forall (@exportable_saving printing_engine) exported_savings).
  { constructor; [|constructor; [|constructor]]; exportable. }
  split; [exact Ok|].
  destruct (@savingsCsv_reads_back printing_engine sample_backend exported_savings idle Ok)
    as (csv & E & R).
  exists csv. split; [exact E | exact R].
Defined.

(** [exportMonthlyCSV_reads_back] on a window of two months. *)
Lemma exportMonthlyCSV_reads_back_witness :
  length ["2025-01"; "2025-02"]%string = length [1200; 950] /\
  Forall (fun mv => bare (fst mv) = true /\ bare (print_whole (snd mv)) = true)
         (combine ["2025-01"; "2025-02"]%string [1200; 950]) /\
  read (Reports.exportMonthlyCSV print_whole ["2025-01"; "2025-02"]%string [1200; 950]) =
  Some [ ["month"; "amount"]; ["2025-01"; "1200"]; ["2025-02"; "950"] ]%string.
Proof.
  split; [reflexivity|].
  assert (B : Forall (fun mv => bare (fst mv) = true /\ bare (print_whole (snd mv)) = true)
                     (combine ["2025-01"; "2025-02"]%string [1200; 950]))
    by (repeat constructor).
  split; [exact B|].
  exact (exportMonthlyCSV_reads_back print_whole ["2025-01"; "2025-02"]%string [1200; 950]
           eq_refl B).
Defined.

(** [exportCategoriesCSV_reads_back] on two categories. *)
Lemma exportCategoriesCSV_reads_back_witness :
  let categories := [ {| Reports.k := "Food"%string; Reports.v := 50 |};
                      {| Reports.k := "Rent"%string; Reports.v := 30 |} ] in
  Forall (fun c => bare (Reports.k c) = true /\ bare (print_whole (Reports.v c)) = true)
         categories /\
  read (Reports.exportCategoriesCSV print_whole categories) =
  Some [ ["category"; "amount"]; ["Food"; "50"]; ["Rent"; "30"] ]%string.
Proof.
  intros categories.
  assert (B : Forall (fun c => bare (Reports.k c) = true /\
                               bare (print_whole (Reports.v c)) = true) categories)
    by (repeat constructor).
  split; [exact B|].
  exact (exportCategoriesCSV_reads_back print_whole categories B).
Defined.


(** ** The exports, computed *)

Example expenses_csv_text :
  fst (@expensesCsv printing_engine sample_backend (JArr exported_expenses) idle) =
  Normal ("Date,Category,Description,Amount" ++ String (ascii_of_nat 10)
          ("2025-01-09," ++ quote ++ "Food, drink" ++ quote ++ ","
           ++ quote ++ "He said " ++ quote ++ quote ++ "hi" ++ quote ++ quote ++ quote
           ++ ",12" ++ String (ascii_of_nat 10)
          ("2025-01-10," ++ quote ++ "Rent" ++ quote ++ "," ++ quote ++ quote
           ++ ",500")))%string.
Proof. reflexivity. Qed.

Example number_in_a_quoted_field :
  @quoted printing_engine (Some (JNum 5)) = Throw "replace is not a function"%string.
Proof. reflexivity. Qed.

End CsvFacts.

(** * The Settings page: clearing, exporting to CSV, seeding *)

Module SettingsPageFacts.

Import JS JSFacts MathFacts Settings SettingsSpec SettingsPageSpec SettingsFacts.

Section WithBackend.

Context `{Engine} `{Backend}.

(** The frame every handler puts around its work: busy while it runs, the
    message of what it throws as the notice, idle at the end. *)
Lemma guarded_run (body : M unit) (st : St) :
  let st0 := snd (setBusy true st) in
  let st' := snd (try_finally
                    (try_catch (setBusy true ;;; body) (fun message => setInfo message))
                    (setBusy false) st) in
  events st' = events (snd (body st0)) /\
  server st' = server (snd (body st0)) /\
  busy (page st') = false /\
  pendingImport (page st') = pendingImport (page (snd (body st0))) /\
  info (page st') = match fst (body st0) with
                    | Normal _ => info (page (snd (body st0)))
                    | Throw message => message
                    end.
Proof.
  unfold try_finally, try_catch, bind, setBusy, setInfo, update_page. simpl.
  destruct (body _) as [[[]|m] s]; simpl; repeat split.
Qed.

Lemma refreshCounts_run (st : St) :
  exists r1 r2 r3 st',
    refreshCounts_start st = (Normal tt, st') /\
    events st' = events st ++ reads r1 r2 r3 /\
    pendingImport (page st') = pendingImport (page st) /\
    info (page st') = info (page st).
Proof.
  unfold refreshCounts_start.
  unfold bind at 1, setBusy at 1, update_page at 1.
  match goal with
  | |- context [bind (send getExpenses) _ ?s] => set (s0 := s)
  end.
  destruct (send_run getExpenses s0) as (r1 & t1 & G1 & F1 & Q1 & _).
  destruct (send_run getBudgets t1) as (r2 & t2 & G2 & F2 & Q2 & _).
  destruct (send_run getSavings t2) as (r3 & t3 & G3 & F3 & Q3 & _).
  exists r1, r2, r3, t3.
  unfold bind at 1. rewrite G1. unfold bind at 1. rewrite G2.
  unfold bind at 1. rewrite G3.
  split; [reflexivity|]. rewrite F3, F2, F1, Q3, Q2, Q1. unfold s0. simpl.
  split; [now rewrite <- !app_assoc|]. now split.
Qed.

(** X10: [clearData].  Declined, it changes nothing.  Confirmed, it sends
    reads and deletions only -- nothing is created or updated -- and leaves
    the page idle and the staged import as it was.  Either the clearing
    completes: the three reads resolved with lists, one resolved deletion
    followed for every record read, the notice is "All data cleared." and
    the counts are read again; or it fails: the failing batch is the last
    thing sent, nothing is read again and the notice is the message of the
    failure.  On a server that resolves every read with a list of records
    and every deletion, it completes. *)
Theorem clearData_spec (st : St) :
  let st' := snd (clearData true st) in
  snd (clearData false st) = st /\
  busy (page st') = false /\
  pendingImport (page st') = pendingImport (page st) /\
  exists clearing refresh,
    events st' = events st ++ clearing ++ refresh /\
    Forall (fun e => clearing_event e = true) (clearing ++ refresh) /\
    ((cleared clearing /\ (exists r1 r2 r3, refresh = reads r1 r2 r3) /\
      info (page st') = "All data cleared."%string) \/
     (exists message,
        clearing_failed clearing message /\ refresh = [] /\
        info (page st') = message)) /\
    (cooperative -> cleared clearing).
Proof.
  intros st'. split; [reflexivity|].
  assert (Hc : clearData true st =
               try_finally
                 (try_catch
                    (setBusy true ;;;
                     clearExisting ;;; setInfo "All data cleared." ;;; refreshCounts_start)
                    (fun message => setInfo message))
                 (setBusy false) (snd (setInfo "" st))) by reflexivity.
  unfold st'. rewrite Hc. clear Hc st'. set (s0 := snd (setInfo "" st)).
  destruct (guarded_run
              (clearExisting ;;; setInfo "All data cleared." ;;; refreshCounts_start) s0)
    as (E & _ & B & P & I).
  rewrite B, P. clear B P. cbv zeta in E, I |- *. rewrite E, I. clear E I.
  set (s1 := snd (setBusy true s0)).
  assert (E1 : events s1 = events st) by reflexivity.
  assert (P1 : pendingImport (page s1) = pendingImport (page st)) by reflexivity.
  destruct ((clearExisting ;;; setInfo "All data cleared." ;;; refreshCounts_start) s1)
    as [q fin] eqn:Hrun.
  cbn [fst snd].
  destruct (clearExisting_run s1) as (evs & q2 & s2 & H2 & E2 & P2 & C2 & A2 & R2).
  unfold bind at 1 in Hrun. rewrite H2 in Hrun.
  destruct q2 as [[]|m].
  - unfold bind at 1, setInfo at 1, update_page at 1 in Hrun.
    match type of Hrun with
    | refreshCounts_start ?s = _ => set (s3 := s) in Hrun
    end.
    destruct (refreshCounts_run s3) as (r1 & r2 & r3 & s4 & H4 & E4 & P4 & I4).
    rewrite H4 in Hrun. injection Hrun as <- <-.
    rewrite P4, I4, E4. unfold s3. cbn. rewrite P2, E2, E1, P1.
    split; [reflexivity|]. split; [reflexivity|].
    exists evs, (reads r1 r2 r3). split; [now rewrite app_assoc|].
    split; [apply Forall_app; split; [exact C2 | repeat constructor]|].
    split; [left; split; [exact R2 | split; [now exists r1, r2, r3 | reflexivity]]|].
    intros _. exact R2.
  - injection Hrun as <- <-. rewrite P2, E2, E1, P1.
    split; [reflexivity|]. split; [reflexivity|].
    exists evs, []. rewrite !app_nil_r. split; [reflexivity|]. split; [exact C2|].
    split; [right; exists m; now repeat split|].
    intros Co. destruct (cooperative_clears _ _ Co C2 A2 (clearing_failed_failure _ _ R2)).
Qed.

(** ** The CSV export handlers *)

Lemma stateless_ret {A : Type} (a : A) : stateless (ret a).
Proof. now exists (Normal a). Qed.

Lemma stateless_lift {A : Type} (c : completion A) : stateless (lift c).
Proof. now exists c. Qed.

Lemma stateless_throw {A : Type} (message : string) : stateless (throw message : M A).
Proof. now exists (Throw message). Qed.

Lemma stateless_bind {A B : Type} (m : M A) (k : A -> M B) :
  stateless m -> (forall a, stateless (k a)) -> stateless (bind m k).
Proof.
  intros [[a|e] Hm] Hk.
  - destruct (Hk a) as [r Hr]. exists r. intros st. unfold bind. now rewrite Hm, Hr.
  - exists (Throw e). intros st. unfold bind. now rewrite Hm.
Qed.

Lemma stateless_mapM {A B : Type} (f : A -> M B) (l : list A) :
  (forall a, stateless (f a)) -> stateless (mapM f l).
Proof.
  intros Hf. induction l as [|a l IH]; simpl; [apply stateless_ret|].
  apply stateless_bind; [apply Hf | intros b].
  apply stateless_bind; [exact IH | intros bs; apply stateless_ret].
Qed.

Lemma stateless_csv_of (headers : list string) (row : json -> M string) (data : json) :
  (forall r, stateless (row r)) -> stateless (csv_of headers row data).
Proof.
  intros Hr. unfold csv_of. apply stateless_bind; [|intros rows; apply stateless_ret].
  destruct data; try apply stateless_throw. now apply stateless_mapM.
Qed.

Ltac stateless_steps :=
  repeat (apply stateless_bind; [apply stateless_lift | intros ?]); apply stateless_ret.

Lemma stateless_expenseRow (r : json) : stateless (expenseRow r).
Proof. unfold expenseRow. stateless_steps. Qed.

Lemma stateless_budgetRow (b : json) : stateless (budgetRow b).
Proof. unfold budgetRow. stateless_steps. Qed.

Lemma stateless_savingRow (s : json) : stateless (savingRow s).
Proof. unfold savingRow. stateless_steps. Qed.

Lemma export_run (reading : Call) (csv : json -> M string) (filename notice : string)
  (st : St) :
  (forall data, stateless (csv data)) ->
  export_outcome reading csv filename notice st
    (snd (try_finally
            (try_catch
               (setBusy true ;;;
                data <- call reading ;;
                text <- csv data ;;
                log (Downloaded filename (JStr text)) ;;;
                setInfo notice)
               (fun message => setInfo message))
            (setBusy false) (snd (setInfo "" st)))).
Proof.
  intros Hcsv. set (s0 := snd (setInfo "" st)).
  destruct (guarded_run
              (data <- call reading ;;
               text <- csv data ;;
               log (Downloaded filename (JStr text)) ;;; setInfo notice) s0)
    as (E & _ & B & P & I).
  unfold export_outcome. rewrite B, P. clear B P. cbv zeta in E, I |- *.
  rewrite E, I. clear E I.
  set (s1 := snd (setBusy true s0)).
  destruct ((data <- call reading ;;
             text <- csv data ;;
             log (Downloaded filename (JStr text)) ;;; setInfo notice) s1)
    as [q fin] eqn:Hrun.
  cbn [fst snd].
  destruct (call_run reading s1) as (r & s2 & Hs & Hc & E2 & P2).
  assert (Hr : r = fst (respond (server st) reading)).
  { unfold send in Hs. change (server s1) with (server st) in Hs.
    destruct (respond (server st) reading) as [r' x]. now injection Hs as <- _. }
  unfold bind at 1 in Hrun. rewrite Hc in Hrun.
  exists r. destruct r as [data|m].
  - destruct (Hcsv data) as [c Hpure].
    unfold bind at 1 in Hrun. rewrite (Hpure s2) in Hrun. rewrite (Hpure st). cbn [fst].
    destruct c as [text|m].
    + unfold bind, log, setInfo, update_page in Hrun. injection Hrun as <- <-. cbn.
      exists [Downloaded filename (JStr text)]. rewrite E2, P2.
      split; [now rewrite <- app_assoc|]. repeat split. exact Hr.
    + injection Hrun as <- <-. exists []. rewrite E2, P2. repeat split. exact Hr.
  - injection Hrun as <- <-. exists []. rewrite E2, P2. repeat split. exact Hr.
Qed.

(** X11: the three CSV export handlers.  Each sends one request, the read
    of its category, and no other; it leaves the page idle and the staged
    import as it was.  When the read is rejected, no file is produced and
    the notice is the message of the rejection.  When it resolves, the text
    is built from the response: if that succeeds, one file of that text is
    downloaded, under the name of the category, and the notice says so; if
    it throws (the response is not a list, an entry is [null], a field to
    be quoted is neither a string nor falsy), no file is produced and the
    notice is the message of the error. *)
Theorem csv_exports_spec (st : St) :
  export_outcome getExpenses expensesCsv "expenses.csv" "Expenses CSV exported."
    st (snd (downloadExpensesCsv st)) /\
  export_outcome getBudgets budgetsCsv "budgets.csv" "Budgets CSV exported."
    st (snd (downloadBudgetsCsv st)) /\
  export_outcome getSavings savingsCsv "savings.csv" "Savings CSV exported."
    st (snd (downloadSavingsCsv st)).
Proof.
  split; [|split].
  - apply (export_run getExpenses expensesCsv). intros data.
    apply stateless_csv_of, stateless_expenseRow.
  - apply (export_run getBudgets budgetsCsv). intros data.
    apply stateless_csv_of, stateless_budgetRow.
  - apply (export_run getSavings savingsCsv). intros data.
    apply stateless_csv_of, stateless_savingRow.
Qed.

(** ** The progress bar of an import *)

Lemma progressWidth_bounds (p : Progress) :
  (current p <= total p)%nat -> 0 <= progressWidth p <= 100.
Proof.
  intros L. unfold progressWidth. destruct (Nat.eqb_spec (total p) 0) as [Z|N].
  - split; [apply Qle_refl | discriminate].
  - assert (T : 0 < inject_Z (Z.of_nat (total p))).
    { change 0 with (inject_Z 0). rewrite <- Zlt_Qlt. lia. }
    assert (C0 : 0 <= inject_Z (Z.of_nat (current p))).
    { change 0 with (inject_Z 0). rewrite <- Zle_Qle. lia. }
    assert (C1 : inject_Z (Z.of_nat (current p)) <= inject_Z (Z.of_nat (total p))).
    { rewrite <- Zle_Qle. lia. }
    generalize dependent (inject_Z (Z.of_nat (total p))).
    generalize dependent (inject_Z (Z.of_nat (current p))). intros c C0 t T C1.
    assert (D0 : 0 <= c / t) by (apply Qle_shift_div_l; [exact T | lra]).
    assert (D1 : c / t <= 1) by (apply Qle_shift_div_r; [exact T | lra]).
    apply (Math_round_between _ 0 100).
    + change (inject_Z 0) with 0. generalize dependent (c / t). intros q ? ?. lra.
    + change (inject_Z 100) with 100. generalize dependent (c / t). intros q ? ?. lra.
Qed.

Lemma progressWidth_full (p : Progress) :
  total p <> 0%nat -> current p = total p -> progressWidth p == 100.
Proof.
  intros N E. unfold progressWidth. destruct (Nat.eqb_spec (total p) 0) as [Z|_];
    [contradiction|].
  rewrite E.
  assert (T : ~ inject_Z (Z.of_nat (total p)) == 0).
  { change 0 with (inject_Z 0). rewrite inject_Z_injective. lia. }
  assert (X : inject_Z (Z.of_nat (total p)) / inject_Z (Z.of_nat (total p)) * 100 == 100)
    by (field; exact T).
  unfold Math_round. rewrite X. reflexivity.
Qed.

Lemma all_reports_bounded (payload : BackupPayload) :
  Forall (fun p => (current p <= total p)%nat) (all_reports payload).
Proof.
  unfold all_reports, total_of. rewrite !Forall_app, !Forall_map.
  repeat split; apply Forall_forall; intros i Hi; apply in_seq in Hi; simpl; lia.
Qed.

Lemma all_reports_last (payload : BackupPayload) (d : Progress) :
  last (all_reports payload) d =
  {| step := "Importing savings"; current := total_of payload; total := total_of payload |}.
Proof.
  unfold all_reports. rewrite (seq_S (length (savings payload))), map_app, !app_assoc.
  simpl map. rewrite last_last. reflexivity.
Qed.

(** X12: the progress bar of an import stays within its track.  In every
    confirmed run, each progress report shown, the placeholder included,
    has a count that does not exceed its total, so that the width of the
    bar, in percent, is between 0 and 100.  When the run completes, the bar
    ends full, at 100, unless the document holds no record at all: the
    total is then zero and the width of the bar is 0 to the end. *)
Theorem importProgress_bar (st : St) (name : string) (doc : json) (payload : BackupPayload)
  (Hpending : pendingImport (page st) = Some (name, doc))
  (Htyped : asBackupPayload doc = Some payload) :
  exists st' shown,
    runImport true st = Some st' /\
    reports (events st') = reports (events st) ++ shown /\
    Forall (fun p => (current p <= total p)%nat /\ 0 <= progressWidth p <= 100) shown /\
    (pendingImport (page st') = None ->
     progressWidth (last shown {| step := ""; current := 0; total := 0 |}) ==
     if (total_of payload =? 0)%nat then 0 else 100).
Proof.
  destruct (runImport_run st name doc payload Hpending Htyped)
    as (st' & Hrun & _ & _ & R).
  exists st'.
  assert (B : forall l, Forall (fun p => (current p <= total p)%nat) l ->
                Forall (fun p => (current p <= total p)%nat /\ 0 <= progressWidth p <= 100)
                       l).
  { intros l. apply Forall_impl. intros p L. split; [exact L | now apply progressWidth_bounds]. }
  assert (P0 : (current {| step := "Clearing existing"; current := 0; total := 1 |}
                <= total {| step := "Clearing existing"; current := 0; total := 1 |})%nat)
    by (simpl; lia).
  destruct R as [clearing m E C A F Pe I
                |clearing recreation m E A C P Pe I
                |clearing recreation r1 r2 r3 E A C P Pe I].
  - destruct (clearing_silent _ C) as [Rc _].
    exists [{| step := "Clearing existing"; current := 0; total := 1 |}].
    split; [exact Hrun|]. split; [rewrite E, reports_app; simpl; now rewrite Rc|].
    split; [apply B; now constructor|].
    intros N. rewrite N, Hpending in Pe. discriminate Pe.
  - destruct (clearing_silent _ (cleared_clearing _ C)) as [Rc _].
    destruct (plan_run _ _ _ _ _ P) as (_ & (n & Rr) & _).
    exists ({| step := "Clearing existing"; current := 0; total := 1 |} :: reports recreation).
    split; [exact Hrun|].
    split; [rewrite E, reports_app; simpl; now rewrite reports_app, Rc|].
    split.
    + apply B. constructor; [exact P0|]. rewrite Rr, planned_plan.
      apply Forall_prefix, all_reports_bounded.
    + intros N. rewrite N, Hpending in Pe. discriminate Pe.
  - destruct (clearing_silent _ (cleared_clearing _ C)) as [Rc _].
    destruct (plan_run _ _ _ _ _ P) as (_ & _ & _ & _ & _ & Rall & _).
    rewrite planned_plan in Rall.
    exists ({| step := "Clearing existing"; current := 0; total := 1 |} :: all_reports payload).
    split; [exact Hrun|].
    split; [rewrite E, reports_app; simpl; now rewrite !reports_app, Rc, Rall, app_nil_r|].
    split; [apply B; constructor; [exact P0 | apply all_reports_bounded]|].
    intros _. rewrite last_cons, all_reports_last.
    destruct (Nat.eqb_spec (total_of payload) 0) as [Z|N].
    + unfold progressWidth. simpl total. rewrite Z. reflexivity.
    + now apply progressWidth_full.
Qed.

(** ** From a backup to an import *)

(** X28: a backup can be imported.  When the three reads of [downloadJson]
    resolve with lists, the document of the file it downloads holds these
    three lists under [expenses], [budgets] and [savings]; it is a document
    that [handleFile] stages, whenever the parser reads it back from the
    text of a file, with the notice "Ready to import"; and a confirmed
    [runImport] of the page it is staged on restores from it the entries
    that were read: the creation requests of the run are an initial part of
    the creations of the expenses read, then of the budgets, then of the
    savings, each built by [creation_of] from the entry as it was read, and
    they are all of them when the run clears the pending document. *)
Theorem backup_can_be_imported (st : St) (ex bu sa : list json)
  (Hreads : exists files,
      events (snd (downloadJson st)) =
      events st
      ++ reads (Resolve (JArr ex)) (Resolve (JArr bu)) (Resolve (JArr sa)) ++ files) :
  exists doc,
    events (snd (downloadJson st)) =
    events st
    ++ reads (Resolve (JArr ex)) (Resolve (JArr bu)) (Resolve (JArr sa))
    ++ [Downloaded "finance-backup.json" doc] /\
    acceptable doc = true /\
    asBackupPayload doc = Some {| expenses := ex; budgets := bu; savings := sa |} /\
    forall (f : File) (s : St),
      JSON_parse (file_text f) = Normal doc ->
      let s1 := snd (handleFile (Some f) s) in
      let read := map (creation_of Expense) ex ++ map (creation_of Budget) bu
                  ++ map (creation_of Saving) sa in
      pendingImport (page s1) = Some (file_name f, doc) /\
      info (page s1) = ("Ready to import: " ++ file_name f)%string /\
      exists fin run,
        runImport true s1 = Some fin /\
        events fin = events s ++ placeholder :: run /\
        (exists n, created run = firstn n read) /\
        (pendingImport (page fin) = None -> created run = read).
Proof.
  destruct Hreads as (files & Hev).
  destruct (downloadJson st) as [r fin] eqn:Hrun. cbn [snd] in *.
  unfold downloadJson in Hrun.
  unfold bind at 1, setInfo at 1, update_page at 1 in Hrun.
  unfold try_finally, try_catch in Hrun.
  unfold bind at 1, setBusy at 1, update_page at 1 in Hrun.
  cbn [page server events importing importProgress info busy currency dateFmt numFmt
       firstDay pendingImport] in Hrun.
  match type of Hrun with
  | context [bind fetchAll _ ?s] => set (st0 := s) in Hrun
  end.
  destruct (fetchAll_run st0) as (r1 & r2 & r3 & s1 & Hf & E1 & P1 & _).
  unfold bind at 1 in Hrun. rewrite Hf in Hrun.
  assert (Hr : r1 = Resolve (JArr ex) /\ r2 = Resolve (JArr bu) /\ r3 = Resolve (JArr sa)).
  { destruct (first_rejection [r1; r2; r3]) as [m|] eqn:F.
    - injection Hrun as _ <-. cbn in Hev. rewrite E1 in Hev. cbn in Hev.
      apply app_inv_head in Hev. now injection Hev as -> -> ->.
    - destruct r1 as [b1|], r2 as [b2|], r3 as [b3|]; try discriminate F.
      cbn in Hrun. injection Hrun as _ <-. cbn in Hev. rewrite E1 in Hev. cbn in Hev.
      rewrite <- app_assoc in Hev. apply app_inv_head in Hev.
      now injection Hev as -> -> ->. }
  destruct Hr as (-> & -> & ->).
  cbn in Hrun. injection Hrun as _ <-. cbn. rewrite E1. cbn.
  eexists. split; [rewrite <- app_assoc; reflexivity|].
  split; [reflexivity|]. split; [reflexivity|].
  intros f s Hparse.
  match goal with
  | |- context [JObj ?fields] => set (doc := JObj fields) in *
  end.
  assert (Hstaged : snd (handleFile (Some f) s) =
                    {| page := page (snd (handleFile (Some f) s));
                       server := server s; events := events s |} /\
                    pendingImport (page (snd (handleFile (Some f) s)))
                    = Some (file_name f, doc) /\
                    info (page (snd (handleFile (Some f) s)))
                    = ("Ready to import: " ++ file_name f)%string).
  { unfold handleFile, try_catch, bind, lift. rewrite Hparse. cbn. now repeat split. }
  destruct Hstaged as (Hs & Hp & Hi). cbv zeta.
  split; [exact Hp|]. split; [exact Hi|].
  destruct (runImport_creations (snd (handleFile (Some f) s)) (file_name f) doc
              {| expenses := ex; budgets := bu; savings := sa |} Hp eq_refl)
    as (fin & run & Hr & He & Hn & Hall).
  exists fin, run. split; [exact Hr|].
  split; [rewrite He, Hs; reflexivity|]. split; [exact Hn | exact Hall].
Qed.

(** ** Seeding the demo data *)

Lemma tried_run (body : M unit) (st : St) :
  let st' := snd (try_finally (try_catch body (fun message => setInfo message))
                              (setBusy false) st) in
  events st' = events (snd (body st)) /\
  busy (page st') = false /\
  pendingImport (page st') = pendingImport (page (snd (body st))) /\
  info (page st') = match fst (body st) with
                    | Normal _ => info (page (snd (body st)))
                    | Throw message => message
                    end.
Proof.
  unfold try_finally, try_catch, bind, setBusy, setInfo, update_page. simpl.
  destruct (body _) as [[[]|m] s]; simpl; repeat split.
Qed.

Ltac next_call Hrun :=
  lazymatch type of Hrun with
  | context [call ?c ?s] =>
      let r := fresh "r" in
      let s' := fresh "s" in
      let Hc := fresh "Hc" in
      let He := fresh "He" in
      let Hp := fresh "Hp" in
      destruct (call_run c s) as (r & s' & _ & Hc & He & Hp);
      rewrite Hc in Hrun; clear Hc;
      destruct r as [?created|?message]; cbv beta iota in Hrun
  | context [lift ?c ?s] =>
      unfold lift at 1 in Hrun; cbn [get] in Hrun; cbv beta iota in Hrun; next_call Hrun
  | context [@ret ?E ?B ?a ?s] =>
      unfold ret at 1 in Hrun; cbv beta iota in Hrun; next_call Hrun
  | _ => unfold bind at 1 in Hrun; next_call Hrun
  end.

Ltac events_back :=
  repeat match goal with
         | He : events _ = _ |- _ => rewrite He; clear He
         end.

Ltac pages_back :=
  repeat match goal with
         | Hp : page _ = _ |- _ => rewrite Hp; clear Hp
         end.

Ltac seeding_failed :=
  match goal with
  | Hrun : (Throw ?m, _) = _ |- _ =>
      injection Hrun as <- <-; cbn [fst snd];
      split; [pages_back; reflexivity|];
      eexists; exists []; rewrite app_nil_r;
      split; [events_back; rewrite <- ?app_assoc; simpl; reflexivity|];
      split; [repeat constructor|];
      split; [match goal with
              | |- exists n, created ?run = _ => exists (length (created run)); reflexivity
              end|];
      split; [simpl; auto 20|];
      right; exists m;
      split; [match goal with
              | |- ends_with_rejection ?run _ => exists (removelast run); eexists; reflexivity
              end|];
      split; reflexivity
  end.

Ltac seeding_current Hrun :=
  unfold setCurrent at 1 in Hrun;
  match type of Hrun with
  | context [truthy (get_optional (Some ?x) "id")] =>
      let T := fresh "T" in
      destruct (truthy (get_optional (Some x) "id")) eqn:T;
      [destruct x; try discriminate T; next_call Hrun; [|seeding_failed]|]
  end.

Ltac to_refresh Hrun :=
  lazymatch type of Hrun with
  | refreshCounts_start ?s = _ => idtac
  | context [@ret ?E ?B ?a ?s] =>
      unfold ret at 1 in Hrun; cbv beta iota in Hrun; to_refresh Hrun
  | context [setInfo ?m ?s] =>
      unfold setInfo at 1, update_page at 1 in Hrun; cbv beta iota in Hrun; to_refresh Hrun
  | _ => unfold bind at 1 in Hrun; to_refresh Hrun
  end.

Ltac seeding_done Hrun :=
  to_refresh Hrun;
  match type of Hrun with
  | refreshCounts_start ?s = _ =>
      let r1 := fresh "r" in
      let r2 := fresh "r" in
      let r3 := fresh "r" in
      let s4 := fresh "s" in
      let H4 := fresh "H" in
      let E4 := fresh "E" in
      let P4 := fresh "P" in
      let I4 := fresh "I" in
      destruct (refreshCounts_run s) as (r1 & r2 & r3 & s4 & H4 & E4 & P4 & I4);
      rewrite H4 in Hrun; injection Hrun as <- <-; cbn [fst snd];
      rewrite P4, I4, E4; clear P4 I4 E4;
      cbn [page events info pendingImport];
      split; [pages_back; reflexivity|];
      eexists; exists (reads r1 r2 r3);
      split; [rewrite app_assoc; f_equal; events_back; rewrite <- ?app_assoc; simpl;
              reflexivity|];
      split; [repeat constructor|];
      split; [exists 9%nat; reflexivity|];
      split; [simpl; auto 20|];
      left; split; [reflexivity|];
      split; [repeat constructor|];
      split; [now exists r1, r2, r3 | reflexivity]
  end.

(** X13: [seedDemoData].  Declined, it changes nothing.  Confirmed, it
    leaves the page idle and the staged import as it was, and before the
    counts are read again it sends creation and update requests only --
    no read and no deletion, so that nothing that exists is removed.  The
    creations are an initial part of the fixed list of five expenses, two
    budgets and two savings, in that order, and an update is sent only
    right after the creation of a saving has resolved, with the [id] of its
    answer.  Either everything is created, no request is rejected,
    the notice is "Demo data added." and the counts are read again; or the
    run stops at the first rejected request, which is the last thing sent,
    and the notice is the message of that rejection. *)
Theorem seedDemoData_spec (st : St) :
  let st' := snd (seedDemoData true st) in
  snd (seedDemoData false st) = st /\
  busy (page st') = false /\
  pendingImport (page st') = pendingImport (page st) /\
  exists run refresh,
    events st' = events st ++ run ++ refresh /\
    Forall (fun e => clearing_event e = false) run /\
    (exists n, created run = firstn n demo_creations) /\
    updates_follow_creations None run /\
    ((created run = demo_creations /\
      Forall (fun e => rejected e = false) run /\
      (exists r1 r2 r3, refresh = reads r1 r2 r3) /\
      info (page st') = "Demo data added."%string) \/
     (exists message,
        ends_with_rejection run message /\ refresh = [] /\
        info (page st') = message)).
Proof.
  intros st'. split; [reflexivity|].
  set (s0 := snd (setInfo "" (snd (setBusy true st)))).
  unfold st'. clear st'.
  match goal with
  | |- context [snd (seedDemoData true st)] =>
      change (seedDemoData true st)
        with (try_finally
                (try_catch
                   (let ym := substring 0 7 Date_toISOString in
                    _ <- mapM (fun e : string * string * string * number =>
                                 let '(date, category, description, amount) := e in
                                 call (createExpense (Some (JStr date)) (Some (JStr category))
                                         (Some (JStr description)) (Finite amount)))
                              (demoExpenses ym) ;;
                    _ <- call (createBudget (Some (JStr "Food")) (Finite 20000)) ;;
                    _ <- call (createBudget (Some (JStr "Transport")) (Finite 10000)) ;;
                    s1 <- call (createSaving (Some (JStr "Emergency Fund")) (Finite 200000)) ;;
                    setCurrent s1 25000 ;;;
                    s2 <- call (createSaving (Some (JStr "New Phone")) (Finite 150000)) ;;
                    setCurrent s2 60000 ;;;
                    setInfo "Demo data added." ;;;
                    refreshCounts_start)
                   (fun message => setInfo message))
                (setBusy false) s0)
  end.
  match goal with
  | |- context [try_catch ?b _] => set (body := b)
  end.
  destruct (tried_run body s0) as (E & B & P & I).
  cbv zeta in E, B, P, I. rewrite E, B, P, I. clear E B P I.
  split; [reflexivity|].
  assert (E0 : events s0 = events st) by reflexivity.
  assert (P0 : pendingImport (page s0) = pendingImport (page st)) by reflexivity.
  destruct (body s0) as [q fin] eqn:Hrun. unfold body in Hrun. clear body.
  cbv zeta in Hrun. unfold demoExpenses in Hrun. cbn [mapM] in Hrun.
  cbv beta iota in Hrun.
  do 8 (next_call Hrun; [|seeding_failed]).
  seeding_current Hrun; (next_call Hrun; [|seeding_failed]);
    seeding_current Hrun; seeding_done Hrun.
Qed.

End WithBackend.

Import Samples.

(** [importProgress_bar] on the sample document, staged in front of the
    sample server: the run completes and the bar ends full. *)
Lemma importProgress_bar_witness :
  pendingImport (page (staged sample_backup)) = Some ("backup.json"%string, sample_backup) /\
  asBackupPayload sample_backup = Some sample_payload /\
  exists st' shown,
    @runImport sample_engine sample_backend true (staged sample_backup) = Some st' /\
    reports (events st') = shown /\
    Forall (fun p => 0 <= progressWidth p <= 100) shown.
Proof.
  split; [reflexivity|]. split; [reflexivity|].
  destruct (@importProgress_bar sample_engine sample_backend (staged sample_backup)
              "backup.json" sample_backup sample_payload eq_refl eq_refl)
    as (st' & shown & R & E & F & _).
  exists st', shown. split; [exact R|]. split; [exact E|].
  revert F. apply Forall_impl. now intros p [_ B].
Defined.

(** The backup of the sample server, read back from its file and imported
    there: the run completes. *)
Lemma sample_round_trip :
  option_map (fun fin : @St sample_backend => pendingImport (page fin))
    (@runImport reading_engine sample_backend true
       (snd (@handleFile reading_engine sample_backend
               (Some {| file_name := "finance-backup.json"; file_text := "finance-backup" |})
               idle)))
  = Some None.
Proof. vm_compute. reflexivity. Qed.

(** [backup_can_be_imported] on the sample server: the backup holds the
    expense and the saving of the sample store; read back from its file and
    imported, it has the run send the creation requests of these two
    records and of no other. *)
Lemma backup_can_be_imported_witness :
  let ex := map row_json (expense_rows sample_store) in
  let sa := map row_json (saving_rows sample_store) in
  let f := {| file_name := "finance-backup.json"; file_text := "finance-backup" |} in
  (exists files,
     events (snd (@downloadJson reading_engine sample_backend idle)) =
     events idle
     ++ reads (Resolve (JArr ex)) (Resolve (JArr [])) (Resolve (JArr sa)) ++ files) /\
  exists doc fin run,
    events (snd (@downloadJson reading_engine sample_backend idle)) =
    reads (Resolve (JArr ex)) (Resolve (JArr [])) (Resolve (JArr sa))
    ++ [Downloaded "finance-backup.json" doc] /\
    asBackupPayload doc = Some {| expenses := ex; budgets := []; savings := sa |} /\
    @JSON_parse reading_engine (file_text f) = Normal doc /\
    @runImport reading_engine sample_backend true
      (snd (@handleFile reading_engine sample_backend (Some f) idle)) = Some fin /\
    events fin = placeholder :: run /\
    pendingImport (page fin) = None /\
    created run =
    map (@creation_of reading_engine Expense) ex
    ++ map (@creation_of reading_engine Saving) sa.
Proof.
  intros ex sa f.
  assert (R : exists files,
            events (snd (@downloadJson reading_engine sample_backend idle)) =
            events idle
            ++ reads (Resolve (JArr ex)) (Resolve (JArr [])) (Resolve (JArr sa)) ++ files)
    by (eexists; reflexivity).
  split; [exact R|].
  destruct (@backup_can_be_imported reading_engine sample_backend idle ex [] sa R)
    as (doc & E & _ & T & I).
  assert (Hparse : @JSON_parse reading_engine (file_text f) = Normal doc).
  { pose proof E as D.
    apply (f_equal (fun l => last l placeholder)) in D.
    unfold ex, sa in D. vm_compute in D. injection D as <-. reflexivity. }
  destruct (I f idle Hparse) as (_ & _ & fin & run & Hr & He & _ & Hall).
  pose proof sample_round_trip as S. fold f in S. rewrite Hr in S. injection S as Pe.
  exists doc, fin, run. split; [exact E|]. split; [exact T|]. split; [exact Hparse|].
  split; [exact Hr|]. split; [exact He|]. split; [exact Pe | exact (Hall Pe)].
Defined.

(** ** The handlers, run *)

Example clearData_sample :
  let st := snd (@clearData sample_engine sample_backend true idle) in
  events st =
  [ Called getExpenses (Resolve (JArr (map row_json (expense_rows sample_store))));
    Called getBudgets (Resolve (JArr []));
    Called getSavings (Resolve (JArr (map row_json (saving_rows sample_store))));
    Called (deleteExpense (Some (JNum 1))) (Resolve JNull);
    Called (deleteSaving (Some (JNum 2))) (Resolve JNull);
    Called getExpenses (Resolve (JArr []));
    Called getBudgets (Resolve (JArr []));
    Called getSavings (Resolve (JArr [])) ] /\
  info (page st) = "All data cleared."%string /\ busy (page st) = false.
Proof. repeat split. Qed.

Example seedDemoData_offline :
  let st := snd (@seedDemoData sample_engine offline_backend true idle_offline) in
  let message := "Network error. Is the API running on 4000?"%string in
  events st =
  [ Called (createExpense (Some (JStr "2025-01-02")) (Some (JStr "Food"))
              (Some (JStr "Groceries")) (Finite 3200)) (Reject message) ] /\
  info (page st) = message /\ busy (page st) = false.
Proof. repeat split. Qed.

Example progressWidth_rounds :
  progressWidth {| step := "Importing savings"; current := 1; total := 3 |} == 33 /\
  progressWidth {| step := "Importing savings"; current := 2; total := 3 |} == 67 /\
  progressWidth {| step := "Clearing existing"; current := 0; total := 0 |} == 0.
Proof. repeat split. Qed.

End SettingsPageFacts.

(** * The API client *)

Module ApiFacts.

Import JS Settings Api ApiSpec.

Lemma strip_slashes_spec (base : string) :
  exists slashes,
    base = (strip_slashes base ++ slashes)%string /\
    only_slashes slashes = true /\ ends_with_slash (strip_slashes base) = false.
Proof.
  induction base as [|c rest (slashes & E & O & N)]; [now exists EmptyString|].
  cbn [strip_slashes]. destruct (strip_slashes rest) as [|k kept] eqn:S.
  - simpl in E. subst rest. destruct (Ascii.eqb c "/") eqn:C.
    + exists (String c slashes). simpl. now rewrite C, O.
    + exists slashes. simpl. now rewrite C, O.
  - exists slashes. split; [simpl; now rewrite E at 1|]. split; [exact O | exact N].
Qed.

Lemma strip_slashes_slash (base : string) :
  strip_slashes (base ++ "/") = strip_slashes base.
Proof.
  induction base as [|c rest IH]; [reflexivity|]. simpl. now rewrite IH.
Qed.

(** X14: [joinUrl].  A path that starts with [http://] or [https://] is
    returned as it is.  Any other path is appended to the base with exactly
    one slash between them: the base loses the slashes it ends with, the
    path the slash it starts with, if any, and the result is the base, a
    slash and the path.  So a slash more at the end of the base changes
    nothing. *)
Theorem joinUrl_spec (base path : string) :
  (is_absolute path = true -> joinUrl base path = path) /\
  (is_absolute path = false ->
   exists b slashes rest,
     base = (b ++ slashes)%string /\
     only_slashes slashes = true /\ ends_with_slash b = false /\
     ((path = rest /\ prefix "/" path = false) \/ path = String "/" rest) /\
     joinUrl base path = (b ++ String "/" rest)%string) /\
  joinUrl (base ++ "/") path = joinUrl base path.
Proof.
  split; [|split].
  - intros A. unfold joinUrl. now rewrite A.
  - intros A. unfold joinUrl. rewrite A.
    destruct (strip_slashes_spec base) as (slashes & E & O & N).
    exists (strip_slashes base), slashes.
    destruct (prefix "/" path) eqn:P.
    + destruct path as [|c rest]; [discriminate P|].
      change (prefix "/" (String c rest))
        with (if ascii_dec "/" c then prefix "" rest else false) in P.
      destruct (ascii_dec "/" c) as [<-|]; [|discriminate P].
      exists rest. repeat split; auto.
    + exists path. repeat split; auto.
  - unfold joinUrl. now rewrite strip_slashes_slash.
Qed.

Section WithEngine.

Context `{Engine}.

Variable trim : string -> string.

(** X15: how [request] settles.  When [fetch] fails, the promise is
    rejected with the network error message.  A response of status 204
    resolves with [null].  Any other response of a status from 200 to 299
    resolves; and a response of any other status is rejected, with a
    message that depends on the body: for a body of text, the text itself,
    unless it starts (spaces apart) with an angle bracket, as an HTML page
    does, in which case the message is made of the status line; for a JSON
    body, its [message] when it has a truthy one, and the status text
    otherwise. *)
Theorem request_settles (fetched : option HttpResponse) :
  match fetched with
  | None =>
      request trim fetched = Reject "Network error. Is the API running on 4000?"
  | Some res =>
      ((status res = 204)%Z -> request trim fetched = Resolve JNull) /\
      (ok res = true -> exists body, request trim fetched = Resolve body) /\
      (ok res = false ->
       exists message,
         request trim fetched = Reject message /\
         (forall text, read_body res = JStr text ->
            message =
            if prefix "<" (trim text)
            then ("HTTP " ++ NilZero.string_of_int (Z.to_int (status res))
                  ++ " " ++ statusText res)%string
            else text) /\
         ((forall text, read_body res <> JStr text) ->
          message =
          if truthy (get_optional (Some (read_body res)) "message")
          then match get_optional (Some (read_body res)) "message" with
               | Some m => message_of m
               | None => statusText res
               end
          else statusText res))
  end.
Proof.
  destruct fetched as [res|]; [|reflexivity].
  unfold request.
  split; [|split].
  - intros S. rewrite S. reflexivity.
  - intros O. rewrite O. simpl negb. cbv iota.
    destruct (status res =? 204)%Z; [now eexists|].
    destruct (read_body res); try (now eexists).
    destruct (negb (is_json res)); [|now eexists].
    destruct (JSON_parse s); now eexists.
  - intros O. rewrite O. simpl negb. cbv iota.
    destruct (Z.eqb_spec (status res) 204) as [S|_].
    { unfold ok in O. rewrite S in O. discriminate O. }
    eexists. split; [reflexivity|]. split.
    + intros text ->. reflexivity.
    + intros N. destruct (read_body res) as [| | |text| |fields]; try reflexivity.
      * now destruct (N text).
      * simpl get_optional. destruct (lookup "message" fields); reflexivity.
Qed.

(** X16: on a successful response the content type does not decide what
    the caller receives.  When the body of a response of a status from 200
    to 299, other than 204, is a JSON text, [request] resolves with the
    document it holds, whether the response is labelled as JSON or not. *)
Theorem request_parses_any_content_type (res : HttpResponse) (document : json)
  (Hok : ok res = true) (Hstatus : status res <> 204%Z)
  (Hbody : JSON_parse (body_text res) = Normal document) :
  request trim (Some res) = Resolve document.
Proof.
  unfold request, read_body. rewrite Hok.
  destruct (Z.eqb_spec (status res) 204) as [S|_]; [contradiction|].
  simpl negb. cbv iota.
  destruct (is_json res) eqn:J.
  - rewrite Hbody. now destruct document.
  - simpl negb. cbv iota. now rewrite Hbody.
Qed.

End WithEngine.

Import Samples.

(** [request_parses_any_content_type] on a response of status 200 that
    holds the JSON text of [null] and is labelled as plain text. *)
Lemma request_parses_any_content_type_witness :
  ok text_response = true /\ status text_response <> 204%Z /\
  @JSON_parse sample_engine (body_text text_response) = Normal JNull /\
  @request sample_engine (fun s => s) (Some text_response) = Resolve JNull.
Proof.
  split; [reflexivity|]. split; [discriminate|]. split; [reflexivity|].
  apply (@request_parses_any_content_type sample_engine (fun s => s) text_response JNull);
    [reflexivity | discriminate | reflexivity].
Defined.

(** ** The client, run *)

Example joinUrl_examples :
  joinUrl "http://localhost:4000/api" "/expenses" = "http://localhost:4000/api/expenses"%string /\
  joinUrl "http://localhost:4000/api//" "expenses" = "http://localhost:4000/api/expenses"%string /\
  joinUrl "http://localhost:4000/api" "HTTPS://example.org/x" = "HTTPS://example.org/x"%string.
Proof. repeat split. Qed.

Example request_hides_an_error_page :
  @request sample_engine (fun s => s)
    (Some {| status := 404; statusText := "Not Found";
             content_type := Some "text/html"%string;
             body_text := "<!doctype html><html></html>" |}) =
  Reject "HTTP 404 Not Found".
Proof. reflexivity. Qed.

End ApiFacts.

(** * The Savings page *)

Module SavingsFacts.

Import JS JSFacts MathFacts Components Savings.

Lemma Math_max2_least (a b : number) : a <= Math_max2 a b /\ b <= Math_max2 a b.
Proof. destruct (Math_max2_cases a b) as [[-> L]|[-> L]]; split; lra. Qed.

Lemma Math_min2_most (a b : number) : Math_min2 a b <= a /\ Math_min2 a b <= b.
Proof. destruct (Math_min2_cases a b) as [[-> L]|[-> L]]; split; lra. Qed.

Lemma pct_le (g : Saving) : pct g <= 100.
Proof. unfold pct. apply Math_min2_most. Qed.

Lemma ratio_sign (c d : number) : 0 <= c -> 0 < d -> 0 <= c / d * 100.
Proof.
  intros C D. assert (R : 0 <= c / d) by (apply Qle_shift_div_l; [exact D | lra]).
  generalize dependent (c / d). intros q R. lra.
Qed.

Lemma pct_ge (g : Saving) : 0 <= current g -> 0 <= pct g.
Proof.
  intros C. unfold pct.
  pose proof (number_or_zero_eq (current g)) as Ec.
  pose proof (Math_max2_least 1 (number_or_zero (target g))) as [D _].
  set (c := number_or_zero (current g)) in *.
  set (d := Math_max2 1 (number_or_zero (target g))) in *.
  assert (X : 0 <= c / d * 100) by (apply ratio_sign; lra).
  apply Math_round_le in X. change (Math_round 0) with (Math_round (inject_Z 0)) in X.
  rewrite Math_round_integer in X. change (inject_Z 0) with 0 in X.
  destruct (Math_min2_cases 100 (Math_round (c / d * 100))) as [[-> _]|[-> _]];
    [discriminate | exact X].
Qed.

Lemma safe_bounds (p : number) : 0 <= safe p <= 100.
Proof.
  unfold safe.
  destruct (Math_max2_cases 0 (Math_min2 100 p)) as [[E1 L1]|[E1 L1]]; rewrite E1;
    destruct (Math_min2_cases 100 p) as [[E2 L2]|[E2 L2]]; rewrite E2 in *; split; lra.
Qed.

Lemma safe_inside (p : number) : 0 <= p <= 100 -> safe p == p.
Proof.
  intros [L U]. unfold safe.
  destruct (Math_max2_cases 0 (Math_min2 100 p)) as [[E1 L1]|[E1 L1]]; rewrite E1;
    destruct (Math_min2_cases 100 p) as [[E2 L2]|[E2 L2]]; rewrite E2 in *; lra.
Qed.

(** X17: the percentage on the card of a goal, and the bar under it.  The
    percentage is never above 100, and the bar is always between 0 and 100
    wide, whatever percentage it is given; for a goal whose current amount
    is not negative the percentage is not negative either, and the bar is
    exactly as wide as the percentage says. *)
Theorem card_within_bounds (g : Saving) :
  pct g <= 100 /\
  (forall p, 0 <= safe p <= 100) /\
  (0 <= current g -> 0 <= pct g /\ safe (pct g) == pct g).
Proof.
  split; [apply pct_le|]. split; [apply safe_bounds|].
  intros C. pose proof (pct_ge g C) as L. split; [exact L|].
  apply safe_inside. split; [exact L | apply pct_le].
Qed.

Lemma done_iff (g : Saving) : done g = true <-> target g <= current g.
Proof.
  unfold done. rewrite Qle_bool_iff.
  pose proof (number_or_zero_eq (target g)). pose proof (number_or_zero_eq (current g)).
  split; lra.
Qed.

(** X18: what the card says about a goal agrees with its status.  The
    amount that remains is never negative, and it is zero exactly for the
    goals that count as completed, those whose current amount has reached
    the target; such a goal, when its target is at least 1, is drawn with a
    percentage of 100 and as completed. *)
Theorem remaining_iff_done (g : Saving) :
  0 <= remaining g /\
  (remaining g == 0 <-> done g = true) /\
  (done g = true -> 1 <= target g -> pct g == 100 /\ complete g = true).
Proof.
  pose proof (number_or_zero_eq (target g)) as Et.
  pose proof (number_or_zero_eq (current g)) as Ec.
  split; [|split].
  - unfold remaining. apply Math_max2_least.
  - rewrite done_iff. unfold remaining.
    destruct (Math_max2_cases 0 (number_or_zero (target g) - number_or_zero (current g)))
      as [[E L]|[E L]]; rewrite E; split; intros; lra.
  - intros D T. apply done_iff in D.
    assert (P : 100 <= pct g).
    { unfold pct.
      destruct (Math_max2_cases 1 (number_or_zero (target g))) as [[E L]|[E L]]; rewrite E.
      - assert (X : 100 <= number_or_zero (current g) / 1 * 100) by (field_simplify; lra).
        apply Math_round_le in X. change (Math_round 100) with (Math_round (inject_Z 100)) in X.
        rewrite Math_round_integer in X. change (inject_Z 100) with 100 in X.
        destruct (Math_min2_cases 100 (Math_round (number_or_zero (current g) / 1 * 100)))
          as [[-> _]|[-> _]]; lra.
      - set (c := number_or_zero (current g)) in *. set (t := number_or_zero (target g)) in *.
        assert (R : 1 <= c / t) by (apply Qle_shift_div_l; lra).
        assert (X : 100 <= c / t * 100) by (generalize dependent (c / t); intros; lra).
        apply Math_round_le in X. change (Math_round 100) with (Math_round (inject_Z 100)) in X.
        rewrite Math_round_integer in X. change (inject_Z 100) with 100 in X.
        destruct (Math_min2_cases 100 (Math_round (c / t * 100))) as [[-> _]|[-> _]]; lra. }
    split; [pose proof (pct_le g); lra|]. unfold complete. now apply Qle_bool_iff.
Qed.

(** ** The summary *)

Section Folding.

Context {A : Type} (f : A -> number).




End Folding.




(** ** The largest goal *)

Lemma fold_largest (key : Saving -> number) (rest : list Saving) :
  forall before acc mid,
    Forall (fun g => key g < key acc) before ->
    Forall (fun g => key g <= key acc) mid ->
    let r := fold_left (fun max g => if ltb (key max) (key g) then g else max) rest acc in
    exists before' after,
      before ++ acc :: mid ++ rest = before' ++ r :: after /\
      Forall (fun g => key g < key r) before' /\
      Forall (fun g => key g <= key r) after.
Proof.
  induction rest as [|g rest IH]; intros before acc mid B M; cbv zeta.
  - exists before, mid. rewrite app_nil_r. now repeat split.
  - simpl fold_left. destruct (ltb (key acc) (key g)) eqn:E.
    + apply ltb_lt in E.
      destruct (IH (before ++ acc :: mid) g []) as (b' & a' & Eq & Fb & Fa).
      * rewrite Forall_app. split; [|constructor; [exact E|]].
        -- revert B. apply Forall_impl. intros x. lra.
        -- revert M. apply Forall_impl. intros x. lra.
      * constructor.
      * exists b', a'. split; [|now split].
        rewrite <- Eq, <- !app_assoc. reflexivity.
    + apply ltb_ge in E.
      destruct (IH before acc (mid ++ [g]) B) as (b' & a' & Eq & Fb & Fa).
      * rewrite Forall_app. split; [exact M | now constructor].
      * exists b', a'. split; [|now split].
        rewrite <- Eq, <- !app_assoc. reflexivity.
Qed.

(** X20: the largest goal of the summary.  There is none when there are no
    goals.  Otherwise it is one of the goals, namely the first of those
    with the highest target: every goal listed before it has a strictly
    smaller target, and no goal listed after it has a larger one. *)
Theorem largest_spec (goals : list Saving) :
  (goals = [] -> largest (summary goals) = None) /\
  (goals <> [] ->
   exists before top after,
     largest (summary goals) = Some top /\
     goals = before ++ top :: after /\
     Forall (fun g => target g < target top) before /\
     Forall (fun g => target g <= target top) after).
Proof.
  split; [now intros ->|].
  intros N. destruct goals as [|first rest]; [contradiction|].
  destruct (fold_largest (fun g => number_or_zero (target g)) rest [] first [])
    as (before & after & Eq & Fb & Fa); [constructor | constructor|].
  cbv zeta in Eq, Fb, Fa.
  assert (L : largest (summary (first :: rest)) =
              Some (fold_left
                      (fun max g =>
                         if ltb (number_or_zero (target max)) (number_or_zero (target g))
                         then g else max) rest first)).
  { unfold summary. cbn [largest fold_left].
    assert (E : ltb (number_or_zero (target first)) (number_or_zero (target first)) = false)
      by (apply ltb_ge, Qle_refl).
    now rewrite E. }
  eexists before, _, after. split; [exact L|]. split; [exact Eq|]. split.
  - revert Fb. apply Forall_impl. intros g.
    rewrite !number_or_zero_eq. auto.
  - revert Fa. apply Forall_impl. intros g.
    rewrite !number_or_zero_eq. auto.
Qed.

(** ** The status filter *)

(** X21: the status filter splits the goals that match the search.  For any
    search text, the goals listed under Completed are the completed ones
    among those listed under All, the goals listed under Active are the
    others, both in the order of All, so that every match is listed under
    exactly one of the two.  When the search text is blank, All lists every
    goal and Completed as many goals as the summary counts as completed. *)
Theorem filtered_by_status (trim toLowerCase : string -> string)
  (goals : list Saving) (q : string) :
  let shown := filtered trim toLowerCase goals q in
  shown Completed = filter done (shown All) /\
  shown Active = filter (fun g => negb (done g)) (shown All) /\
  length (shown All) = (length (shown Completed) + length (shown Active))%nat /\
  (toLowerCase (trim q) = EmptyString ->
   shown All = goals /\ length (shown Completed) = completed (summary goals)).
Proof.
  cbv zeta. unfold filtered.
  set (okQ := fun g : Saving =>
                String.eqb (toLowerCase (trim q)) "" ||
                includes (toLowerCase (name g)) (toLowerCase (trim q))).
  assert (F : forall (p : Saving -> bool) l,
            filter (fun g => okQ g && p g) l = filter p (filter (fun g => okQ g && true) l)).
  { intros p l. induction l as [|g l IH]; [reflexivity|]. simpl.
    destruct (okQ g); simpl; [|exact IH]. destruct (p g); now rewrite IH. }
  split; [apply (F done)|]. split; [apply (F (fun g => negb (done g)))|]. split.
  - rewrite (F done), (F (fun g => negb (done g))).
    change (length (filter (fun g => okQ g && true) goals) =
            (length (filter done (filter (fun g => okQ g && true) goals))
             + length (filter (fun g => negb (done g))
                         (filter (fun g => okQ g && true) goals)))%nat).
    generalize (filter (fun g => okQ g && true) goals). intros l.
    induction l as [|g l IH]; [reflexivity|]. simpl. destruct (done g); simpl; lia.
  - intros E.
    assert (Hall : filter (fun g => okQ g && true) goals = goals).
    { unfold okQ. rewrite E. simpl. clear. induction goals as [|g l IH]; [reflexivity|].
      simpl. now rewrite IH. }
    split; [exact Hall|]. rewrite (F done), Hall. reflexivity.
Qed.

(** ** The handlers *)

Section WithServer.

Context `{Server}.

Variable trim : string -> string.

Lemma save_run (request : Request) (on_saved : Saving -> Page -> Page) (st : State) :
  let st' := save request on_saved st in
  let answer := fst (respond (server st) request) in
  sent st' = sent st ++ [(request, answer)] /\
  server st' = snd (respond (server st) request) /\
  page st' = match answer with
             | Saved g => on_saved g (page st)
             | Rejected message => setErr (Some message) (page st)
             end.
Proof.
  unfold save. destruct (respond (server st) request) as [answer s']. now repeat split.
Qed.

(** X22: [contribute].  Nothing is sent, and nothing changes, for an amount
    that is not positive and for an identifier that no goal has.
    Otherwise one request is sent: an update of that goal that sets nothing
    but the current amount.  The amount it asks for never exceeds the
    target of the goal, and for a goal that is not beyond its target it is
    at least the present amount (two facts of order, which the rounding of
    a sum of doubles preserves).  If the request resolves, the goal is
    replaced by the answer and the entry is reset; if it is rejected, the
    goals stay as they are and the message is shown. *)
Theorem contribute_spec (id0 amount : number) (st : State) :
  let st' := contribute id0 amount st in
  let found := find (fun x => Qeq_bool (id x) id0) (goals (page st)) in
  (amount <= 0 -> st' = st) /\
  (found = None -> st' = st) /\
  (forall g, 0 < amount -> found = Some g ->
     exists value answer,
       sent st' =
       sent st ++ [(updateSaving id0 {| new_name := None; new_target := None;
                                        new_current := Some value |}, answer)] /\
       value <= target g /\
       (current g <= target g -> current g <= value) /\
       match answer with
       | Saved updated =>
           goals (page st') = replace id0 updated (goals (page st)) /\
           err (page st') = err (page st) /\ entry (page st') = (0, 0)
       | Rejected message =>
           goals (page st') = goals (page st) /\ err (page st') = Some message
       end).
Proof.
  cbv zeta. unfold contribute. split; [|split].
  - intros L. apply Qle_bool_iff in L. now rewrite L.
  - intros ->. now destruct (Qle_bool amount 0).
  - intros g P F. rewrite F.
    destruct (Qle_bool amount 0) eqn:E; [apply Qle_bool_iff in E; lra|].
    set (value := Math_min2 (target g) (number_or_zero (current g) + amount)).
    match goal with
    | |- context [save ?r ?k st] => destruct (save_run r k st) as (S & _ & Pg)
    end.
    cbv zeta in S, Pg. rewrite S, Pg.
    exists value. eexists. split; [reflexivity|].
    pose proof (number_or_zero_eq (current g)) as Ec.
    pose proof (number_or_zero_eq (target g)) as Et.
    pose proof (Math_min2_most (target g) (number_or_zero (current g) + amount)) as [M1 M2].
    fold value in M1, M2.
    split; [exact M1|]. split.
    + intros L. unfold value.
      destruct (Math_min2_cases (target g) (number_or_zero (current g) + amount))
        as [[-> _]|[-> _]]; lra.
    + destruct (fst (respond (server st) _)); now repeat split.
Qed.

(** X23: [submitGoal].  A request reaches the server only for a form that
    is valid: a name that is not empty once trimmed, a target above zero,
    and a current amount from zero to the target.  It is then the one
    request sent, with exactly these three values: an update of the goal
    being edited, or else a creation.  A form that is not valid sends
    nothing and leaves the goals alone, and the message names the first
    check that failed, in the order name, target, negative amount, amount
    above the target.  If the request resolves, the saved goal takes the
    place of the edited one, or comes first among the goals, and the form
    is reset; if it is rejected, the goals stay as they are and the message
    is shown. *)
Theorem submitGoal_spec (st : State) :
  let st' := submitGoal trim st in
  let name := entered_name trim (form (page st)) in
  let target := entered_target (form (page st)) in
  let current := entered_current (form (page st)) in
  let data := {| new_name := Some name; new_target := Some target;
                 new_current := Some current |} in
  let refused (message : string) :=
    sent st' = sent st /\ server st' = server st /\
    goals (page st') = goals (page st) /\ err (page st') = Some message in
  (name = EmptyString -> refused "Please enter a goal name"%string) /\
  (name <> EmptyString -> target <= 0 -> refused "Target must be greater than 0"%string) /\
  (name <> EmptyString -> 0 < target -> current < 0 ->
   refused "Current cannot be negative"%string) /\
  (name <> EmptyString -> 0 < target -> target < current ->
   refused "Current cannot exceed target"%string) /\
  (name <> EmptyString -> 0 < target -> 0 <= current <= target ->
   exists answer,
     sent st' =
     sent st ++ [(match editId (page st) with
                  | Some edited => updateSaving edited data
                  | None => createSaving data
                  end, answer)] /\
     match answer with
     | Saved saved =>
         goals (page st') =
         match editId (page st) with
         | Some edited => replace edited saved (goals (page st))
         | None => saved :: goals (page st)
         end /\
         err (page st') = None /\ editId (page st') = None /\
         form (page st') = {| form_name := Some EmptyString; form_target := Some 0;
                              form_current := Some 0 |}
     | Rejected message =>
         goals (page st') = goals (page st) /\ err (page st') = Some message /\
         editId (page st') = editId (page st) /\ form (page st') = form (page st)
     end) /\
  (sent st' <> sent st -> name <> EmptyString /\ 0 < target /\ 0 <= current <= target).
Proof.
  cbv zeta. unfold submitGoal. cbn [page server sent setErr form editId goals].
  set (name := entered_name trim (form (page st))).
  set (target := entered_target (form (page st))).
  set (current := entered_current (form (page st))).
  destruct (String.eqb_spec name "") as [N|N].
  { cbn. repeat split; try tauto; try contradiction. }
  destruct (Qle_bool target 0) eqn:T.
  { apply Qle_bool_iff in T. cbn. repeat split; try tauto; try contradiction; try lra. }
  assert (T' : 0 < target).
  { apply Qnot_le_lt. intros L. apply Qle_bool_iff in L. congruence. }
  destruct (ltb current 0) eqn:C0.
  { apply ltb_lt in C0. cbn. repeat split; try tauto; try contradiction; try lra. }
  apply ltb_ge in C0.
  destruct (ltb target current) eqn:C1.
  { apply ltb_lt in C1. cbn. repeat split; try tauto; try contradiction; try lra. }
  apply ltb_ge in C1.
  split; [intros E; contradiction|]. split; [intros; lra|].
  split; [intros; lra|]. split; [intros; lra|].
  split; [|intros; now repeat split].
  intros _ _ _.
  destruct (editId (page st)) as [edited|] eqn:Ed;
    match goal with
    | |- context [save ?r ?k ?s] => destruct (save_run r k s) as (S & _ & Pg)
    end;
    cbv zeta in S, Pg; rewrite S, Pg; cbn [page server sent];
    eexists; (split; [reflexivity|]);
    destruct (fst (respond _ _)); cbn; repeat split; rewrite ?Ed; reflexivity.
Qed.

End WithServer.

(** ** The order of the cards *)





End SavingsFacts.
